(** * Access-lifecycle engine of the group access bot

    Shallow embedding of [group_access_bot.py]: the grant store
    ([UserData], [DataManager]), the allowlist ([VIPManager]), the
    remaining-time formatter, the join gate, the admin grant handlers and
    the expiry sweeper, followed by the properties of the specification.

    Modelling conventions.
    - A naive [datetime] is the number of microseconds elapsed since
      0001-01-01T00:00:00; the representable instants are those of the years
      1..9999, and arithmetic that leaves that range raises [OverflowError]
      as in Python.  A [timedelta] is a number of microseconds.
    - A Python [float] is [nan], an infinity, or the rational it denotes;
      arithmetic on finite floats is exact (binary rounding is not modelled).
    - A [str] is the sequence of its UTF-8 bytes.
    - A [dict] is an association list in insertion order with unique keys.
    - Every call to the chat platform, every reply and every write of the
      data file is recorded in the world together with its outcome, which an
      oracle of the environment decides; [datetime.now()] reads the next
      value of a clock oracle. *)

From Stdlib Require Import ZArith QArith List String Ascii Bool Lia.
Import ListNotations.

Local Open Scope string_scope.
Local Open Scope list_scope.
Local Open Scope Z_scope.

(** ** Exceptions and results *)

Inductive exn : Type :=
| ValueError
| OverflowError
| KeyError
| TypeError
| AttributeError
| TransportError
| OSError.

Inductive result (A : Type) : Type :=
| Ok (a : A)
| Raise (e : exn).

Arguments Ok {A} a.
Arguments Raise {A} e.

Definition exn_eqb (a b : exn) : bool :=
  match a, b with
  | ValueError, ValueError | OverflowError, OverflowError
  | KeyError, KeyError | TypeError, TypeError
  | AttributeError, AttributeError | TransportError, TransportError
  | OSError, OSError => true
  | _, _ => false
  end.

(** ** Strings and integers *)

Definition is_digit (c : ascii) : bool :=
  let n := nat_of_ascii c in (48 <=? n)%nat && (n <=? 57)%nat.

Definition digit_val (c : ascii) : Z := Z.of_nat (nat_of_ascii c) - 48.

Definition digit_char (d : Z) : ascii := ascii_of_nat (Z.to_nat (48 + d)).

(** Python's [str.isspace] on the ASCII range: tab, LF, VT, FF, CR, the four
    separators 28..31 and the space. *)
Definition is_space (c : ascii) : bool :=
  let n := nat_of_ascii c in
  ((9 <=? n)%nat && (n <=? 13)%nat) || ((28 <=? n)%nat && (n <=? 32)%nat).

Fixpoint lstrip (s : string) : string :=
  match s with
  | String c s' => if is_space c then lstrip s' else s
  | EmptyString => EmptyString
  end.

Fixpoint rstrip (s : string) : string :=
  match s with
  | String c s' =>
      match rstrip s' with
      | EmptyString => if is_space c then EmptyString else String c EmptyString
      | r => String c r
      end
  | EmptyString => EmptyString
  end.

(** [s.strip()] *)
Definition strip (s : string) : string := rstrip (lstrip s).

(** No white space anywhere. *)
Fixpoint no_space (s : string) : bool :=
  match s with
  | String c s' => negb (is_space c) && no_space s'
  | EmptyString => true
  end.

(** [s.isdigit()] on ASCII text: non-empty and made of digits. *)
Fixpoint all_digits (s : string) : bool :=
  match s with
  | String c s' => is_digit c && all_digits s'
  | EmptyString => true
  end.

Definition isdigit (s : string) : bool :=
  match s with
  | EmptyString => false
  | _ => all_digits s
  end.

(** Decimal digits of a non-negative integer, most significant first, put in
    front of [acc]. *)
Fixpoint digits_acc (fuel : nat) (n : Z) (acc : string) : string :=
  let acc' := String (digit_char (n mod 10)) acc in
  match fuel with
  | O => acc'
  | S f => if n / 10 =? 0 then acc' else digits_acc f (n / 10) acc'
  end.

Definition str_nat (n : Z) : string :=
  digits_acc (Z.to_nat (Z.log2 n)) n EmptyString.

(** [str(n)] for an [int]. *)
Definition py_str (n : Z) : string :=
  if n <? 0 then String "-" (str_nat (- n)) else str_nat n.

(** Digits, single underscores allowed between digits. *)
Fixpoint int_digits (a : Z) (s : string) : option Z :=
  match s with
  | EmptyString => Some a
  | String c s' =>
      if is_digit c then int_digits (a * 10 + digit_val c) s'
      else if Ascii.eqb c "_" then
        match s' with
        | String c' s'' =>
            if is_digit c' then int_digits (a * 10 + digit_val c') s''
            else None
        | EmptyString => None
        end
      else None
  end.

Definition int_unsigned (s : string) : option Z :=
  match s with
  | String c s' => if is_digit c then int_digits (digit_val c) s' else None
  | EmptyString => None
  end.

(** [int(s)] for a [str] in base ten: surrounding white space, an optional
    sign, digits.  [None] stands for [ValueError]. *)
Definition py_int (s : string) : option Z :=
  match strip s with
  | String "-" r => option_map Z.opp (int_unsigned r)
  | String "+" r => int_unsigned r
  | r => int_unsigned r
  end.

(** [k] digits of [n], zero padded: ["%0kd" % n] for [0 <= n < 10**k]. *)
Fixpoint zfill (k : nat) (n : Z) (acc : string) : string :=
  match k with
  | O => acc
  | S k' => zfill k' (n / 10) (String (digit_char (n mod 10)) acc)
  end.

(** Read exactly [k] digits. *)
Fixpoint take_digits (k : nat) (a : Z) (s : string) : option (Z * string) :=
  match k with
  | O => Some (a, s)
  | S k' =>
      match s with
      | String c s' =>
          if is_digit c then take_digits k' (a * 10 + digit_val c) s' else None
      | EmptyString => None
      end
  end.

(** Read one given character. *)
Definition expect (c : ascii) (s : string) : option string :=
  match s with
  | String c' s' => if Ascii.eqb c c' then Some s' else None
  | EmptyString => None
  end.

(** [sep.join(parts)] *)
Fixpoint join (sep : string) (parts : list string) : string :=
  match parts with
  | [] => EmptyString
  | [p] => p
  | p :: ps => (p ++ sep ++ join sep ps)%string
  end.

(** ** The proleptic Gregorian calendar of [datetime] *)

Definition is_leap (year : Z) : bool :=
  (year mod 4 =? 0) && (negb (year mod 100 =? 0) || (year mod 400 =? 0)).

Definition days_before_year (year : Z) : Z :=
  let y := year - 1 in y * 365 + y / 4 - y / 100 + y / 400.

Definition DAYS_IN_MONTH (month : Z) : Z :=
  match month with
  | 1 => 31 | 2 => 28 | 3 => 31 | 4 => 30 | 5 => 31 | 6 => 30
  | 7 => 31 | 8 => 31 | 9 => 30 | 10 => 31 | 11 => 30 | 12 => 31
  | _ => -1
  end.

Definition DAYS_BEFORE_MONTH (month : Z) : Z :=
  match month with
  | 1 => 0 | 2 => 31 | 3 => 59 | 4 => 90 | 5 => 120 | 6 => 151
  | 7 => 181 | 8 => 212 | 9 => 243 | 10 => 273 | 11 => 304 | 12 => 334
  | _ => -1
  end.

Definition days_in_month (year month : Z) : Z :=
  if (month =? 2) && is_leap year then 29 else DAYS_IN_MONTH month.

Definition days_before_month (year month : Z) : Z :=
  DAYS_BEFORE_MONTH month + (if (2 <? month) && is_leap year then 1 else 0).

Definition ymd2ord (year month day : Z) : Z :=
  days_before_year year + days_before_month year month + day.

Definition DI400Y : Z := 146097.
Definition DI100Y : Z := 36524.
Definition DI4Y : Z := 1461.

(** The end of [_ord2ymd]: month and day of the day [n] (from 0) of a year,
    [leapyear] telling whether the year is a leap year. *)
Definition month_day (leapyear : bool) (n : Z) : Z * Z :=
  let month := Z.shiftr (n + 50) 5 in
  let preceding :=
    DAYS_BEFORE_MONTH month + (if (2 <? month) && leapyear then 1 else 0) in
  if n <? preceding then
    let month := month - 1 in
    let preceding :=
      preceding
      - (DAYS_IN_MONTH month + (if (month =? 2) && leapyear then 1 else 0)) in
    (month, n - preceding + 1)
  else (month, n - preceding + 1).

Definition ord2ymd (ordinal : Z) : Z * Z * Z :=
  let n := ordinal - 1 in
  let n400 := n / DI400Y in
  let n := n mod DI400Y in
  let year := n400 * 400 + 1 in
  let n100 := n / DI100Y in
  let n := n mod DI100Y in
  let n4 := n / DI4Y in
  let n := n mod DI4Y in
  let n1 := n / 365 in
  let n := n mod 365 in
  let year := year + (n100 * 100 + n4 * 4 + n1) in
  if (n1 =? 4) || (n100 =? 4) then (year - 1, 12, 31)
  else
    let leapyear := (n1 =? 3) && (negb (n4 =? 24) || (n100 =? 3)) in
    let '(month, day) := month_day leapyear n in
    (year, month, day).

(** [p] holds of the [n] integers from [r] on. *)
Fixpoint forall_from (n : nat) (r : Z) (p : Z -> bool) : bool :=
  match n with
  | O => true
  | S n' => p r && forall_from n' (r + 1) p
  end.

(** The day [n] of a year converts to a month and a day of that month, and
    the days before that month and the day add up to [n + 1]. *)
Definition month_day_ok (leapyear : bool) (n : Z) : bool :=
  let '(m, d) := month_day leapyear n in
  (1 <=? m) && (m <=? 12) && (1 <=? d)
  && (d <=? (if (m =? 2) && leapyear then 29 else DAYS_IN_MONTH m))
  && (DAYS_BEFORE_MONTH m + (if (2 <? m) && leapyear then 1 else 0) + d
      =? n + 1).

(** ** [datetime] and [timedelta] *)

Definition datetime : Type := Z.
Definition timedelta : Type := Z.

Definition US_PER_SECOND : Z := 1000000.
Definition US_PER_MINUTE : Z := 60000000.
Definition US_PER_HOUR : Z := 3600000000.
Definition US_PER_DAY : Z := 86400000000.

(** Ordinal of [datetime.max.date()], 9999-12-31. *)
Definition MAXORDINAL : Z := 3652059.

(** Instants of the years 1..9999. *)
Definition dt_valid (t : datetime) : bool :=
  (0 <=? t) && (t <? MAXORDINAL * US_PER_DAY).

(** [timedelta] keeps [-999999999 <= days <= 999999999]. *)
Definition td_valid (d : timedelta) : bool :=
  (-999999999 * US_PER_DAY <=? d) && (d <? 1000000000 * US_PER_DAY).

(** [t + d] for a datetime and a timedelta. *)
Definition dt_add (t : datetime) (d : timedelta) : result datetime :=
  if dt_valid (t + d) then Ok (t + d) else Raise OverflowError.

(** [a - b] for two datetimes: never out of range. *)
Definition dt_sub (a b : datetime) : timedelta := a - b.

(** [delta.days] and [delta.seconds] of the normalised representation. *)
Definition td_days (d : timedelta) : Z := d / US_PER_DAY.
Definition td_seconds (d : timedelta) : Z := (d mod US_PER_DAY) / US_PER_SECOND.

Record civil : Type := mkCivil {
  c_year : Z; c_month : Z; c_day : Z;
  c_hour : Z; c_minute : Z; c_second : Z; c_microsecond : Z
}.

Definition civil_of (t : datetime) : civil :=
  let '(y, m, d) := ord2ymd (t / US_PER_DAY + 1) in
  let r := t mod US_PER_DAY in
  mkCivil y m d (r / US_PER_HOUR) ((r mod US_PER_HOUR) / US_PER_MINUTE)
          ((r mod US_PER_MINUTE) / US_PER_SECOND) (r mod US_PER_SECOND).

(** The [datetime(...)] constructor: [None] stands for [ValueError]. *)
Definition of_civil (c : civil) : option datetime :=
  if (1 <=? c_year c) && (c_year c <=? 9999)
     && (1 <=? c_month c) && (c_month c <=? 12)
     && (1 <=? c_day c) && (c_day c <=? days_in_month (c_year c) (c_month c))
     && (0 <=? c_hour c) && (c_hour c <=? 23)
     && (0 <=? c_minute c) && (c_minute c <=? 59)
     && (0 <=? c_second c) && (c_second c <=? 59)
     && (0 <=? c_microsecond c) && (c_microsecond c <=? 999999)
  then Some ((ymd2ord (c_year c) (c_month c) (c_day c) - 1) * US_PER_DAY
             + c_hour c * US_PER_HOUR + c_minute c * US_PER_MINUTE
             + c_second c * US_PER_SECOND + c_microsecond c)
  else None.

(** [t.isoformat()]: [YYYY-MM-DDTHH:MM:SS], then [.ffffff] when the
    microsecond is not zero. *)
Definition isoformat (t : datetime) : string :=
  let c := civil_of t in
  zfill 4 (c_year c) (String "-"
  (zfill 2 (c_month c) (String "-"
  (zfill 2 (c_day c) (String "T"
  (zfill 2 (c_hour c) (String ":"
  (zfill 2 (c_minute c) (String ":"
  (zfill 2 (c_second c)
     (if c_microsecond c =? 0 then EmptyString
      else String "." (zfill 6 (c_microsecond c) EmptyString)))))))))))).

(** The fraction of a second: three or six digits. *)
Definition parse_fraction (s : string) : option Z :=
  match take_digits 3 0 s with
  | Some (ms, EmptyString) => Some (ms * 1000)
  | Some (ms, r) =>
      match take_digits 3 ms r with
      | Some (us, EmptyString) => Some us
      | _ => None
      end
  | None => None
  end.

(** [HH[:MM[:SS[.fff[fff]]]]], without a UTC offset. *)
Definition parse_time (s : string) : option (Z * Z * Z * Z) :=
  match take_digits 2 0 s with
  | Some (h, EmptyString) => Some (h, 0, 0, 0)
  | Some (h, String ":" r1) =>
      match take_digits 2 0 r1 with
      | Some (mi, EmptyString) => Some (h, mi, 0, 0)
      | Some (mi, String ":" r2) =>
          match take_digits 2 0 r2 with
          | Some (se, EmptyString) => Some (h, mi, se, 0)
          | Some (se, String "." r3) =>
              match parse_fraction r3 with
              | Some us => Some (h, mi, se, us)
              | None => None
              end
          | _ => None
          end
      | _ => None
      end
  | _ => None
  end.

(** [datetime.fromisoformat(s)] on the formats [isoformat] writes for naive
    datetimes: a date, then optionally any one separator and a time.
    [None] stands for [ValueError]. *)
Definition fromisoformat (s : string) : option datetime :=
  match take_digits 4 0 s with
  | Some (y, r0) =>
      match expect "-" r0 with
      | Some r1 =>
          match take_digits 2 0 r1 with
          | Some (m, r2) =>
              match expect "-" r2 with
              | Some r3 =>
                  match take_digits 2 0 r3 with
                  | Some (d, EmptyString) => of_civil (mkCivil y m d 0 0 0 0)
                  | Some (d, String _ r4) =>
                      match parse_time r4 with
                      | Some (h, mi, se, us) =>
                          of_civil (mkCivil y m d h mi se us)
                      | None => None
                      end
                  | None => None
                  end
              | None => None
              end
          | None => None
          end
      | None => None
      end
  | None => None
  end.

(** [t.strftime('%d.%m.%Y %H:%M')] *)
Definition strftime_dmy_hm (t : datetime) : string :=
  let c := civil_of t in
  zfill 2 (c_day c) (String "."
  (zfill 2 (c_month c) (String "."
  (zfill 4 (c_year c) (String " "
  (zfill 2 (c_hour c) (String ":"
  (zfill 2 (c_minute c) EmptyString)))))))).

(** ** Floats *)

Inductive pyfloat : Type :=
| FNan
| FInf (negative : bool)
| FFin (q : Q).

(** [x <= 0] and [x > 0]: every comparison with [nan] is false. *)
Definition float_le0 (x : pyfloat) : bool :=
  match x with
  | FNan => false
  | FInf negative => negative
  | FFin q => Qle_bool q 0
  end.

Definition float_gt0 (x : pyfloat) : bool :=
  match x with
  | FNan => false
  | FInf negative => negb negative
  | FFin q => negb (Qle_bool q 0)
  end.

(** Nearest integer, ties to the even one. *)
Definition round_half_even (q : Q) : Z :=
  let n := Qnum q in
  let d := Zpos (Qden q) in
  let fl := n / d in
  let r := n mod d in
  if 2 * r <? d then fl
  else if d <? 2 * r then fl + 1
  else if Z.even fl then fl else fl + 1.

(** [timedelta(hours=x)] *)
Definition timedelta_hours (x : pyfloat) : result timedelta :=
  match x with
  | FNan => Raise ValueError
  | FInf _ => Raise OverflowError
  | FFin q =>
      let us := round_half_even (q * inject_Z US_PER_HOUR)%Q in
      if td_valid us then Ok us else Raise OverflowError
  end.

(** [delta.total_seconds()] *)
Definition total_seconds (d : timedelta) : Q :=
  (inject_Z d / inject_Z US_PER_SECOND)%Q.

(** ** Dictionaries *)

Section Dict.
Context {K V : Type} (eqb : K -> K -> bool).

Fixpoint dict_get (k : K) (d : list (K * V)) : option V :=
  match d with
  | [] => None
  | (k', v) :: d' => if eqb k k' then Some v else dict_get k d'
  end.

Definition dict_mem (k : K) (d : list (K * V)) : bool :=
  match dict_get k d with Some _ => true | None => false end.

(** [d[k] = v]: in place when the key is there, else at the end. *)
Fixpoint dict_set (k : K) (v : V) (d : list (K * V)) : list (K * V) :=
  match d with
  | [] => [(k, v)]
  | (k', v') :: d' =>
      if eqb k k' then (k', v) :: d' else (k', v') :: dict_set k v d'
  end.

(** [del d[k]] *)
Fixpoint dict_del (k : K) (d : list (K * V)) : list (K * V) :=
  match d with
  | [] => []
  | (k', v') :: d' => if eqb k k' then d' else (k', v') :: dict_del k d'
  end.

(** A dict built by inserting the items one after the other, as a dict
    comprehension does. *)
Definition dict_of_items (items : list (K * V)) : list (K * V) :=
  fold_left (fun d kv => dict_set (fst kv) (snd kv) d) items [].

End Dict.

Definition dict_keys {K V : Type} (d : list (K * V)) : list K := map fst d.
Definition dict_values {K V : Type} (d : list (K * V)) : list V := map snd d.

(** ** JSON values, as [json.load] returns them and [json.dump] takes them *)

#[warnings="-register-all"]
Inductive json : Type :=
| JNull
| JBool (b : bool)
| JInt (n : Z)
| JStr (s : string)
| JList (l : list json)
| JDict (d : list (string * json)).

(** Python's truth value of a JSON value. *)
Definition truthy (j : json) : bool :=
  match j with
  | JNull => false
  | JBool b => b
  | JInt n => negb (n =? 0)
  | JStr s => negb (String.eqb s EmptyString)
  | JList l => match l with [] => false | _ => true end
  | JDict d => match d with [] => false | _ => true end
  end.

(** ** The grant record *)

Record UserData : Type := mkUserData {
  user_id : Z;
  username : option string;
  expires_at : option datetime;
  warning_sent : bool
}.

(** [UserData(user_id, username)] *)
Definition UserData_init (uid : Z) (uname : option string) : UserData :=
  mkUserData uid uname None false.

Definition set_username (u : UserData) (uname : option string) : UserData :=
  mkUserData (user_id u) uname (expires_at u) (warning_sent u).

Definition set_expires_at (u : UserData) (e : option datetime) : UserData :=
  mkUserData (user_id u) (username u) e (warning_sent u).

Definition set_warning_sent (u : UserData) (b : bool) : UserData :=
  mkUserData (user_id u) (username u) (expires_at u) b.

(** Truth value of an optional string: [None] and the empty string are false. *)
Definition str_truthy (s : option string) : bool :=
  match s with
  | Some s' => negb (String.eqb s' EmptyString)
  | None => false
  end.

Definition to_dict (u : UserData) : json :=
  JDict
    [ ("user_id", JInt (user_id u));
      ("username", match username u with Some s => JStr s | None => JNull end);
      ("expires_at",
        match expires_at u with
        | Some t => JStr (isoformat t)
        | None => JNull
        end);
      ("warning_sent", JBool (warning_sent u)) ].

(** [UserData.from_dict].  The record is typed: where Python would store a
    JSON value of another type in a field as it is, this raises [TypeError]. *)
Definition from_dict (data : json) : result UserData :=
  match data with
  | JDict d =>
      match dict_get String.eqb "user_id" d with
      | None => Raise KeyError
      | Some (JInt uid) =>
          match
            match dict_get String.eqb "username" d with
            | None | Some JNull => Ok None
            | Some (JStr s) => Ok (Some s)
            | Some _ => Raise TypeError
            end
          with
          | Raise e => Raise e
          | Ok uname =>
              match
                match dict_get String.eqb "expires_at" d with
                | None => Ok None
                | Some j =>
                    if truthy j then
                      match j with
                      | JStr s =>
                          match fromisoformat s with
                          | Some t => Ok (Some t)
                          | None => Raise ValueError
                          end
                      | _ => Raise TypeError
                      end
                    else Ok None
                end
              with
              | Raise e => Raise e
              | Ok e =>
                  match dict_get String.eqb "warning_sent" d with
                  | None => Ok (mkUserData uid uname e false)
                  | Some (JBool b) => Ok (mkUserData uid uname e b)
                  | Some _ => Raise TypeError
                  end
              end
          end
      | Some _ => Raise TypeError
      end
  | _ => Raise TypeError
  end.

(** The store of [DataManager]: a dict from user id to record. *)
Definition store : Type := list (Z * UserData).

(** The dict [save_data] hands to [json.dump]. *)
Definition dump_users (s : store) : json :=
  JDict (dict_of_items String.eqb
           (map (fun kv => (py_str (fst kv), to_dict (snd kv))) s)).

(** The dict comprehension of [load_data]; the first item that fails
    raises. *)
Fixpoint load_items (items : list (string * json)) (acc : store)
  : result store :=
  match items with
  | [] => Ok acc
  | (uid, udata) :: rest =>
      match py_int uid with
      | None => Raise ValueError
      | Some k =>
          match from_dict udata with
          | Raise e => Raise e
          | Ok u => load_items rest (dict_set Z.eqb k u acc)
          end
      end
  end.

Definition load_users (data : json) : result store :=
  match data with
  | JDict d => load_items d []
  | _ => Raise AttributeError
  end.

(** What [DATA_FILE] holds. *)
Inductive file_content : Type :=
| NoFile
| NotJson
| Json (data : json).

(** [DataManager.load_data]: on any exception the store stays as it was. *)
Definition load_data (f : file_content) (users0 : store) : store :=
  match f with
  | NoFile => users0
  | NotJson => users0
  | Json data =>
      match load_users data with
      | Ok s => s
      | Raise _ => users0
      end
  end.

(** ** Remaining time *)

Definition EXPIRED_MARKER : string := "⏰ Истекло".
Definition UNDER_A_MINUTE_MARKER : string := "< 1м".

(** [format_time_remaining(expires_at)], [now] being the value its call of
    [datetime.now()] returns. *)
Definition format_time_remaining (now expires : datetime) : string :=
  if expires <=? now then EXPIRED_MARKER
  else
    let delta := dt_sub expires now in
    let days := td_days delta in
    let hours := td_seconds delta / 3600 in
    let minutes := (td_seconds delta mod 3600) / 60 in
    let parts :=
      (if 0 <? days then [(py_str days ++ "д")%string] else [])
      ++ (if 0 <? hours then [(py_str hours ++ "ч")%string] else [])
      ++ (if (0 <? minutes) && (days =? 0)
          then [(py_str minutes ++ "м")%string] else []) in
    match parts with
    | [] => UNDER_A_MINUTE_MARKER
    | _ => join " " parts
    end.

(** ** The outside world *)

(** Texts the bot sends, by the place that builds them, with the values put
    into them. *)
Inductive message : Type :=
| MsgUserKick
| MsgAdminKick (uname : string) (uid : Z)
| MsgWarning (time_left : string)
| MsgAdminWarning (uname : string) (uid : Z) (time_left : string)
| MsgVipApproved (uname : string) (uid : Z)
| MsgApproved (uname expires_date time_left : string)
| MsgDeclined (uname : string) (uid : Z)
| MsgSubscriptionGranted (expires_date time_left : string)
| MsgBadIdentifier
| MsgIsVip
| MsgUserAdded (username_display : string)
| MsgError
| MsgHoursNotPositive
| MsgTryAgain
| MsgAccessGranted (username_display expires_date time_left : string)
| MsgBadNumber
| MsgNoAccess
| MsgTimeUpdated (username_display : string) (hours : pyfloat)
                 (expires_date time_left : string)
| MsgAdded (hours : pyfloat).

(** Requests to the collaborators.  [Decline] is the platform's refusal of a
    join request; [WriteDataFile] is the whole-file write of [save_data] and
    [WriteVipFile] that of [VIPManager.save_data]. *)
Inductive call : Type :=
| Approve (uid : Z)
| Decline (uid : Z)
| BanChatMember (chat_id uid : Z)
| UnbanChatMember (chat_id uid : Z)
| SendMessage (chat_id : Z) (m : message)
| Answer (chat_id : Z) (m : message)
| EditText (chat_id : Z) (m : message)
| CallbackAnswer (chat_id : Z) (m : option message)
| WriteDataFile (data : json)
| WriteVipFile (data : list Z).

Inductive UserManagement : Type :=
| waiting_for_user_id
| waiting_for_custom_hours
| waiting_for_vip_id.

(** The conversation context of one admin: the state and the data
    [user_id] and [action] kept with it. *)
Record FSMContext : Type := mkFSM {
  fsm_state : option UserManagement;
  fsm_user_id : option Z;
  fsm_action : option string
}.

Definition fsm_empty : FSMContext := mkFSM None None None.

(** The configuration of [config.py], the chat platform and the clock.
    A message template is the function its [format] call computes;
    [transport history c] tells whether the request [c], made after
    [history] (latest first), succeeds; [clock k] is what the [k]-th call of
    [datetime.now()] returns. *)
Record Env : Type := mkEnv {
  ADMIN_IDS : list Z;
  CHANNEL_ID : Z;
  CHANNEL_LINK : string;
  WARNING_HOURS : Q;
  SUBSCRIPTION_CONTACT : string;
  USER_KICK_MESSAGE : string -> string;
  WARNING_MESSAGE : string -> string -> string;
  APPROVED_MESSAGE : string -> string -> string -> string;
  DECLINED_MESSAGE : string -> string;
  USER_SUBSCRIPTION_GRANTED : string -> string -> string -> string;
  float_repr : pyfloat -> string;
  transport : list (call * bool) -> call -> bool;
  clock : nat -> datetime
}.

Record World : Type := mkWorld {
  users : store;
  vip_users : list Z;
  fsm : list (Z * FSMContext);
  calls : list (call * bool);
  clock_reads : nat
}.

Definition with_users (w : World) (s : store) : World :=
  mkWorld s (vip_users w) (fsm w) (calls w) (clock_reads w).

Definition with_vip_users (w : World) (v : list Z) : World :=
  mkWorld (users w) v (fsm w) (calls w) (clock_reads w).

Definition with_fsm (w : World) (f : list (Z * FSMContext)) : World :=
  mkWorld (users w) (vip_users w) f (calls w) (clock_reads w).

Definition with_calls (w : World) (c : list (call * bool)) : World :=
  mkWorld (users w) (vip_users w) (fsm w) c (clock_reads w).

Definition with_clock_reads (w : World) (n : nat) : World :=
  mkWorld (users w) (vip_users w) (fsm w) (calls w) n.

(** The requests made between [w] and a later world [w'], latest first. *)
Definition emitted (w w' : World) : list (call * bool) :=
  firstn (List.length (calls w') - List.length (calls w)) (calls w').

(** ** Computations: a world is threaded, an exception may be raised *)

Definition M (A : Type) : Type := World -> result A * World.

Definition ret {A : Type} (a : A) : M A := fun w => (Ok a, w).

Definition raise {A : Type} (e : exn) : M A := fun w => (Raise e, w).

Definition bind {A B : Type} (m : M A) (k : A -> M B) : M B :=
  fun w =>
    match m w with
    | (Ok a, w') => k a w'
    | (Raise e, w') => (Raise e, w')
    end.

Definition lift {A : Type} (r : result A) : M A := fun w => (r, w).

(** [try: m  except Exception as e: h e] *)
Definition try_except {A : Type} (m : M A) (h : exn -> M A) : M A :=
  fun w =>
    match m w with
    | (Ok a, w') => (Ok a, w')
    | (Raise e, w') => h e w'
    end.

Declare Scope monad_scope.
Delimit Scope monad_scope with monad.
Notation "x <- m ;; k" := (bind m (fun x => k))
  (at level 61, m at next level, right associativity) : monad_scope.
Notation "m ;; k" := (bind m (fun _ => k))
  (at level 61, right associativity) : monad_scope.
Local Open Scope monad_scope.

Fixpoint for_each {A : Type} (l : list A) (f : A -> M unit) : M unit :=
  match l with
  | [] => ret tt
  | x :: l' => f x ;; for_each l' f
  end.

Definition get_world : M World := fun w => (Ok w, w).

Definition set_users (s : store) : M unit := fun w => (Ok tt, with_users w s).

Definition exn_of_call (c : call) : exn :=
  match c with
  | WriteDataFile _ | WriteVipFile _ => OSError
  | _ => TransportError
  end.

Definition nl : string := String (ascii_of_nat 10) EmptyString.

(** The text of a message. *)
Definition render (E : Env) (m : message) : string :=
  match m with
  | MsgUserKick => USER_KICK_MESSAGE E (SUBSCRIPTION_CONTACT E)
  | MsgAdminKick uname uid =>
      "✅ Пользователь @" ++ uname ++ " (ID: " ++ py_str uid
      ++ ") удален из канала." ++ nl ++ "Время доступа истекло."
  | MsgWarning time_left =>
      WARNING_MESSAGE E time_left (SUBSCRIPTION_CONTACT E)
  | MsgAdminWarning uname uid time_left =>
      "⚠️ Скоро истечет доступ:" ++ nl
      ++ "👤 @" ++ uname ++ " (ID: " ++ py_str uid ++ ")" ++ nl
      ++ "⏰ Осталось: " ++ time_left
  | MsgVipApproved uname uid =>
      "✅ <b>VIP одобрен автоматически</b>" ++ nl ++ nl
      ++ "👤 @" ++ uname ++ " (ID: " ++ py_str uid ++ ")" ++ nl
      ++ "👑 VIP статус"
  | MsgApproved uname expires_date time_left =>
      APPROVED_MESSAGE E ("@" ++ uname) expires_date time_left
  | MsgDeclined uname uid =>
      DECLINED_MESSAGE E ("@" ++ uname)
      ++ (nl ++ nl ++ "ℹ️ Заявка висит. Добавьте доступ командой:" ++ nl
          ++ "/add ") ++ py_str uid
  | MsgSubscriptionGranted expires_date time_left =>
      USER_SUBSCRIPTION_GRANTED E expires_date time_left (CHANNEL_LINK E)
  | MsgBadIdentifier =>
      "❌ Неверный формат. Отправьте:" ++ nl
      ++ "• ID (например: 123456789)" ++ nl
      ++ "• Username (например: @username)" ++ nl ++ nl
      ++ "Попробуйте снова или /cancel"
  | MsgIsVip => "⚠️ Этот пользователь является VIP и имеет бессрочный доступ."
  | MsgUserAdded username_display =>
      "✅ Пользователь " ++ username_display ++ " добавлен!" ++ nl ++ nl
      ++ "Выберите время доступа:"
  | MsgError => "❌ Произошла ошибка. Попробуйте снова."
  | MsgHoursNotPositive => "❌ Время должно быть положительным числом."
  | MsgTryAgain => "❌ Ошибка. Попробуйте снова."
  | MsgAccessGranted username_display expires_date time_left =>
      "✅ <b>Доступ предоставлен!</b>" ++ nl ++ nl
      ++ "👤 " ++ username_display ++ nl
      ++ "⏰ Доступ до: " ++ expires_date ++ nl
      ++ "⏱ Срок: " ++ time_left ++ nl ++ nl
      ++ "📨 Пользователю отправлено уведомление со ссылкой на канал!"
  | MsgBadNumber =>
      "❌ Неверный формат. Введите число часов (можно с дробной частью)."
  | MsgNoAccess => "У вас нет доступа!"
  | MsgTimeUpdated username_display hours expires_date time_left =>
      "✅ <b>Время обновлено!</b>" ++ nl ++ nl
      ++ "👤 " ++ username_display ++ nl
      ++ "➕ Добавлено: " ++ float_repr E hours ++ " ч" ++ nl
      ++ "⏰ Доступ до: " ++ expires_date ++ nl
      ++ "⏱ Осталось: " ++ time_left ++ nl ++ nl
      ++ "📨 Пользователю отправлено уведомление!"
  | MsgAdded hours => "✅ Добавлено " ++ float_repr E hours ++ " ч"
  end%string.

(** ** The bot *)

Section Bot.
Variable E : Env.

(** One request to a collaborator: recorded with its outcome, raising when it
    fails. *)
Definition request (c : call) : M unit :=
  fun w =>
    let ok := transport E (calls w) c in
    (if ok then Ok tt else Raise (exn_of_call c),
     with_calls w ((c, ok) :: calls w)).

(** [try: request  except Exception: pass] *)
Definition attempt (c : call) : M unit :=
  try_except (request c) (fun _ => ret tt).

(** [datetime.now()] *)
Definition datetime_now : M datetime :=
  fun w => (Ok (clock E (clock_reads w)), with_clock_reads w (S (clock_reads w))).

(** *** DataManager *)

Definition save_data : M unit :=
  try_except
    (w <- get_world ;;
     request (WriteDataFile (dump_users (users w))))
    (fun _ => ret tt).

Definition get_user (uid : Z) : M (option UserData) :=
  fun w => (Ok (dict_get Z.eqb uid (users w)), w).

(** [self.users[user_id]] *)
Definition users_item (uid : Z) : M UserData :=
  fun w =>
    match dict_get Z.eqb uid (users w) with
    | Some u => (Ok u, w)
    | None => (Raise KeyError, w)
    end.

(** An assignment to a field of the record object kept under [uid]. *)
Definition assign (uid : Z) (u : UserData) : M unit :=
  fun w => (Ok tt, with_users w (dict_set Z.eqb uid u (users w))).

Definition add_or_update_user (uid : Z) (uname : option string)
           (hours : option pyfloat) : M UserData :=
  w <- get_world ;;
  (if dict_mem Z.eqb uid (users w) then ret tt
   else assign uid (UserData_init uid uname)) ;;
  user <- users_item uid ;;
  user <- (if str_truthy uname
           then let user' := set_username user uname in
                assign uid user' ;; ret user'
           else ret user) ;;
  user <- match hours with
          | None => ret user
          | Some h =>
              let renewed :=
                now <- datetime_now ;;
                d <- lift (timedelta_hours h) ;;
                lift (dt_add now d) in
              e' <- match expires_at user with
                    | Some e =>
                        now <- datetime_now ;;
                        if now <? e then
                          d <- lift (timedelta_hours h) ;; lift (dt_add e d)
                        else renewed
                    | None => renewed
                    end ;;
              let user' := set_expires_at user (Some e') in
              assign uid user' ;;
              let user'' := set_warning_sent user' false in
              assign uid user'' ;;
              ret user''
          end ;;
  save_data ;;
  ret user.

Definition remove_user (uid : Z) : M unit :=
  w <- get_world ;;
  if dict_mem Z.eqb uid (users w) then
    set_users (dict_del Z.eqb uid (users w)) ;;
    save_data
  else ret tt.

Definition get_all_users : M (list UserData) :=
  fun w => (Ok (dict_values (users w)), w).

Definition has_valid_access (uid : Z) : M bool :=
  user <- get_user uid ;;
  match user with
  | None => ret false
  | Some u =>
      match expires_at u with
      | None => ret false
      | Some e => now <- datetime_now ;; ret (now <? e)
      end
  end.

(** *** VIPManager *)

Definition mem (x : Z) (l : list Z) : bool := existsb (Z.eqb x) l.

(** [l.remove(x)]: the first occurrence. *)
Fixpoint list_remove (x : Z) (l : list Z) : list Z :=
  match l with
  | [] => []
  | y :: l' => if Z.eqb x y then l' else y :: list_remove x l'
  end.

Definition vip_save_data : M unit :=
  try_except
    (w <- get_world ;; request (WriteVipFile (vip_users w)))
    (fun _ => ret tt).

Definition add_vip (uid : Z) : M unit :=
  w <- get_world ;;
  if mem uid (vip_users w) then ret tt
  else (fun w => (Ok tt, with_vip_users w (vip_users w ++ [uid]))) ;;
       vip_save_data.

Definition remove_vip (uid : Z) : M unit :=
  w <- get_world ;;
  if mem uid (vip_users w) then
    (fun w => (Ok tt, with_vip_users w (list_remove uid (vip_users w)))) ;;
    vip_save_data
  else ret tt.

Definition is_vip (uid : Z) : M bool :=
  fun w => (Ok (mem uid (vip_users w)), w).

Definition is_admin (uid : Z) : bool := mem uid (ADMIN_IDS E).

Definition is_special_user (uid : Z) : M bool := is_vip uid.

(** [resolve_user_identifier]: the id when the stripped text is made of
    digits, else nothing; the user name is never resolved. *)
Definition resolve_user_identifier (identifier : string)
  : option Z * option string :=
  let identifier := strip identifier in
  if isdigit identifier then (py_int identifier, None) else (None, None).

(** [format_time_remaining(x)] where [x] may be [None]. *)
Definition time_remaining (x : option datetime) : M string :=
  match x with
  | Some e => now <- datetime_now ;; ret (format_time_remaining now e)
  | None => raise TypeError
  end.

(** [x.strftime('%d.%m.%Y %H:%M')] where [x] may be [None]. *)
Definition expiry_date (x : option datetime) : M string :=
  match x with
  | Some e => ret (strftime_dmy_hm e)
  | None => raise AttributeError
  end.

Definition notify_user_subscription (uid : Z) (user : UserData) : M unit :=
  try_except
    (time_left <- time_remaining (expires_at user) ;;
     expires_date <- expiry_date (expires_at user) ;;
     request (SendMessage uid (MsgSubscriptionGranted expires_date time_left)))
    (fun _ => ret tt).

(** [user.username if user and user.username else str(user_id)] *)
Definition name_or_id (uname : option string) (uid : Z) : string :=
  match uname with
  | Some s => if str_truthy uname then s else py_str uid
  | None => py_str uid
  end.

(** [f"@{username}" if username else f"ID: {user_id}"] *)
Definition username_display (uname : option string) (uid : Z) : string :=
  match uname with
  | Some s => if str_truthy uname then ("@" ++ s)%string
              else ("ID: " ++ py_str uid)%string
  | None => ("ID: " ++ py_str uid)%string
  end.

(** *** Revocation and warning *)

Definition kick_user (uid : Z) : M unit :=
  try_except
    (user <- get_user uid ;;
     let uname :=
       name_or_id (match user with Some u => username u | None => None end)
                  uid in
     request (BanChatMember (CHANNEL_ID E) uid) ;;
     request (UnbanChatMember (CHANNEL_ID E) uid) ;;
     attempt (SendMessage uid MsgUserKick) ;;
     for_each (ADMIN_IDS E)
       (fun admin_id => attempt (SendMessage admin_id (MsgAdminKick uname uid))) ;;
     remove_user uid)
    (fun _ => ret tt).

Definition send_warning (uid : Z) : M unit :=
  try_except
    (user <- get_user uid ;;
     match user with
     | None => ret tt
     | Some u =>
         match expires_at u with
         | None => ret tt
         | Some e =>
             time_left <- time_remaining (Some e) ;;
             attempt (SendMessage uid (MsgWarning time_left)) ;;
             let uname := name_or_id (username u) uid in
             for_each (ADMIN_IDS E)
               (fun admin_id =>
                  attempt (SendMessage admin_id
                             (MsgAdminWarning uname uid time_left))) ;;
             assign uid (set_warning_sent u true) ;;
             save_data
         end
     end)
    (fun _ => ret tt).

(** *** The join gate *)

Definition handle_join_request (uid : Z) (from_username : option string)
  : M unit :=
  let uname := name_or_id from_username uid in
  special <- is_special_user uid ;;
  if special then
    try_except
      (request (Approve uid) ;;
       for_each (ADMIN_IDS E)
         (fun admin_id =>
            attempt (SendMessage admin_id (MsgVipApproved uname uid))))
      (fun _ => ret tt)
  else
    valid <- has_valid_access uid ;;
    if valid then
      try_except
        (request (Approve uid) ;;
         user <- get_user uid ;;
         let e := match user with Some u => expires_at u | None => None end in
         time_left <- time_remaining e ;;
         expires_date <- expiry_date e ;;
         for_each (ADMIN_IDS E)
           (fun admin_id =>
              attempt (SendMessage admin_id
                         (MsgApproved uname expires_date time_left))))
        (fun _ => ret tt)
    else
      for_each (ADMIN_IDS E)
        (fun admin_id => attempt (SendMessage admin_id (MsgDeclined uname uid))).

(** *** The expiry sweeper *)

(** The body of the loop over the users, [now] being the instant read at the
    start of the iteration. *)
Definition check_user (now : datetime) (user : UserData) : M unit :=
  match expires_at user with
  | None => ret tt
  | Some e =>
      if e <=? now then kick_user (user_id user)
      else
        let time_until_expire := (total_seconds (dt_sub e now) / 3600)%Q in
        special <- is_special_user (user_id user) ;;
        if Qle_bool time_until_expire (WARNING_HOURS E)
           && negb (warning_sent user) && negb special
        then send_warning (user_id user)
        else ret tt
  end.

(** One iteration of the [while True] loop of [check_users_task], after its
    sleep. *)
Definition check_users_iteration : M unit :=
  try_except
    (now <- datetime_now ;;
     all_users <- get_all_users ;;
     for_each all_users (check_user now))
    (fun _ => ret tt).

(** The first [n] iterations of [check_users_task]. *)
Fixpoint check_users_task (n : nat) : M unit :=
  match n with
  | O => ret tt
  | S n' => check_users_iteration ;; check_users_task n'
  end.

(** *** The admin handlers that grant time *)

Definition get_fsm (sender : Z) : M FSMContext :=
  fun w =>
    (Ok match dict_get Z.eqb sender (fsm w) with
        | Some c => c
        | None => fsm_empty
        end, w).

(** [state.clear()] *)
Definition state_clear (sender : Z) : M unit :=
  fun w => (Ok tt, with_fsm w (dict_del Z.eqb sender (fsm w))).

(** Truth value of an optional id: [None] and [0] are false. *)
Definition id_truthy (x : option Z) : bool :=
  match x with
  | Some n => negb (n =? 0)
  | None => false
  end.

(** [process_user_id], for the message [text] of [sender]. *)
Definition process_user_id (sender : Z) (text : string) : M unit :=
  if negb (is_admin sender) then ret tt
  else
    try_except
      (let '(uid, uname) := resolve_user_identifier text in
       if negb (id_truthy uid) && negb (str_truthy uname) then
         request (Answer sender MsgBadIdentifier)
       else
         match uid with
         | None => raise TypeError
         | Some uid =>
             special <- is_special_user uid ;;
             if special then
               request (Answer sender MsgIsVip) ;;
               state_clear sender
             else
               add_or_update_user uid uname None ;;
               request (Answer sender
                          (MsgUserAdded (username_display uname uid))) ;;
               state_clear sender
         end)
      (fun _ =>
         request (Answer sender MsgError) ;;
         state_clear sender).

(** [process_custom_hours], for a message of [sender]; [parsed] is the value
    of [float(message.text.strip())], [None] when it raises [ValueError]. *)
Definition process_custom_hours (sender : Z) (parsed : option pyfloat)
  : M unit :=
  if negb (is_admin sender) then ret tt
  else
    try_except
      (match parsed with
       | None => raise ValueError
       | Some hours =>
           if float_le0 hours then
             request (Answer sender MsgHoursNotPositive)
           else
             ctx <- get_fsm sender ;;
             match fsm_user_id ctx with
             | Some uid =>
                 if id_truthy (Some uid) then
                   user <- add_or_update_user uid None (Some hours) ;;
                   notify_user_subscription uid user ;;
                   let uname := name_or_id (username user) uid in
                   let shown := username_display (Some uname) uid in
                   time_left <- time_remaining (expires_at user) ;;
                   expires_date <- expiry_date (expires_at user) ;;
                   request (Answer sender
                              (MsgAccessGranted shown expires_date time_left)) ;;
                   state_clear sender
                 else
                   request (Answer sender MsgTryAgain) ;;
                   state_clear sender
             | None =>
                 request (Answer sender MsgTryAgain) ;;
                 state_clear sender
             end
       end)
      (fun e =>
         match e with
         | ValueError => request (Answer sender MsgBadNumber)
         | _ =>
             request (Answer sender MsgError) ;;
             state_clear sender
         end).

(** [callback_add_time], for a button pressed by [sender] whose data
    [add_time:<uid>:<hours>] have been split and converted. *)
Definition callback_add_time (sender : Z) (uid : Z) (hours : pyfloat)
  : M unit :=
  if negb (is_admin sender) then
    request (CallbackAnswer sender (Some MsgNoAccess))
  else
    user <- add_or_update_user uid None (Some hours) ;;
    notify_user_subscription uid user ;;
    let uname := name_or_id (username user) uid in
    let shown := username_display (Some uname) uid in
    time_left <- time_remaining (expires_at user) ;;
    expires_date <- expiry_date (expires_at user) ;;
    request (EditText sender
               (MsgTimeUpdated shown hours expires_date time_left)) ;;
    request (CallbackAnswer sender (Some (MsgAdded hours))).

End Bot.

(** ** Notions the properties are stated with *)

(** The remaining-time rule in the words of the specification: expired at or
    after the expiry; a fixed marker under one minute; else the day, hour
    and minute components that are not zero, the minutes only when the day
    component is zero. *)
Definition remaining_time_spec (now expires : datetime) : string :=
  if expires <=? now then EXPIRED_MARKER
  else
    let d := expires - now in
    if d <? US_PER_MINUTE then UNDER_A_MINUTE_MARKER
    else
      let days := d / US_PER_DAY in
      let hours := (d / US_PER_HOUR) mod 24 in
      let minutes := (d / US_PER_MINUTE) mod 60 in
      join " "
        ((if 0 <? days then [(py_str days ++ "д")%string] else [])
         ++ (if 0 <? hours then [(py_str hours ++ "ч")%string] else [])
         ++ (if (0 <? minutes) && (days =? 0)
             then [(py_str minutes ++ "м")%string] else [])).

(** Every record is stored under its own id, and no id twice. *)
Definition store_wf (s : store) : Prop :=
  NoDup (dict_keys s) /\ Forall (fun kv => user_id (snd kv) = fst kv) s.

(** Every expiry is an instant a [datetime] can hold. *)
Definition store_representable (s : store) : Prop :=
  Forall (fun kv =>
            match expires_at (snd kv) with
            | Some t => dt_valid t = true
            | None => True
            end) s.

(** Requests of the sweeper that concern the user [u]: its removal from the
    channel, and the revocation and warning notices to it or about it. *)
Definition about_user (u : Z) (c : call) : bool :=
  match c with
  | BanChatMember _ v | UnbanChatMember _ v => v =? u
  | SendMessage chat MsgUserKick | SendMessage chat (MsgWarning _) => chat =? u
  | SendMessage _ (MsgAdminKick _ v)
  | SendMessage _ (MsgAdminWarning _ v _) => v =? u
  | _ => false
  end.

(** The warning notices to or about the user [u]. *)
Definition warning_about (u : Z) (c : call) : bool :=
  match c with
  | SendMessage chat (MsgWarning _) => chat =? u
  | SendMessage _ (MsgAdminWarning _ v _) => v =? u
  | _ => false
  end.

(** The notices: messages sent to a chat. *)
Definition is_message (c : call) : bool :=
  match c with
  | SendMessage _ _ => true
  | _ => false
  end.

Definition is_decline (c : call) : bool :=
  match c with
  | Decline _ => true
  | _ => false
  end.

(** The request [c] was made between [w] and [w']. *)
Definition issued (w w' : World) (c : call) : Prop :=
  exists ok, In (c, ok) (emitted w w').

(** The world after the request [c], and after the requests [cs] in turn. *)
Definition log (E : Env) (c : call) (w : World) : World :=
  with_calls w ((c, transport E (calls w) c) :: calls w).

Fixpoint log_all (E : Env) (cs : list call) (w : World) : World :=
  match cs with
  | [] => w
  | c :: cs' => log_all E cs' (log E c w)
  end.

(** What a step of the sweeper that does not concern [u] may do: the
    allowlist and the record of [u] stay, the store stays well formed, and no
    request concerns [u]. *)
Definition sweeper_frame (u : Z) (w w' : World) : Prop :=
  vip_users w' = vip_users w
  /\ dict_get Z.eqb u (users w') = dict_get Z.eqb u (users w)
  /\ (store_wf (users w) -> store_wf (users w'))
  /\ exists new,
      calls w' = new ++ calls w
      /\ Forall (fun cb => about_user u (fst cb) = false) new.

(** One sweeper tick revokes [u], whose record has the name [uname]: the ban
    and the unban are requested, the user and every admin are notified, the
    record is gone; and a second tick right after neither restores it nor
    makes any request that concerns [u]. *)
Definition revoked_by_one_tick (E : Env) (w : World) (u : Z)
           (uname : option string) : Prop :=
  let w1 := snd (check_users_iteration E w) in
  let w2 := snd (check_users_iteration E w1) in
  issued w w1 (BanChatMember (CHANNEL_ID E) u)
  /\ issued w w1 (UnbanChatMember (CHANNEL_ID E) u)
  /\ issued w w1 (SendMessage u MsgUserKick)
  /\ (forall a, In a (ADMIN_IDS E) ->
                issued w w1 (SendMessage a (MsgAdminKick (name_or_id uname u) u)))
  /\ dict_get Z.eqb u (users w1) = None
  /\ dict_get Z.eqb u (users w2) = None
  /\ Forall (fun cb => about_user u (fst cb) = false) (emitted w1 w2).

(** The instant the extend-or-renew rule starts from: the expiry of an
    active grant, else the instant [datetime.now()] returns when the new
    expiry is computed. *)
Definition grant_base (E : Env) (w : World) (uid : Z) : datetime :=
  match dict_get Z.eqb uid (users w) with
  | Some u =>
      match expires_at u with
      | Some e =>
          if clock E (clock_reads w) <? e then e
          else clock E (S (clock_reads w))
      | None => clock E (clock_reads w)
      end
  | None => clock E (clock_reads w)
  end.

(** The extend-or-renew rule at one call of the upsert with [hours]: the call
    returns, the record then stored under [uid] expires [hours] after
    [grant_base], and its warning flag is down. *)
Definition extend_or_renew (E : Env) (w : World) (uid : Z)
           (uname : option string) (hours : pyfloat) : Prop :=
  exists u' w' d,
    add_or_update_user E uid uname (Some hours) w = (Ok u', w')
    /\ dict_get Z.eqb uid (users w') = Some u'
    /\ timedelta_hours hours = Ok d
    /\ expires_at u' = Some (grant_base E w uid + d)
    /\ warning_sent u' = false.

(** An environment and worlds to evaluate the bot in: one admin, a channel,
    a clock that stands at noon of 2024-01-01, a platform on which every
    request succeeds. *)
Definition noon : datetime := 63839707200000000.

Definition sample_env (ok : list (call * bool) -> call -> bool) : Env :=
  mkEnv [1000] (-1001) "https://t.me/+link" 24 "@admin"
        (fun contact => ("kick " ++ contact)%string)
        (fun time_left contact => ("warning " ++ time_left)%string)
        (fun uname expires_date time_left => ("approved " ++ uname)%string)
        (fun uname => ("declined " ++ uname)%string)
        (fun expires_date time_left link => ("granted " ++ link)%string)
        (fun _ => "?")
        ok
        (fun _ => noon).

Definition all_succeed (h : list (call * bool)) (c : call) : bool := true.

(** A platform whose bans fail. *)
Definition ban_fails (h : list (call * bool)) (c : call) : bool :=
  match c with
  | BanChatMember _ _ => false
  | _ => true
  end.

(** A platform on which no message gets through. *)
Definition messages_fail (h : list (call * bool)) (c : call) : bool :=
  match c with
  | SendMessage _ _ => false
  | _ => true
  end.

Definition world_of (s : store) (vips : list Z) : World :=
  mkWorld s vips [] [] 0.


(** The replies to the admin who wrote or pressed a button. *)
Definition is_reply (c : call) : bool :=
  match c with
  | Answer _ _ | EditText _ _ | CallbackAnswer _ _ => true
  | _ => false
  end.

(** The kinds of request the sweeper makes. *)
Definition is_sweeper_call (c : call) : bool :=
  match c with
  | BanChatMember _ _ | UnbanChatMember _ _ | SendMessage _ _
  | WriteDataFile _ => true
  | _ => false
  end.

(** What a step of the sweeper may do at all: the allowlist and the
    conversations stay, no key is added to the store, a well-formed store
    stays well formed, and the requests are of the sweeper's kinds. *)
Definition sweeper_step (w w' : World) : Prop :=
  vip_users w' = vip_users w
  /\ fsm w' = fsm w
  /\ incl (dict_keys (users w')) (dict_keys (users w))
  /\ (store_wf (users w) -> store_wf (users w'))
  /\ exists new,
      calls w' = new ++ calls w
      /\ Forall (fun cb => is_sweeper_call (fst cb) = true) new.
(** ** Strings and integers: properties *)

Lemma digit_char_digit (x : Z) :
  0 <= x < 10 ->
  is_digit (digit_char x) = true /\ digit_val (digit_char x) = x.
Proof.
  intros H.
  assert (x = 0 \/ x = 1 \/ x = 2 \/ x = 3 \/ x = 4 \/ x = 5 \/ x = 6
          \/ x = 7 \/ x = 8 \/ x = 9) as C by lia.
  repeat (destruct C as [-> | C]; [split; reflexivity |]).
  subst x; split; reflexivity.
Qed.
Lemma take_digits_zfill (k : nat) :
  forall (j : nat) (n a : Z) (rest : string),
    0 <= n < 10 ^ Z.of_nat k ->
    take_digits (k + j) a (zfill k n rest)
    = take_digits j (a * 10 ^ Z.of_nat k + n) rest.
Proof.
  induction k as [| k IH]; intros j n a rest Hn.
  - simpl in *. f_equal. lia.
  - rewrite Nat2Z.inj_succ, Z.pow_succ_r in Hn by lia.
    cbn [zfill]. replace (S k + j)%nat with (k + S j)%nat by lia.
    rewrite IH by (Z.to_euclidean_division_equations; lia).
    destruct (digit_char_digit (n mod 10)) as [Hd Hv];
      [apply Z.mod_pos_bound; lia |].
    cbn [take_digits]. rewrite Hd, Hv. f_equal.
    rewrite Nat2Z.inj_succ, Z.pow_succ_r by lia.
    Z.to_euclidean_division_equations; lia.
Qed.

Lemma take_digits_zfill_all (k : nat) (n : Z) (rest : string) :
  0 <= n < 10 ^ Z.of_nat k ->
  take_digits k 0 (zfill k n rest) = Some (n, rest).
Proof.
  intros Hn. replace k with (k + 0)%nat at 1 by lia.
  rewrite take_digits_zfill by assumption. reflexivity.
Qed.

Lemma take_digits_split (a : nat) :
  forall (b : nat) (x : Z) (s : string),
    take_digits (a + b) x s
    = match take_digits a x s with
      | Some (y, r) => take_digits b y r
      | None => None
      end.
Proof.
  induction a as [| a IH]; intros b x s; [reflexivity |].
  cbn [take_digits Nat.add]. destruct s as [| c s]; [reflexivity |].
  destruct (is_digit c); [apply IH | reflexivity].
Qed.

Lemma zfill_cons (k : nat) :
  forall (n : Z) (c : ascii) (acc : string),
    exists c' s', zfill k n (String c acc) = String c' s'.
Proof.
  induction k as [| k IH]; intros n c acc; cbn [zfill]; eauto.
Qed.

Lemma digit_char_no_space (x : Z) :
  0 <= x < 10 -> is_space (digit_char x) = false.
Proof.
  intros H.
  assert (x = 0 \/ x = 1 \/ x = 2 \/ x = 3 \/ x = 4 \/ x = 5 \/ x = 6
          \/ x = 7 \/ x = 8 \/ x = 9) as C by lia.
  repeat (destruct C as [-> | C]; [reflexivity |]).
  subst x; reflexivity.
Qed.

Lemma lstrip_no_space (s : string) : no_space s = true -> lstrip s = s.
Proof.
  destruct s as [| c s]; [reflexivity |]. cbn [no_space lstrip].
  destruct (is_space c); [discriminate | reflexivity].
Qed.

Lemma rstrip_no_space (s : string) : no_space s = true -> rstrip s = s.
Proof.
  induction s as [| c s IH]; [reflexivity |]. cbn [no_space rstrip].
  destruct (is_space c) eqn:Hc; [discriminate |]. cbn [negb andb].
  intros Hs. rewrite (IH Hs). destruct s; reflexivity.
Qed.

Lemma strip_no_space (s : string) : no_space s = true -> strip s = s.
Proof.
  intros H. unfold strip. rewrite (lstrip_no_space _ H). now apply rstrip_no_space.
Qed.

Lemma digits_acc_no_space (f : nat) :
  forall (n : Z) (acc : string),
    no_space acc = true -> no_space (digits_acc f n acc) = true.
Proof.
  assert (forall n acc, no_space acc = true ->
                        no_space (String (digit_char (n mod 10)) acc) = true)
    as Hstep.
  { intros n acc Hacc. cbn [no_space].
    rewrite digit_char_no_space by (apply Z.mod_pos_bound; lia).
    exact Hacc. }
  induction f as [| f IH]; intros n acc Hacc; cbn [digits_acc].
  - now apply Hstep.
  - destruct (n / 10 =? 0); [now apply Hstep |]. apply IH. now apply Hstep.
Qed.

Lemma digits_acc_head (f : nat) :
  forall (n : Z) (acc : string),
    exists x s', 0 <= x < 10 /\ digits_acc f n acc = String (digit_char x) s'.
Proof.
  induction f as [| f IH]; intros n acc; cbn [digits_acc].
  - exists (n mod 10), acc. split; [apply Z.mod_pos_bound; lia | reflexivity].
  - destruct (n / 10 =? 0).
    + exists (n mod 10), acc.
      split; [apply Z.mod_pos_bound; lia | reflexivity].
    + apply IH.
Qed.

Lemma int_digits_digit (x a : Z) (s : string) :
  0 <= x < 10 ->
  int_digits a (String (digit_char x) s) = int_digits (a * 10 + x) s.
Proof.
  intros Hx. destruct (digit_char_digit x Hx) as [Hd Hv].
  cbn [int_digits]. now rewrite Hd, Hv.
Qed.

Lemma digits_acc_parse (f : nat) :
  forall n : Z,
    0 <= n < 10 * 2 ^ Z.of_nat f ->
    exists k : Z,
      0 <= k /\
      forall (a : Z) (rest : string),
        int_digits a (digits_acc f n rest) = int_digits (a * 10 ^ k + n) rest.
Proof.
  induction f as [| f IH]; intros n Hn.
  - exists 1. split; [lia |]. intros a rest. cbn [digits_acc].
    change (2 ^ Z.of_nat 0) with 1 in Hn.
    rewrite int_digits_digit by (apply Z.mod_pos_bound; lia).
    f_equal. rewrite Z.mod_small by lia. lia.
  - rewrite Nat2Z.inj_succ, Z.pow_succ_r in Hn by lia.
    cbn [digits_acc]. destruct (n / 10 =? 0) eqn:Hq.
    + apply Z.eqb_eq in Hq. exists 1. split; [lia |]. intros a rest.
      rewrite int_digits_digit by (apply Z.mod_pos_bound; lia).
      f_equal. Z.to_euclidean_division_equations; lia.
    + apply Z.eqb_neq in Hq.
      destruct (IH (n / 10)) as (k & Hk & Hparse).
      { assert (0 < 2 ^ Z.of_nat f) by (apply Z.pow_pos_nonneg; lia).
        Z.to_euclidean_division_equations; lia. }
      exists (k + 1). split; [lia |]. intros a rest.
      rewrite Hparse.
      rewrite int_digits_digit by (apply Z.mod_pos_bound; lia).
      f_equal. rewrite Z.pow_add_r by lia. change (10 ^ 1) with 10.
      Z.to_euclidean_division_equations; nia.
Qed.

Lemma str_nat_fuel (n : Z) : 0 <= n -> n < 10 * 2 ^ Z.of_nat (Z.to_nat (Z.log2 n)).
Proof.
  intros Hn. rewrite Z2Nat.id by apply Z.log2_nonneg.
  destruct (Z.eq_dec n 0) as [-> | Hne]; [reflexivity |].
  pose proof (Z.log2_spec n ltac:(lia)) as [_ Hup].
  rewrite Z.pow_succ_r in Hup by apply Z.log2_nonneg.
  assert (0 < 2 ^ Z.log2 n) by (apply Z.pow_pos_nonneg; [lia | apply Z.log2_nonneg]).
  lia.
Qed.

Lemma int_unsigned_str_nat (n : Z) : 0 <= n -> int_unsigned (str_nat n) = Some n.
Proof.
  intros Hn. unfold str_nat.
  destruct (digits_acc_parse (Z.to_nat (Z.log2 n)) n) as (k & Hk & Hparse).
  { split; [exact Hn | now apply str_nat_fuel]. }
  specialize (Hparse 0 EmptyString).
  destruct (digits_acc_head (Z.to_nat (Z.log2 n)) n EmptyString)
    as (x & s' & Hx & Heq).
  rewrite Heq in *. destruct (digit_char_digit x Hx) as [Hd Hv].
  cbn [int_unsigned]. rewrite Hd.
  cbn [int_digits] in Hparse. rewrite Hd in Hparse.
  replace (0 * 10 + digit_val (digit_char x)) with (digit_val (digit_char x))
    in Hparse by lia.
  rewrite Hparse. reflexivity.
Qed.

Lemma py_str_no_space (n : Z) : no_space (py_str n) = true.
Proof.
  unfold py_str, str_nat. destruct (n <? 0).
  - cbn [no_space]. change (is_space "-") with false. cbn [negb andb].
    now apply digits_acc_no_space.
  - now apply digits_acc_no_space.
Qed.

(** [int(str(n)) == n] *)
Lemma py_int_py_str (n : Z) : py_int (py_str n) = Some n.
Proof.
  unfold py_int. rewrite strip_no_space by apply py_str_no_space.
  unfold py_str. destruct (n <? 0) eqn:Hneg.
  - apply Z.ltb_lt in Hneg. rewrite int_unsigned_str_nat by lia.
    cbn [option_map]. f_equal. lia.
  - apply Z.ltb_ge in Hneg.
    pose proof (int_unsigned_str_nat n Hneg) as Hu.
    unfold str_nat in *.
    destruct (digits_acc_head (Z.to_nat (Z.log2 n)) n EmptyString)
      as (x & s' & Hx & Heq).
    rewrite Heq in *.
    assert (x = 0 \/ x = 1 \/ x = 2 \/ x = 3 \/ x = 4 \/ x = 5 \/ x = 6
            \/ x = 7 \/ x = 8 \/ x = 9) as C by lia.
    repeat (destruct C as [-> | C]; [exact Hu |]).
    subst x; exact Hu.
Qed.

Lemma py_str_inj (m n : Z) : py_str m = py_str n -> m = n.
Proof.
  intros H. pose proof (py_int_py_str m) as Hm. rewrite H, py_int_py_str in Hm.
  congruence.
Qed.

Lemma string_app_assoc (a b c : string) :
  ((a ++ b) ++ c = a ++ (b ++ c))%string.
Proof.
  induction a as [| x a IH]; cbn [String.append]; [reflexivity |].
  now rewrite IH.
Qed.

(** ** The calendar: properties *)

Lemma forall_from_spec (p : Z -> bool) (n : nat) :
  forall r0 : Z,
    forall_from n r0 p = true ->
    forall r : Z, r0 <= r < r0 + Z.of_nat n -> p r = true.
Proof.
  induction n as [| n IH]; intros r0 H r Hr; [lia |].
  cbn [forall_from] in H. apply andb_prop in H. destruct H as [H0 H1].
  destruct (Z.eq_dec r r0) as [-> | Hne]; [exact H0 |].
  apply (IH (r0 + 1)); [exact H1 | lia].
Qed.

Lemma month_day_ok_all (leapyear : bool) (n : Z) :
  0 <= n < 365 -> month_day_ok leapyear n = true.
Proof.
  intros Hn.
  assert (forall b, forall_from 365 0 (month_day_ok b) = true) as H
      by (intros [|]; vm_compute; reflexivity).
  apply (forall_from_spec _ _ _ (H leapyear)). lia.
Qed.

Lemma year_arith (n400 n100 n4 n1 : Z) :
  0 <= n400 -> 0 <= n100 <= 3 -> 0 <= n4 <= 24 -> 0 <= n1 <= 3 ->
  let y := n400 * 400 + 1 + (n100 * 100 + n4 * 4 + n1) in
  days_before_year y = n400 * 146097 + n100 * 36524 + n4 * 1461 + n1 * 365
  /\ is_leap y = (n1 =? 3) && (negb (n4 =? 24) || (n100 =? 3)).
Proof.
  intros H400 H100 H4 H1 y. subst y. split.
  - unfold days_before_year. Z.to_euclidean_division_equations. lia.
  - unfold is_leap.
    destruct (n1 =? 3) eqn:E1; destruct (n4 =? 24) eqn:E4;
      destruct (n100 =? 3) eqn:E100; cbn [negb andb orb];
      repeat match goal with
             | H : (_ =? _) = true |- _ => apply Z.eqb_eq in H
             | H : (_ =? _) = false |- _ => apply Z.eqb_neq in H
             end;
      repeat match goal with
             | |- context [?a mod ?b =? 0] =>
                 let Hm := fresh "Hm" in
                 destruct (a mod b =? 0) eqn:Hm;
                 [apply Z.eqb_eq in Hm | apply Z.eqb_neq in Hm]
             end;
      cbn [negb andb orb]; try reflexivity; exfalso;
      Z.to_euclidean_division_equations; lia.
Qed.

Lemma ord2ymd_spec (ordinal : Z) :
  1 <= ordinal ->
  let '(y, m, d) := ord2ymd ordinal in
  ymd2ord y m d = ordinal
  /\ 1 <= y /\ 1 <= m <= 12 /\ 1 <= d <= days_in_month y m.
Proof.
  intros Hord. unfold ord2ymd, DI400Y, DI100Y, DI4Y.
  set (n0 := ordinal - 1).
  pose proof (Z.div_mod n0 146097 ltac:(lia)) as D400.
  pose proof (Z.mod_pos_bound n0 146097 ltac:(lia)) as B400.
  set (n400 := n0 / 146097) in *. set (r400 := n0 mod 146097) in *.
  pose proof (Z.div_mod r400 36524 ltac:(lia)) as D100.
  pose proof (Z.mod_pos_bound r400 36524 ltac:(lia)) as B100.
  set (n100 := r400 / 36524) in *. set (r100 := r400 mod 36524) in *.
  pose proof (Z.div_mod r100 1461 ltac:(lia)) as D4.
  pose proof (Z.mod_pos_bound r100 1461 ltac:(lia)) as B4.
  set (n4 := r100 / 1461) in *. set (r4 := r100 mod 1461) in *.
  pose proof (Z.div_mod r4 365 ltac:(lia)) as D1.
  pose proof (Z.mod_pos_bound r4 365 ltac:(lia)) as B1.
  set (n1 := r4 / 365) in *. set (n := r4 mod 365) in *.
  assert (0 <= n400) as P400 by (subst n0; lia).
  assert (0 <= n100 <= 4) as P100 by lia.
  assert (0 <= n4 <= 24) as P4 by lia.
  assert (0 <= n1 <= 4) as P1 by lia.
  destruct ((n1 =? 4) || (n100 =? 4)) eqn:Hlast.
  - (* the last day of a leap year *)
    assert (n1 = 4 \/ n100 = 4) as Hc.
    { apply orb_prop in Hlast. destruct Hlast as [H | H];
        apply Z.eqb_eq in H; auto. }
    assert (exists a b c e,
               0 <= a /\ 0 <= b <= 3 /\ 0 <= c <= 24 /\ e = 3
               /\ n400 * 400 + 1 + (n100 * 100 + n4 * 4 + n1) - 1
                  = a * 400 + 1 + (b * 100 + c * 4 + e)
               /\ n0 = a * 146097 + b * 36524 + c * 1461 + e * 365 + 365
               /\ (c <> 24 \/ b = 3)) as (a & b & c & e & Ha & Hb & Hcc & He & Hy & Hn & Hl).
    { destruct Hc as [Hc | Hc].
      - exists n400, n100, n4, 3. repeat split; try lia.
      - exists n400, 3, 24, 3. repeat split; try lia. }
    rewrite Hy.
    destruct (year_arith a b c e Ha Hb Hcc ltac:(lia)) as [Hdby Hleap].
    cbv zeta in Hdby, Hleap.
    set (y := a * 400 + 1 + (b * 100 + c * 4 + e)) in *.
    assert (is_leap y = true) as Hly.
    { rewrite Hleap. subst e. cbn [Z.eqb Pos.eqb andb].
      destruct Hl as [Hl | Hl].
      - apply Z.eqb_neq in Hl. rewrite Hl. reflexivity.
      - apply Z.eqb_eq in Hl. rewrite Hl. apply orb_true_r. }
    unfold ymd2ord, days_before_month, days_in_month. rewrite Hdby, Hly.
    cbn [DAYS_BEFORE_MONTH DAYS_IN_MONTH Z.ltb Z.eqb Z.compare Pos.compare
         Pos.compare_cont Pos.eqb andb].
    subst n0 y. lia.
  - apply orb_false_elim in Hlast. destruct Hlast as [H1 H100].
    apply Z.eqb_neq in H1, H100.
    destruct (year_arith n400 n100 n4 n1 P400 ltac:(lia) P4 ltac:(lia))
      as [Hdby Hleap].
    cbv zeta in Hdby, Hleap.
    set (y := n400 * 400 + 1 + (n100 * 100 + n4 * 4 + n1)) in *.
    set (leapyear := (n1 =? 3) && (negb (n4 =? 24) || (n100 =? 3))) in *.
    pose proof (month_day_ok_all leapyear n B1) as Hmd.
    unfold month_day_ok in Hmd.
    destruct (month_day leapyear n) as [m d].
    repeat (apply andb_prop in Hmd; destruct Hmd as [Hmd ?]).
    repeat match goal with
           | H : (_ <=? _) = true |- _ => apply Z.leb_le in H
           | H : (_ =? _) = true |- _ => apply Z.eqb_eq in H
           end.
    unfold ymd2ord, days_before_month, days_in_month. rewrite Hdby, Hleap.
    subst n0 y. lia.
Qed.

Lemma of_civil_civil_of (t : datetime) :
  dt_valid t = true -> of_civil (civil_of t) = Some t.
Proof.
  unfold dt_valid, MAXORDINAL. intros Hv.
  apply andb_prop in Hv. destruct Hv as [Hlo Hhi].
  apply Z.leb_le in Hlo. apply Z.ltb_lt in Hhi.
  unfold civil_of.
  assert (1 <= t / US_PER_DAY + 1 <= 3652059) as Hord
      by (unfold US_PER_DAY in *; Z.to_euclidean_division_equations; lia).
  pose proof (ord2ymd_spec (t / US_PER_DAY + 1) ltac:(lia)) as Hspec.
  destruct (ord2ymd (t / US_PER_DAY + 1)) as [[y m] d].
  destruct Hspec as (Hymd & Hy & Hm & Hd).
  assert (y <= 9999) as Hy'.
  { destruct (Z_le_gt_dec y 9999) as [Hle | Hgt]; [exact Hle | exfalso].
    assert (3652059 <= days_before_year y) as Hdby
        by (unfold days_before_year; Z.to_euclidean_division_equations; lia).
    assert (0 <= days_before_month y m) as Hdbm.
    { unfold days_before_month.
      assert (0 <= DAYS_BEFORE_MONTH m).
      { assert (m = 1 \/ m = 2 \/ m = 3 \/ m = 4 \/ m = 5 \/ m = 6 \/ m = 7
                \/ m = 8 \/ m = 9 \/ m = 10 \/ m = 11 \/ m = 12) as C by lia.
        repeat (destruct C as [-> | C]; [cbn; lia |]). subst m; cbn; lia. }
      destruct ((2 <? m) && is_leap y); lia. }
    unfold ymd2ord in Hymd. lia. }
  unfold of_civil. cbn [c_year c_month c_day c_hour c_minute c_second
                        c_microsecond].
  set (r := t mod US_PER_DAY).
  assert (0 <= r < US_PER_DAY) as Hr
      by (apply Z.mod_pos_bound; unfold US_PER_DAY; lia).
  replace ((1 <=? y) && (y <=? 9999) && (1 <=? m) && (m <=? 12) && (1 <=? d)
           && (d <=? days_in_month y m)
           && (0 <=? r / US_PER_HOUR) && (r / US_PER_HOUR <=? 23)
           && (0 <=? r mod US_PER_HOUR / US_PER_MINUTE)
           && (r mod US_PER_HOUR / US_PER_MINUTE <=? 59)
           && (0 <=? r mod US_PER_MINUTE / US_PER_SECOND)
           && (r mod US_PER_MINUTE / US_PER_SECOND <=? 59)
           && (0 <=? r mod US_PER_SECOND) && (r mod US_PER_SECOND <=? 999999))
    with true.
  - cbv iota. apply f_equal. rewrite Hymd. subst r.
    unfold US_PER_DAY, US_PER_HOUR, US_PER_MINUTE, US_PER_SECOND in *.
    set (r := t mod 86400000000).
    assert ((r mod 3600000000) mod 60000000 = r mod 60000000) as A1
        by (apply Z.mod_mod_divide; exists 60; reflexivity).
    assert ((r mod 60000000) mod 1000000 = r mod 1000000) as A2
        by (apply Z.mod_mod_divide; exists 60; reflexivity).
    rewrite <- A2, <- A1. clear A1 A2.
    subst r.
    Z.to_euclidean_division_equations; lia.
  - symmetry. repeat (apply andb_true_intro; split);
      apply Z.leb_le; try lia;
      unfold US_PER_DAY, US_PER_HOUR, US_PER_MINUTE, US_PER_SECOND in *;
      Z.to_euclidean_division_equations; lia.
Qed.

(** The fields of a valid instant fit their widths. *)
Lemma civil_of_bounds (t : datetime) :
  dt_valid t = true ->
  let c := civil_of t in
  0 <= c_year c < 10 ^ 4 /\ 0 <= c_month c < 10 ^ 2 /\ 0 <= c_day c < 10 ^ 2
  /\ 0 <= c_hour c < 10 ^ 2 /\ 0 <= c_minute c < 10 ^ 2
  /\ 0 <= c_second c < 10 ^ 2 /\ 0 <= c_microsecond c < 10 ^ 6.
Proof.
  intros Hv. pose proof (of_civil_civil_of t Hv) as H.
  unfold of_civil in H. cbv zeta.
  destruct (civil_of t) as [y m d h mi s us].
  cbn [c_year c_month c_day c_hour c_minute c_second c_microsecond] in *.
  match type of H with (if ?b then _ else _) = _ => destruct b eqn:Hb end;
    [| discriminate].
  repeat (apply andb_prop in Hb; destruct Hb as [Hb ?]).
  repeat match goal with
         | H : (_ <=? _) = true |- _ => apply Z.leb_le in H
         end.
  assert (days_in_month y m <= 31).
  { unfold days_in_month. destruct ((m =? 2) && is_leap y); [lia |].
    assert (m = 1 \/ m = 2 \/ m = 3 \/ m = 4 \/ m = 5 \/ m = 6 \/ m = 7
            \/ m = 8 \/ m = 9 \/ m = 10 \/ m = 11 \/ m = 12) as C by lia.
    repeat (destruct C as [-> | C]; [cbn; lia |]). subst m; cbn; lia. }
  change (10 ^ 4) with 10000. change (10 ^ 2) with 100.
  change (10 ^ 6) with 1000000. lia.
Qed.

Lemma parse_fraction_zfill (us : Z) :
  0 <= us < 10 ^ 6 -> parse_fraction (zfill 6 us EmptyString) = Some us.
Proof.
  intros Hus. unfold parse_fraction.
  pose proof (take_digits_zfill_all 6 us EmptyString Hus) as H6.
  change 6%nat with (3 + 3)%nat in H6 at 1.
  rewrite take_digits_split in H6.
  destruct (take_digits 3 0 (zfill 6 us EmptyString)) as [[ms r] |];
    [| discriminate].
  destruct r as [| c r]; [discriminate |].
  rewrite H6. reflexivity.
Qed.

Lemma parse_time_format (h mi se us : Z) :
  0 <= h < 10 ^ 2 -> 0 <= mi < 10 ^ 2 -> 0 <= se < 10 ^ 2 ->
  0 <= us < 10 ^ 6 ->
  parse_time
    (zfill 2 h (String ":" (zfill 2 mi (String ":" (zfill 2 se
       (if us =? 0 then EmptyString
        else String "." (zfill 6 us EmptyString)))))))
  = Some (h, mi, se, us).
Proof.
  intros Hh Hmi Hse Hus. unfold parse_time.
  rewrite (take_digits_zfill_all 2 h) by exact Hh.
  rewrite (take_digits_zfill_all 2 mi) by exact Hmi.
  rewrite (take_digits_zfill_all 2 se) by exact Hse.
  destruct (us =? 0) eqn:H0.
  - apply Z.eqb_eq in H0. now subst us.
  - now rewrite parse_fraction_zfill.
Qed.

(** [datetime.fromisoformat(t.isoformat()) == t] *)
Lemma fromisoformat_isoformat (t : datetime) :
  dt_valid t = true -> fromisoformat (isoformat t) = Some t.
Proof.
  intros Hv. pose proof (civil_of_bounds t Hv) as Hb. cbv zeta in Hb.
  pose proof (of_civil_civil_of t Hv) as Hc.
  unfold fromisoformat, isoformat.
  destruct (civil_of t) as [y m d h mi se us].
  cbn [c_year c_month c_day c_hour c_minute c_second c_microsecond] in *.
  destruct Hb as (Hy & Hm & Hd & Hh & Hmi & Hse & Hus).
  rewrite (take_digits_zfill_all 4 y) by exact Hy.
  cbn [expect]. rewrite Ascii.eqb_refl.
  rewrite (take_digits_zfill_all 2 m) by exact Hm.
  cbn [expect]. rewrite Ascii.eqb_refl.
  rewrite (take_digits_zfill_all 2 d) by exact Hd.
  rewrite parse_time_format by assumption.
  exact Hc.
Qed.

Lemma isoformat_nonempty (t : datetime) : isoformat t <> EmptyString.
Proof.
  unfold isoformat.
  match goal with
  | |- zfill ?k ?n (String ?c ?acc) <> _ =>
      destruct (zfill_cons k n c acc) as (c' & s' & ->)
  end.
  discriminate.
Qed.

(** ** Dictionaries: properties *)

Section DictFacts.
Context {K V : Type} (eqb : K -> K -> bool).
Hypothesis eqb_eq : forall a b : K, eqb a b = true <-> a = b.

Lemma eqb_refl' (a : K) : eqb a a = true.
Proof. now apply eqb_eq. Qed.

Lemma eqb_neq (a b : K) : a <> b -> eqb a b = false.
Proof.
  intros H. destruct (eqb a b) eqn:E; [| reflexivity].
  apply eqb_eq in E. contradiction.
Qed.

Lemma dict_get_none (k : K) (d : list (K * V)) :
  dict_get eqb k d = None <-> ~ In k (dict_keys d).
Proof.
  induction d as [| [k' v] d IH]; cbn [dict_get dict_keys map In fst].
  - tauto.
  - destruct (eqb k k') eqn:E.
    + apply eqb_eq in E. subst. split; [discriminate | tauto].
    + unfold dict_keys in IH. rewrite IH. split.
      * intros H [H' | H']; [| tauto]. subst.
        rewrite eqb_refl' in E. discriminate.
      * tauto.
Qed.

Lemma dict_get_in (k : K) (v : V) (d : list (K * V)) :
  dict_get eqb k d = Some v -> In (k, v) d.
Proof.
  induction d as [| [k' v'] d IH]; cbn [dict_get In]; [discriminate |].
  destruct (eqb k k') eqn:E.
  - apply eqb_eq in E. subst. intros [= ->]. now left.
  - intros H. right. now apply IH.
Qed.

Lemma in_dict_get (k : K) (v : V) (d : list (K * V)) :
  NoDup (dict_keys d) -> In (k, v) d -> dict_get eqb k d = Some v.
Proof.
  induction d as [| [k' v'] d IH]; cbn [dict_keys map fst In dict_get];
    [tauto |].
  intros Hnd [H | H].
  - injection H as -> ->. now rewrite eqb_refl'.
  - inversion Hnd as [| ? ? Hnotin Hnd']; subst.
    destruct (eqb k k') eqn:E.
    + apply eqb_eq in E. subst. exfalso. apply Hnotin.
      change k' with (fst (k', v)). now apply in_map.
    + now apply IH.
Qed.

Lemma dict_set_absent (k : K) (v : V) (d : list (K * V)) :
  dict_get eqb k d = None -> dict_set eqb k v d = d ++ [(k, v)].
Proof.
  induction d as [| [k' v'] d IH]; cbn [dict_get dict_set app];
    [reflexivity |].
  destruct (eqb k k'); [discriminate |]. intros H. now rewrite IH.
Qed.

Lemma dict_keys_set (k : K) (v : V) (d : list (K * V)) :
  dict_keys (dict_set eqb k v d)
  = if dict_mem eqb k d then dict_keys d else dict_keys d ++ [k].
Proof.
  unfold dict_mem.
  induction d as [| [k' v'] d IH]; cbn [dict_get dict_set dict_keys map fst app];
    [reflexivity |].
  destruct (eqb k k') eqn:E; [reflexivity |].
  cbn [dict_keys map fst]. unfold dict_keys in IH. rewrite IH.
  destruct (dict_get eqb k d); reflexivity.
Qed.

Lemma dict_get_set (k k' : K) (v : V) (d : list (K * V)) :
  dict_get eqb k' (dict_set eqb k v d)
  = if eqb k' k then Some v else dict_get eqb k' d.
Proof.
  induction d as [| [k0 v0] d IH]; cbn [dict_get dict_set].
  - destruct (eqb k' k); reflexivity.
  - destruct (eqb k k0) eqn:E; cbn [dict_get].
    + apply eqb_eq in E. subst k0. destruct (eqb k' k); reflexivity.
    + destruct (eqb k' k0) eqn:E'.
      * apply eqb_eq in E'. subst k0.
        destruct (eqb k' k) eqn:E''; [| reflexivity].
        apply eqb_eq in E''. subst. rewrite eqb_refl' in E. discriminate.
      * exact IH.
Qed.

Lemma dict_keys_del_incl (k : K) (d : list (K * V)) :
  incl (dict_keys (dict_del eqb k d)) (dict_keys d).
Proof.
  induction d as [| [k' v'] d IH]; cbn [dict_del dict_keys map fst].
  - apply incl_refl.
  - destruct (eqb k k').
    + apply incl_tl, incl_refl.
    + cbn [map fst]. apply incl_cons; [now left |]. now apply incl_tl.
Qed.

Lemma dict_del_nodup (k : K) (d : list (K * V)) :
  NoDup (dict_keys d) -> NoDup (dict_keys (dict_del eqb k d)).
Proof.
  induction d as [| [k' v'] d IH]; cbn [dict_del dict_keys map fst];
    [trivial |].
  intros Hnd. inversion Hnd as [| ? ? Hnotin Hnd']; subst.
  destruct (eqb k k'); [exact Hnd' |]. cbn [map fst]. constructor.
  - intros Hin. apply Hnotin. now apply (dict_keys_del_incl k d).
  - now apply IH.
Qed.

Lemma dict_get_del (k k' : K) (d : list (K * V)) :
  NoDup (dict_keys d) ->
  dict_get eqb k' (dict_del eqb k d)
  = if eqb k' k then None else dict_get eqb k' d.
Proof.
  induction d as [| [k0 v0] d IH]; cbn [dict_get dict_del dict_keys map fst].
  - destruct (eqb k' k); reflexivity.
  - intros Hnd. inversion Hnd as [| ? ? Hnotin Hnd']; subst.
    destruct (eqb k k0) eqn:E.
    + apply eqb_eq in E. subst k0. destruct (eqb k' k) eqn:E'; [| reflexivity].
      apply eqb_eq in E'. subst. now apply dict_get_none.
    + cbn [dict_get]. destruct (eqb k' k0) eqn:E'.
      * apply eqb_eq in E'. subst k0.
        destruct (eqb k' k) eqn:E''; [| reflexivity].
        apply eqb_eq in E''. subst. rewrite eqb_refl' in E. discriminate.
      * now apply IH.
Qed.

Lemma dict_set_nodup (k : K) (v : V) (d : list (K * V)) :
  NoDup (dict_keys d) -> NoDup (dict_keys (dict_set eqb k v d)).
Proof.
  intros Hnd. rewrite dict_keys_set. unfold dict_mem.
  destruct (dict_get eqb k d) eqn:E; [exact Hnd |].
  apply dict_get_none in E.
  apply NoDup_app; [exact Hnd | repeat constructor; intros [] |].
  intros x Hx [<- | []]. contradiction.
Qed.

Lemma fold_dict_set_fresh (items acc : list (K * V)) :
  NoDup (dict_keys acc ++ dict_keys items) ->
  fold_left (fun d kv => dict_set eqb (fst kv) (snd kv) d) items acc
  = acc ++ items.
Proof.
  revert acc. induction items as [| [k v] items IH]; intros acc Hnd;
    cbn [fold_left fst snd].
  - now rewrite app_nil_r.
  - rewrite dict_set_absent.
    + rewrite IH.
      * now rewrite <- app_assoc.
      * unfold dict_keys in *. rewrite map_app. cbn [map fst].
        rewrite <- app_assoc. exact Hnd.
    + apply dict_get_none. intros Hin.
      unfold dict_keys in Hnd. cbn [map fst] in Hnd.
      apply NoDup_remove_2 in Hnd. apply Hnd. apply in_or_app. now left.
Qed.

Lemma dict_of_items_nodup (items : list (K * V)) :
  NoDup (dict_keys items) -> dict_of_items eqb items = items.
Proof.
  intros Hnd. unfold dict_of_items. now rewrite fold_dict_set_fresh.
Qed.

End DictFacts.

Lemma dict_get_del_other {K V : Type} (eqb : K -> K -> bool)
      (k k' : K) (d : list (K * V)) :
  eqb k' k = false ->
  (forall a b, eqb a b = true <-> a = b) ->
  dict_get eqb k' (dict_del eqb k d) = dict_get eqb k' d.
Proof.
  intros Hne eqb_eq.
  induction d as [| [k0 v0] d IH]; cbn [dict_get dict_del]; [reflexivity |].
  destruct (eqb k k0) eqn:E.
  - apply eqb_eq in E. subst k0. now rewrite Hne.
  - cbn [dict_get]. now rewrite IH.
Qed.

Lemma dict_del_forall {K V : Type} (eqb : K -> K -> bool)
      (P : K * V -> Prop) (k : K) (d : list (K * V)) :
  Forall P d -> Forall P (dict_del eqb k d).
Proof.
  induction d as [| [k0 v0] d IH]; cbn [dict_del]; [trivial |].
  intros H. inversion H; subst. destruct (eqb k k0); [assumption |].
  constructor; auto.
Qed.

Lemma dict_set_forall {K V : Type} (eqb : K -> K -> bool)
      (P : K * V -> Prop) (k : K) (v : V) (d : list (K * V)) :
  (forall k0, eqb k k0 = true -> P (k0, v)) -> P (k, v) ->
  Forall P d -> Forall P (dict_set eqb k v d).
Proof.
  intros Hk Hkv.
  induction d as [| [k0 v0] d IH]; cbn [dict_set].
  - intros _. now constructor.
  - intros H. inversion H; subst. destruct (eqb k k0) eqn:E.
    + constructor; [now apply Hk | assumption].
    + constructor; auto.
Qed.

(** ** Persistence *)

Lemma Z_eqb_iff (a b : Z) : (a =? b) = true <-> a = b.
Proof. apply Z.eqb_eq. Qed.

Lemma string_eqb_iff (a b : string) : String.eqb a b = true <-> a = b.
Proof. apply String.eqb_eq. Qed.

Lemma from_dict_to_dict (u : UserData) :
  match expires_at u with Some t => dt_valid t = true | None => True end ->
  from_dict (to_dict u) = Ok u.
Proof.
  destruct u as [uid uname e ws]. cbn [expires_at]. intros Hv.
  unfold from_dict, to_dict.
  cbn [user_id username expires_at warning_sent dict_get String.eqb
       Ascii.eqb Bool.eqb].
  destruct uname as [s |]; destruct e as [t |]; cbn [truthy];
    try reflexivity.
  - destruct (String.eqb (isoformat t) EmptyString) eqn:E.
    + apply String.eqb_eq in E. now apply isoformat_nonempty in E.
    + cbn [negb]. now rewrite fromisoformat_isoformat.
  - destruct (String.eqb (isoformat t) EmptyString) eqn:E.
    + apply String.eqb_eq in E. now apply isoformat_nonempty in E.
    + cbn [negb]. now rewrite fromisoformat_isoformat.
Qed.

Lemma load_items_dump (s : store) :
  forall acc : store,
    NoDup (dict_keys acc ++ dict_keys s) ->
    store_representable s ->
    load_items (map (fun kv => (py_str (fst kv), to_dict (snd kv))) s) acc
    = Ok (acc ++ s).
Proof.
  induction s as [| [k u] s IH]; intros acc Hnd Hrep; cbn [map load_items fst snd].
  - now rewrite app_nil_r.
  - inversion Hrep as [| ? ? Hu Hrep']; subst. cbn [snd] in Hu.
    rewrite py_int_py_str, from_dict_to_dict by exact Hu.
    rewrite (dict_set_absent Z.eqb).
    + rewrite IH; [now rewrite <- app_assoc | | exact Hrep'].
      unfold dict_keys in *. rewrite map_app. cbn [map fst].
      rewrite <- app_assoc. exact Hnd.
    + apply (dict_get_none Z.eqb Z_eqb_iff). intros Hin.
      unfold dict_keys in Hnd. cbn [map fst] in Hnd.
      apply NoDup_remove_2 in Hnd. apply Hnd. apply in_or_app. now left.
Qed.

Lemma dump_users_items (s : store) :
  NoDup (dict_keys s) ->
  dump_users s
  = JDict (map (fun kv => (py_str (fst kv), to_dict (snd kv))) s).
Proof.
  intros Hnd. unfold dump_users. f_equal.
  apply (dict_of_items_nodup String.eqb string_eqb_iff).
  unfold dict_keys in *. rewrite map_map. cbn [fst].
  rewrite <- (map_map fst py_str).
  apply NoDup_map_NoDup_ForallPairs; [| exact Hnd].
  intros a b _ _. apply py_str_inj.
Qed.

(** C7.  Serialising a store (a dict: no key twice; every expiry an instant
    a datetime can hold) to the persisted form and loading that form again
    gives the same records in the same order: same ids, same names, same
    expiry instants to the microsecond, same warning flags; and this is what
    [load_data] then installs, whatever the store held before. *)
Theorem persist_reload_round_trip (s : store) :
  NoDup (dict_keys s) ->
  store_representable s ->
  load_users (dump_users s) = Ok s
  /\ forall s0 : store, load_data (Json (dump_users s)) s0 = s.
Proof.
  intros Hnd Hrep.
  assert (load_users (dump_users s) = Ok s) as H.
  { rewrite dump_users_items by exact Hnd. unfold load_users.
    now rewrite load_items_dump. }
  split; [exact H |]. intros s0. unfold load_data. now rewrite H.
Qed.

Lemma persist_reload_round_trip_witness :
  let s := [(42, mkUserData 42 (Some "ann") (Some (noon + 1)) true);
            (7, mkUserData 7 None None false)] in
  NoDup (dict_keys s) /\ store_representable s
  /\ load_users (dump_users s) = Ok s
  /\ forall s0 : store, load_data (Json (dump_users s)) s0 = s.
Proof.
  cbv zeta.
  assert (NoDup (dict_keys
                   [(42, mkUserData 42 (Some "ann") (Some (noon + 1)) true);
                    (7, mkUserData 7 None None false)])) as Hnd
      by (repeat constructor; cbn; intuition discriminate).
  assert (store_representable
            [(42, mkUserData 42 (Some "ann") (Some (noon + 1)) true);
             (7, mkUserData 7 None None false)]) as Hrep
      by (repeat constructor).
  split; [exact Hnd |]. split; [exact Hrep |].
  exact (persist_reload_round_trip _ Hnd Hrep).
Defined.

(** ** The remaining-time formatter *)

Lemma hours_component (d : Z) :
  0 <= d -> (d mod US_PER_DAY / US_PER_SECOND) / 3600 = (d / US_PER_HOUR) mod 24.
Proof.
  unfold US_PER_DAY, US_PER_SECOND, US_PER_HOUR. intros H.
  Z.to_euclidean_division_equations. lia.
Qed.

Lemma minutes_component (d : Z) :
  0 <= d ->
  (d mod US_PER_DAY / US_PER_SECOND) mod 3600 / 60 = (d / US_PER_MINUTE) mod 60.
Proof.
  unfold US_PER_DAY, US_PER_SECOND, US_PER_MINUTE. intros H.
  Z.to_euclidean_division_equations. lia.
Qed.

Lemma components_zero_iff (d : Z) :
  0 <= d ->
  (d / US_PER_DAY <= 0 /\ (d / US_PER_HOUR) mod 24 <= 0
   /\ (d / US_PER_MINUTE) mod 60 <= 0) <-> d < US_PER_MINUTE.
Proof.
  unfold US_PER_DAY, US_PER_HOUR, US_PER_MINUTE. intros H.
  Z.to_euclidean_division_equations. lia.
Qed.

Lemma format_time_remaining_spec (now expires : datetime) :
  format_time_remaining now expires = remaining_time_spec now expires.
Proof.
  unfold format_time_remaining, remaining_time_spec.
  destruct (expires <=? now) eqn:Hexp; [reflexivity |].
  apply Z.leb_gt in Hexp.
  unfold dt_sub, td_days, td_seconds.
  assert (0 <= expires - now) as Hd by lia.
  rewrite (hours_component _ Hd), (minutes_component _ Hd).
  pose proof (components_zero_iff _ Hd) as Hz.
  set (d := expires - now) in *.
  destruct (d <? US_PER_MINUTE) eqn:Hmin.
  - apply Z.ltb_lt in Hmin. apply Hz in Hmin. destruct Hmin as (H1 & H2 & H3).
    replace (0 <? d / US_PER_DAY) with false by (symmetry; apply Z.ltb_ge; lia).
    replace (0 <? (d / US_PER_HOUR) mod 24) with false
      by (symmetry; apply Z.ltb_ge; lia).
    replace (0 <? (d / US_PER_MINUTE) mod 60) with false
      by (symmetry; apply Z.ltb_ge; lia).
    reflexivity.
  - apply Z.ltb_ge in Hmin.
    destruct (0 <? d / US_PER_DAY) eqn:H1; [reflexivity |].
    destruct (0 <? (d / US_PER_HOUR) mod 24) eqn:H2; [reflexivity |].
    destruct (0 <? (d / US_PER_MINUTE) mod 60) eqn:H3.
    + destruct (d / US_PER_DAY =? 0) eqn:H4; [reflexivity |].
      exfalso. apply Z.ltb_ge in H1. apply Z.eqb_neq in H4.
      assert (0 <= d / US_PER_DAY) by (apply Z.div_pos; unfold US_PER_DAY; lia).
      lia.
    + exfalso. apply Z.ltb_ge in H1, H2, H3.
      assert (d < US_PER_MINUTE) by (apply Hz; lia). lia.
Qed.

(** C8.  The remaining-time text is a function of the expiry and of the
    instant read from the clock, and this function is the rule of the
    specification: the expired marker at or after the expiry, the fixed
    marker under one minute, else the non-zero day, hour and minute
    components with the minutes only when the day component is zero.  An
    expiry 2 days 3 hours away reads "2д 3ч", one 45 minutes away "45м", one
    10 seconds away the under-a-minute marker, one that has passed the
    expired marker. *)
Theorem format_time_remaining_rule (now expires : datetime) :
  format_time_remaining now expires = remaining_time_spec now expires
  /\ format_time_remaining now (now + 2 * US_PER_DAY + 3 * US_PER_HOUR)
     = "2д 3ч"
  /\ format_time_remaining now (now + 45 * US_PER_MINUTE) = "45м"
  /\ format_time_remaining now (now + 10 * US_PER_SECOND)
     = UNDER_A_MINUTE_MARKER
  /\ format_time_remaining now now = EXPIRED_MARKER
  /\ format_time_remaining now (now - 1) = EXPIRED_MARKER.
Proof.
  split; [apply format_time_remaining_spec |].
  unfold format_time_remaining, dt_sub, td_days, td_seconds.
  repeat split.
  - replace (now + 2 * US_PER_DAY + 3 * US_PER_HOUR <=? now) with false
      by (symmetry; apply Z.leb_gt; unfold US_PER_DAY, US_PER_HOUR; lia).
    replace (now + 2 * US_PER_DAY + 3 * US_PER_HOUR - now)
      with (2 * US_PER_DAY + 3 * US_PER_HOUR) by lia.
    reflexivity.
  - replace (now + 45 * US_PER_MINUTE <=? now) with false
      by (symmetry; apply Z.leb_gt; unfold US_PER_MINUTE; lia).
    replace (now + 45 * US_PER_MINUTE - now) with (45 * US_PER_MINUTE) by lia.
    reflexivity.
  - replace (now + 10 * US_PER_SECOND <=? now) with false
      by (symmetry; apply Z.leb_gt; unfold US_PER_SECOND; lia).
    replace (now + 10 * US_PER_SECOND - now) with (10 * US_PER_SECOND) by lia.
    reflexivity.
  - rewrite Z.leb_refl. reflexivity.
  - replace (now - 1 <=? now) with true by (symmetry; apply Z.leb_le; lia).
    reflexivity.
Qed.

(** ** Requests and the world *)

Lemma emitted_app (w w' : World) (new : list (call * bool)) :
  calls w' = new ++ calls w -> emitted w w' = new.
Proof.
  intros H. unfold emitted. rewrite H, length_app.
  replace (List.length new + List.length (calls w) - List.length (calls w))%nat
    with (List.length new + 0)%nat by lia.
  rewrite firstn_app_2. cbn [firstn]. apply app_nil_r.
Qed.

Lemma request_run (E : Env) (c : call) (w : World) :
  request E c w
  = (if transport E (calls w) c then Ok tt else Raise (exn_of_call c),
     log E c w).
Proof. reflexivity. Qed.

Lemma attempt_run (E : Env) (c : call) (w : World) :
  attempt E c w = (Ok tt, log E c w).
Proof.
  unfold attempt, try_except. rewrite request_run.
  destruct (transport E (calls w) c); reflexivity.
Qed.

Lemma for_each_attempt (E : Env) {A : Type} (f : A -> call) (l : list A) :
  forall w : World,
    for_each l (fun a => attempt E (f a)) w = (Ok tt, log_all E (map f l) w).
Proof.
  induction l as [| a l IH]; intros w; cbn [for_each map log_all];
    [reflexivity |].
  unfold bind. rewrite attempt_run. apply IH.
Qed.

Lemma save_data_run (E : Env) (w : World) :
  save_data E w = (Ok tt, log E (WriteDataFile (dump_users (users w))) w).
Proof.
  unfold save_data, try_except, bind, get_world. rewrite request_run.
  destruct (transport E (calls w) _); reflexivity.
Qed.

Lemma remove_user_run (E : Env) (uid : Z) (w : World) :
  remove_user E uid w
  = (Ok tt,
     if dict_mem Z.eqb uid (users w) then
       let w1 := with_users w (dict_del Z.eqb uid (users w)) in
       log E (WriteDataFile (dump_users (users w1))) w1
     else w).
Proof.
  unfold remove_user, bind, get_world.
  destruct (dict_mem Z.eqb uid (users w)); [| reflexivity].
  unfold set_users. now rewrite save_data_run.
Qed.

Lemma log_all_users (E : Env) (cs : list call) :
  forall w, users (log_all E cs w) = users w.
Proof.
  induction cs as [| c cs IH]; intros w; [reflexivity |].
  cbn [log_all]. now rewrite IH.
Qed.

Lemma log_all_vip_users (E : Env) (cs : list call) :
  forall w, vip_users (log_all E cs w) = vip_users w.
Proof.
  induction cs as [| c cs IH]; intros w; [reflexivity |].
  cbn [log_all]. now rewrite IH.
Qed.

Lemma log_all_clock_reads (E : Env) (cs : list call) :
  forall w, clock_reads (log_all E cs w) = clock_reads w.
Proof.
  induction cs as [| c cs IH]; intros w; [reflexivity |].
  cbn [log_all]. now rewrite IH.
Qed.

Lemma log_all_fsm (E : Env) (cs : list call) :
  forall w, fsm (log_all E cs w) = fsm w.
Proof.
  induction cs as [| c cs IH]; intros w; [reflexivity |].
  cbn [log_all]. now rewrite IH.
Qed.

(** The requests of [log_all] are those asked for, latest first. *)
Lemma log_all_calls (E : Env) (cs : list call) :
  forall w,
    exists new,
      calls (log_all E cs w) = new ++ calls w /\ map fst new = rev cs.
Proof.
  induction cs as [| c cs IH]; intros w; cbn [log_all].
  - exists []. split; reflexivity.
  - destruct (IH (log E c w)) as (new & Hc & Hm).
    exists (new ++ [(c, transport E (calls w) c)]). split.
    + rewrite Hc. cbn [log with_calls calls]. now rewrite <- app_assoc.
    + rewrite map_app, Hm. reflexivity.
Qed.

Lemma for_each_app {A : Type} (f : A -> M unit) (l1 l2 : list A) :
  forall w w1,
    for_each l1 f w = (Ok tt, w1) ->
    for_each (l1 ++ l2) f w = for_each l2 f w1.
Proof.
  induction l1 as [| a l1 IH]; intros w w1; cbn [for_each app].
  - unfold ret. now intros [= ->].
  - unfold bind. destruct (f a w) as [[[] | e] w0]; [| discriminate].
    apply IH.
Qed.

(** ** Steps of the sweeper that do not concern a user *)

Lemma store_wf_nodup (s : store) : store_wf s -> NoDup (dict_keys s).
Proof. now intros [H _]. Qed.

Ltac frame_split := unfold sweeper_frame; split; [| split; [| split]].

Lemma sweeper_frame_refl (u : Z) (w : World) : sweeper_frame u w w.
Proof.
  frame_split; auto. exists []. split; [reflexivity | constructor].
Qed.

Lemma sweeper_frame_trans (u : Z) (w1 w2 w3 : World) :
  sweeper_frame u w1 w2 -> sweeper_frame u w2 w3 -> sweeper_frame u w1 w3.
Proof.
  intros (Hv & Hg & Hw & new & Hc & Hn) (Hv' & Hg' & Hw' & new' & Hc' & Hn').
  frame_split.
  - congruence.
  - congruence.
  - auto.
  - exists (new' ++ new). split.
    + rewrite Hc', Hc. apply app_assoc.
    + apply Forall_app. now split.
Qed.

(** Requests alone, none of which concerns [u]. *)
Lemma sweeper_frame_log_all (E : Env) (u : Z) (cs : list call) (w : World) :
  Forall (fun c => about_user u c = false) cs ->
  sweeper_frame u w (log_all E cs w).
Proof.
  intros Hcs. frame_split.
  - apply log_all_vip_users.
  - now rewrite log_all_users.
  - now rewrite log_all_users.
  - destruct (log_all_calls E cs w) as (new & Hc & Hm). exists new.
    split; [exact Hc |].
    apply Forall_forall. intros [c b] Hin. cbn [fst].
    assert (In c (rev cs)) as Hin'.
    { rewrite <- Hm. change c with (fst (c, b)). now apply in_map. }
    apply in_rev in Hin'. revert c Hin' Hin. intros c Hin' _.
    rewrite Forall_forall in Hcs. now apply Hcs.
Qed.

Lemma sweeper_frame_log (E : Env) (u : Z) (c : call) (w : World) :
  about_user u c = false -> sweeper_frame u w (log E c w).
Proof.
  intros Hc. apply (sweeper_frame_log_all E u [c] w). now constructor.
Qed.

Lemma sweeper_frame_clock (u : Z) (w : World) (n : nat) :
  sweeper_frame u w (with_clock_reads w n).
Proof.
  frame_split; auto. exists []. split; [reflexivity | constructor].
Qed.

Lemma for_each_frame {A : Type} (u : Z) (f : A -> M unit) (l : list A) :
  (forall x, In x l ->
             forall w, exists w', f x w = (Ok tt, w') /\ sweeper_frame u w w') ->
  forall w, exists w', for_each l f w = (Ok tt, w') /\ sweeper_frame u w w'.
Proof.
  induction l as [| a l IH]; intros Hf w; cbn [for_each].
  - exists w. split; [reflexivity | apply sweeper_frame_refl].
  - destruct (Hf a (or_introl eq_refl) w) as (w1 & Ha & Hfr).
    destruct (IH (fun x Hx => Hf x (or_intror Hx)) w1) as (w2 & Hl & Hfr').
    exists w2. unfold bind. rewrite Ha. split; [exact Hl |].
    now apply (sweeper_frame_trans u w w1 w2).
Qed.

(** ** The store stays well formed *)

Lemma store_wf_del (uid : Z) (s : store) :
  store_wf s -> store_wf (dict_del Z.eqb uid s).
Proof.
  intros [Hnd Hid]. split.
  - now apply dict_del_nodup.
  - now apply dict_del_forall.
Qed.

Lemma store_wf_set (uid : Z) (r : UserData) (s : store) :
  user_id r = uid -> store_wf s -> store_wf (dict_set Z.eqb uid r s).
Proof.
  intros Hr [Hnd Hid]. split.
  - now apply (dict_set_nodup Z.eqb Z_eqb_iff).
  - apply dict_set_forall; [| exact Hr | exact Hid].
    intros k0 Hk. apply Z.eqb_eq in Hk. now subst k0.
Qed.

Lemma store_wf_get (uid : Z) (r : UserData) (s : store) :
  store_wf s -> dict_get Z.eqb uid s = Some r -> user_id r = uid.
Proof.
  intros [_ Hid] Hget. apply (dict_get_in Z.eqb Z_eqb_iff) in Hget.
  rewrite Forall_forall in Hid. exact (Hid _ Hget).
Qed.

(** In a well-formed store the records other than the one of [u] belong to
    other users. *)
Lemma store_wf_split (u : Z) (r : UserData) (s : store) :
  store_wf s -> dict_get Z.eqb u s = Some r ->
  exists l1 l2,
    dict_values s = l1 ++ r :: l2
    /\ (forall x, In x l1 -> user_id x <> u)
    /\ (forall x, In x l2 -> user_id x <> u).
Proof.
  intros [Hnd Hid] Hget. apply (dict_get_in Z.eqb Z_eqb_iff) in Hget.
  destruct (in_split _ _ Hget) as (s1 & s2 & ->).
  exists (dict_values s1), (dict_values s2).
  unfold dict_values, dict_keys in *. rewrite map_app in *. cbn [map fst snd] in *.
  split; [reflexivity |].
  rewrite Forall_forall in Hid.
  split; intros x Hx Hu; apply in_map_iff in Hx; destruct Hx as ([k x'] & Hx' & Hin);
    cbn [snd] in Hx'; subst x'.
  - assert (k = u) as ->.
    { rewrite <- Hu. symmetry. apply (Hid (k, x)). apply in_or_app. now left. }
    apply NoDup_remove_2 in Hnd. apply Hnd. apply in_or_app. left.
    change u with (fst (u, x)). now apply in_map.
  - assert (k = u) as ->.
    { rewrite <- Hu. symmetry. apply (Hid (k, x)). apply in_or_app. right.
      now right. }
    apply NoDup_remove_2 in Hnd. apply Hnd. apply in_or_app. right.
    change u with (fst (u, x)). now apply in_map.
Qed.

Lemma store_wf_absent (u : Z) (s : store) :
  store_wf s -> dict_get Z.eqb u s = None ->
  forall x, In x (dict_values s) -> user_id x <> u.
Proof.
  intros [Hnd Hid] Hget x Hx Hu.
  apply (dict_get_none Z.eqb Z_eqb_iff) in Hget. apply Hget.
  unfold dict_values, dict_keys in *.
  apply in_map_iff in Hx. destruct Hx as ([k x'] & Hx' & Hin).
  cbn [snd] in Hx'. subst x'.
  rewrite Forall_forall in Hid. specialize (Hid _ Hin). cbn [fst snd] in Hid.
  rewrite <- Hu, Hid. change k with (fst (k, x)). now apply in_map.
Qed.

(** ** Revocation *)

Lemma kick_user_run (E : Env) (uid : Z) (w : World) :
  kick_user E uid w
  = (Ok tt,
     let uname :=
       name_or_id
         (match dict_get Z.eqb uid (users w) with
          | Some u => username u
          | None => None
          end) uid in
     let ban := BanChatMember (CHANNEL_ID E) uid in
     let unban := UnbanChatMember (CHANNEL_ID E) uid in
     let w1 := log E ban w in
     if transport E (calls w) ban then
       let w2 := log E unban w1 in
       if transport E (calls w1) unban then
         let w3 := log E (SendMessage uid MsgUserKick) w2 in
         let w4 :=
           log_all E
             (map (fun a => SendMessage a (MsgAdminKick uname uid))
                  (ADMIN_IDS E)) w3 in
         snd (remove_user E uid w4)
       else w2
     else w1).
Proof.
  unfold kick_user, try_except, bind, get_user. cbv zeta.
  rewrite request_run.
  destruct (transport E (calls w) (BanChatMember (CHANNEL_ID E) uid));
    [| reflexivity].
  rewrite request_run.
  destruct (transport E (calls (log E _ w)) (UnbanChatMember (CHANNEL_ID E) uid));
    [| reflexivity].
  rewrite attempt_run, for_each_attempt, remove_user_run. reflexivity.
Qed.

(** Revoking another user does not concern [u]. *)
Lemma kick_user_frame (E : Env) (u uid : Z) (w : World) :
  uid <> u ->
  exists w', kick_user E uid w = (Ok tt, w') /\ sweeper_frame u w w'.
Proof.
  intros Hne. rewrite kick_user_run. eexists. split; [reflexivity |].
  cbv zeta.
  assert (forall v, v = uid -> (v =? u) = false) as Hb
      by (intros v ->; now apply Z.eqb_neq).
  set (ban := BanChatMember (CHANNEL_ID E) uid).
  set (unban := UnbanChatMember (CHANNEL_ID E) uid).
  assert (sweeper_frame u w (log E ban w)) as F1
      by (apply sweeper_frame_log; cbn; now apply Hb).
  destruct (transport E (calls w) ban); [| exact F1].
  assert (sweeper_frame u (log E ban w) (log E unban (log E ban w))) as F2
      by (apply sweeper_frame_log; cbn; now apply Hb).
  destruct (transport E (calls (log E ban w)) unban);
    [| exact (sweeper_frame_trans _ _ _ _ F1 F2)].
  apply (sweeper_frame_trans _ _ _ _ F1).
  apply (sweeper_frame_trans _ _ _ _ F2).
  set (w2 := log E unban (log E ban w)).
  apply (sweeper_frame_trans _ _ (log E (SendMessage uid MsgUserKick) w2)).
  { apply sweeper_frame_log. cbn. now apply Hb. }
  set (w3 := log E (SendMessage uid MsgUserKick) w2).
  match goal with
  | |- sweeper_frame u w3 (snd (remove_user E uid ?w0)) =>
      apply (sweeper_frame_trans _ _ w0)
  end.
  { apply sweeper_frame_log_all. apply Forall_forall. intros c Hc.
    apply in_map_iff in Hc. destruct Hc as (a & <- & _). cbn. now apply Hb. }
  rewrite remove_user_run. cbn [snd].
  match goal with |- sweeper_frame u ?w0 _ => set (w4 := w0) end.
  destruct (dict_mem Z.eqb uid (users w4)); [| apply sweeper_frame_refl].
  cbv zeta. eapply sweeper_frame_trans; [| apply sweeper_frame_log; reflexivity].
  frame_split.
  - reflexivity.
  - cbn [users with_users].
    apply dict_get_del_other; [now apply Z.eqb_neq; auto | apply Z_eqb_iff].
  - cbn [users with_users]. apply store_wf_del.
  - exists []. split; [reflexivity | constructor].
Qed.

Lemma log_all_issued (E : Env) {A : Type} (f : A -> call) (l : list A)
      (w : World) :
  exists new,
    calls (log_all E (map f l) w) = new ++ calls w
    /\ forall a, In a l -> exists ok, In (f a, ok) new.
Proof.
  destruct (log_all_calls E (map f l) w) as (new & Hc & Hm).
  exists new. split; [exact Hc |]. intros a Ha.
  assert (In (f a) (map fst new)) as Hin
      by (rewrite Hm; apply -> in_rev; now apply in_map).
  apply in_map_iff in Hin. destruct Hin as ([c ok] & Hc' & Hin).
  cbn [fst] in Hc'. subst c. now exists ok.
Qed.

(** A revocation whose ban and unban succeed: the requests made and the
    store afterwards. *)
Lemma kick_user_success (E : Env) (u : Z) (w : World) :
  let ban := BanChatMember (CHANNEL_ID E) u in
  let unban := UnbanChatMember (CHANNEL_ID E) u in
  let uname :=
    name_or_id
      (match dict_get Z.eqb u (users w) with
       | Some r => username r
       | None => None
       end) u in
  transport E (calls w) ban = true ->
  transport E (calls (log E ban w)) unban = true ->
  exists w' new,
    kick_user E u w = (Ok tt, w')
    /\ users w' = dict_del Z.eqb u (users w)
    /\ vip_users w' = vip_users w
    /\ calls w' = new ++ calls w
    /\ In (ban, true) new /\ In (unban, true) new
    /\ (exists ok, In (SendMessage u MsgUserKick, ok) new)
    /\ (forall a, In a (ADMIN_IDS E) ->
                  exists ok, In (SendMessage a (MsgAdminKick uname u), ok) new).
Proof.
  cbv zeta. intros Hban Hunban.
  rewrite kick_user_run. cbv zeta.
  rewrite Hban, Hunban.
  set (ban := BanChatMember (CHANNEL_ID E) u) in *.
  set (unban := UnbanChatMember (CHANNEL_ID E) u) in *.
  set (uname := name_or_id _ u).
  set (w2 := log E unban (log E ban w)).
  set (w3 := log E (SendMessage u MsgUserKick) w2).
  set (f := fun a => SendMessage a (MsgAdminKick uname u)).
  destruct (log_all_issued E f (ADMIN_IDS E) w3) as (newa & Hca & Hina).
  set (w4 := log_all E (map f (ADMIN_IDS E)) w3) in *.
  assert (users w4 = users w) as Hu4 by (unfold w4; now rewrite log_all_users).
  assert (vip_users w4 = vip_users w) as Hv4
      by (unfold w4; now rewrite log_all_vip_users).
  assert (calls w4
          = newa ++ (SendMessage u MsgUserKick, transport E (calls w2)
                                                  (SendMessage u MsgUserKick))
                 :: (unban, true) :: (ban, true) :: calls w) as Hc4.
  { rewrite Hca. unfold w3, w2. cbn [log with_calls calls] in *.
    rewrite Hban in *. now rewrite Hunban. }
  rewrite remove_user_run. cbn [snd].
  destruct (dict_mem Z.eqb u (users w4)) eqn:Hmem.
  - eexists. eexists (_ :: newa ++ [_; _; _]). split; [reflexivity |].
    cbv zeta. cbn [log with_calls with_users users vip_users calls].
    rewrite Hu4, Hv4, Hc4.
    split; [reflexivity |]. split; [reflexivity |].
    split; [cbn [app]; rewrite <- app_assoc; reflexivity |].
    split; [right; apply in_or_app; right; cbn; auto |].
    split; [right; apply in_or_app; right; cbn; auto |].
    split; [eexists; right; apply in_or_app; right; left; reflexivity |].
    intros a Ha. destruct (Hina a Ha) as (ok & Hin). exists ok.
    right. apply in_or_app. now left.
  - exists w4, (newa ++ [(SendMessage u MsgUserKick,
                          transport E (calls w2) (SendMessage u MsgUserKick));
                         (unban, true); (ban, true)]).
    split; [reflexivity |].
    split.
    { rewrite Hu4. unfold dict_mem in Hmem. rewrite Hu4 in Hmem.
      destruct (dict_get Z.eqb u (users w)) eqn:Hg; [discriminate |].
      clear - Hg. induction (users w) as [| [k v] s IH]; [reflexivity |].
      cbn [dict_get dict_del] in *. destruct (u =? k); [discriminate |].
      now rewrite <- IH. }
    split; [exact Hv4 |].
    split; [rewrite Hc4, <- app_assoc; reflexivity |].
    split; [apply in_or_app; right; cbn; auto |].
    split; [apply in_or_app; right; cbn; auto |].
    split; [eexists; apply in_or_app; right; left; reflexivity |].
    intros a Ha. destruct (Hina a Ha) as (ok & Hin). exists ok.
    apply in_or_app. now left.
Qed.

(** A revocation whose ban or unban fails: nothing but the failed attempt. *)
Lemma kick_user_failure (E : Env) (u : Z) (w : World) :
  let ban := BanChatMember (CHANNEL_ID E) u in
  let unban := UnbanChatMember (CHANNEL_ID E) u in
  transport E (calls w) ban && transport E (calls (log E ban w)) unban = false ->
  exists w' new,
    kick_user E u w = (Ok tt, w')
    /\ users w' = users w
    /\ vip_users w' = vip_users w
    /\ calls w' = new ++ calls w
    /\ (new = [(ban, false)] \/ new = [(unban, false); (ban, true)]).
Proof.
  cbv zeta. intros Hfail. rewrite kick_user_run. cbv zeta.
  destruct (transport E (calls w) (BanChatMember (CHANNEL_ID E) u)) eqn:Hban.
  - cbn [andb] in Hfail. rewrite Hfail.
    eexists. exists [(UnbanChatMember (CHANNEL_ID E) u, false);
                     (BanChatMember (CHANNEL_ID E) u, true)].
    split; [reflexivity |].
    cbn [log with_calls users vip_users calls] in *.
    rewrite Hban in *. rewrite Hfail. auto 6.
  - eexists. exists [(BanChatMember (CHANNEL_ID E) u, false)].
    split; [reflexivity |]. cbn [log with_calls users vip_users calls].
    rewrite Hban. auto 6.
Qed.

(** ** Warning *)

Lemma send_warning_run (E : Env) (uid : Z) (w : World) :
  send_warning E uid w
  = (Ok tt,
     match dict_get Z.eqb uid (users w) with
     | None => w
     | Some r =>
         match expires_at r with
         | None => w
         | Some e =>
             let time_left :=
               format_time_remaining (clock E (clock_reads w)) e in
             let w1 := with_clock_reads w (S (clock_reads w)) in
             let w2 := log E (SendMessage uid (MsgWarning time_left)) w1 in
             let w3 :=
               log_all E
                 (map (fun a =>
                         SendMessage a
                           (MsgAdminWarning (name_or_id (username r) uid) uid
                                            time_left))
                      (ADMIN_IDS E)) w2 in
             let w4 :=
               with_users w3
                 (dict_set Z.eqb uid (set_warning_sent r true) (users w3)) in
             log E (WriteDataFile (dump_users (users w4))) w4
         end
     end).
Proof.
  unfold send_warning, try_except, bind, get_user.
  destruct (dict_get Z.eqb uid (users w)) as [r |]; [| reflexivity].
  destruct (expires_at r) as [e |]; [| reflexivity].
  unfold time_remaining, bind, datetime_now, ret.
  rewrite attempt_run, for_each_attempt. unfold assign.
  rewrite save_data_run. reflexivity.
Qed.

(** Warning another user does not concern [u]. *)
Lemma send_warning_frame (E : Env) (u uid : Z) (w : World) :
  uid <> u ->
  exists w', send_warning E uid w = (Ok tt, w') /\ sweeper_frame u w w'.
Proof.
  intros Hne. rewrite send_warning_run. eexists. split; [reflexivity |].
  assert (forall v, v = uid -> (v =? u) = false) as Hb
      by (intros v ->; now apply Z.eqb_neq).
  destruct (dict_get Z.eqb uid (users w)) as [r |] eqn:Hget;
    [| apply sweeper_frame_refl].
  destruct (expires_at r) as [e |]; [| apply sweeper_frame_refl].
  cbv zeta.
  set (tl := format_time_remaining (clock E (clock_reads w)) e).
  set (w1 := with_clock_reads w (S (clock_reads w))).
  set (w2 := log E (SendMessage uid (MsgWarning tl)) w1).
  set (w3 := log_all E _ w2).
  assert (sweeper_frame u w w3) as F3.
  { apply (sweeper_frame_trans _ _ w1); [apply sweeper_frame_clock |].
    apply (sweeper_frame_trans _ _ w2).
    { apply sweeper_frame_log. cbn. now apply Hb. }
    apply sweeper_frame_log_all. apply Forall_forall. intros c Hc.
    apply in_map_iff in Hc. destruct Hc as (a & <- & _). cbn. now apply Hb. }
  assert (users w3 = users w) as Hu3 by (unfold w3; now rewrite log_all_users).
  apply (sweeper_frame_trans _ _ w3); [exact F3 |].
  eapply sweeper_frame_trans; [| apply sweeper_frame_log; reflexivity].
  frame_split.
  - reflexivity.
  - cbn [users with_users]. rewrite (dict_get_set Z.eqb Z_eqb_iff).
    replace (u =? uid) with false; [reflexivity |].
    symmetry. apply Z.eqb_neq. auto.
  - cbn [users with_users]. rewrite Hu3. intros Hwf.
    apply store_wf_set; [| exact Hwf].
    cbn [set_warning_sent user_id]. exact (store_wf_get _ _ _ Hwf Hget).
  - exists []. split; [reflexivity | constructor].
Qed.

(** ** One user in one tick *)

Lemma check_user_frame (E : Env) (u : Z) (now : datetime) (x : UserData) :
  user_id x <> u ->
  forall w,
    exists w', check_user E now x w = (Ok tt, w') /\ sweeper_frame u w w'.
Proof.
  intros Hne w. unfold check_user.
  destruct (expires_at x) as [e |];
    [| exists w; split; [reflexivity | apply sweeper_frame_refl]].
  destruct (e <=? now); [now apply kick_user_frame |].
  unfold bind, is_special_user, is_vip.
  match goal with
  | |- context [if ?b then _ else _] => destruct b
  end.
  - now apply send_warning_frame.
  - exists w. split; [reflexivity | apply sweeper_frame_refl].
Qed.

(** A record without expiry, and one already warned about and not yet
    expired, are passed over. *)
Lemma check_user_skip (E : Env) (now : datetime) (x : UserData) (w : World) :
  expires_at x = None
  \/ (exists e, expires_at x = Some e /\ now < e /\ warning_sent x = true) ->
  check_user E now x w = (Ok tt, w).
Proof.
  unfold check_user. intros [-> | (e & -> & Hlt & ->)]; [reflexivity |].
  replace (e <=? now) with false by (symmetry; apply Z.leb_gt; lia).
  unfold bind, is_special_user, is_vip.
  now rewrite andb_false_r.
Qed.

Lemma check_user_ok (E : Env) (now : datetime) (x : UserData) (w : World) :
  exists w', check_user E now x w = (Ok tt, w').
Proof.
  unfold check_user. destruct (expires_at x) as [e |]; [| now exists w].
  destruct (e <=? now); [rewrite kick_user_run; eauto |].
  unfold bind, is_special_user, is_vip.
  match goal with
  | |- context [if ?b then _ else _] => destruct b
  end; [rewrite send_warning_run; eauto | now exists w].
Qed.

(** ** One tick *)

(** A tick in which the record of [u], if any, is passed over does not
    concern [u]. *)
Lemma tick_passes_over (E : Env) (u : Z) (w : World) :
  (forall x, In x (dict_values (users w)) ->
             user_id x <> u
             \/ expires_at x = None
             \/ (exists e, expires_at x = Some e
                           /\ clock E (clock_reads w) < e
                           /\ warning_sent x = true)) ->
  exists w', check_users_iteration E w = (Ok tt, w') /\ sweeper_frame u w w'.
Proof.
  intros Hall. unfold check_users_iteration, try_except, bind, datetime_now,
    get_all_users.
  cbn [users with_clock_reads].
  set (now := clock E (clock_reads w)) in *.
  set (w0 := with_clock_reads w (S (clock_reads w))).
  destruct (for_each_frame u (check_user E now) (dict_values (users w))) with (w := w0)
    as (w' & Hrun & Hfr).
  - intros x Hx w1. destruct (Hall x Hx) as [Hne | Hskip].
    + now apply check_user_frame.
    + exists w1. split; [now apply check_user_skip | apply sweeper_frame_refl].
  - exists w'. rewrite Hrun. split; [reflexivity |].
    apply (sweeper_frame_trans _ _ w0); [apply sweeper_frame_clock | exact Hfr].
Qed.

Lemma tick_absent (E : Env) (u : Z) (w : World) :
  store_wf (users w) -> dict_get Z.eqb u (users w) = None ->
  exists w', check_users_iteration E w = (Ok tt, w') /\ sweeper_frame u w w'.
Proof.
  intros Hwf Hget. apply tick_passes_over. intros x Hx. left.
  now apply (store_wf_absent u (users w)).
Qed.

Lemma tick_inert (E : Env) (u : Z) (r : UserData) (w : World) :
  store_wf (users w) -> dict_get Z.eqb u (users w) = Some r ->
  expires_at r = None
  \/ (exists e, expires_at r = Some e /\ clock E (clock_reads w) < e
                /\ warning_sent r = true) ->
  exists w', check_users_iteration E w = (Ok tt, w') /\ sweeper_frame u w w'.
Proof.
  intros Hwf Hget Hskip. apply tick_passes_over. intros x Hx.
  destruct (store_wf_split u r (users w) Hwf Hget) as (l1 & l2 & Hv & H1 & H2).
  rewrite Hv in Hx. apply in_app_or in Hx. destruct Hx as [Hx | [<- | Hx]].
  - left. now apply H1.
  - now right.
  - left. now apply H2.
Qed.

(** A tick around the record of [u]: the other records before it, the record
    itself, the other records after it. *)
Lemma tick_decompose (E : Env) (u : Z) (r : UserData) (w : World) :
  store_wf (users w) -> dict_get Z.eqb u (users w) = Some r ->
  exists wa wb w',
    check_users_iteration E w = (Ok tt, w')
    /\ sweeper_frame u w wa
    /\ check_user E (clock E (clock_reads w)) r wa = (Ok tt, wb)
    /\ sweeper_frame u wb w'.
Proof.
  intros Hwf Hget.
  destruct (store_wf_split u r (users w) Hwf Hget) as (l1 & l2 & Hv & H1 & H2).
  unfold check_users_iteration, try_except, bind, datetime_now, get_all_users.
  cbn [users with_clock_reads].
  set (now := clock E (clock_reads w)).
  set (w0 := with_clock_reads w (S (clock_reads w))).
  rewrite Hv.
  destruct (for_each_frame u (check_user E now) l1) with (w := w0)
    as (wa & Hrun1 & Hfr1).
  { intros x Hx w1. apply check_user_frame. now apply H1. }
  rewrite (for_each_app _ l1 (r :: l2) w0 wa Hrun1). cbn [for_each].
  unfold bind.
  destruct (check_user_ok E now r wa) as (wb & Hrun).
  rewrite Hrun.
  destruct (for_each_frame u (check_user E now) l2) with (w := wb)
    as (w' & Hrun2 & Hfr2).
  { intros x Hx w1. apply check_user_frame. now apply H2. }
  exists wa, wb, w'. rewrite Hrun2.
  split; [reflexivity |].
  split; [apply (sweeper_frame_trans _ _ w0);
          [apply sweeper_frame_clock | exact Hfr1] |].
  split; [exact Hrun | exact Hfr2].
Qed.

Lemma about_user_warning (u : Z) (c : call) :
  about_user u c = false -> warning_about u c = false.
Proof.
  destruct c as [| | | | chat m | | | | |]; try reflexivity.
  destruct m; try reflexivity; cbn; auto.
Qed.

(** Ticks that pass over the record of [u]: it stays as it is and no request
    concerns [u], however many ticks. *)
Lemma ticks_inert (E : Env) (u : Z) (r : UserData) (n : nat) :
  expires_at r = None
  \/ (exists e, expires_at r = Some e /\ (forall k, clock E k < e)
                /\ warning_sent r = true) ->
  forall w,
    store_wf (users w) -> dict_get Z.eqb u (users w) = Some r ->
    exists w', check_users_task E n w = (Ok tt, w') /\ sweeper_frame u w w'.
Proof.
  intros Hskip. induction n as [| n IH]; intros w Hwf Hget; cbn [check_users_task].
  - exists w. split; [reflexivity | apply sweeper_frame_refl].
  - destruct (tick_inert E u r w Hwf Hget) as (w1 & Hrun & Hfr).
    { destruct Hskip as [H | (e & He & Hclk & Hws)]; [now left | right].
      exists e. auto. }
    unfold bind. rewrite Hrun.
    destruct Hfr as (Hv & Hg & Hw & Hc).
    destruct (IH w1 (Hw Hwf)) as (w2 & Hrun2 & Hfr2); [congruence |].
    exists w2. split; [exact Hrun2 |].
    apply (sweeper_frame_trans _ _ w1); [| exact Hfr2].
    frame_split; assumption.
Qed.

(** ** The upsert *)

Lemma dict_get_set_same (uid : Z) (r : UserData) (s : store) :
  dict_get Z.eqb uid (dict_set Z.eqb uid r s) = Some r.
Proof. rewrite (dict_get_set Z.eqb Z_eqb_iff). now rewrite Z.eqb_refl. Qed.

(** The upsert up to the point where the hours are looked at: the record is
    there, with the name given if any. *)
Lemma upsert_prefix (E : Env) (uid : Z) (uname : option string)
      (hours : option pyfloat) (w : World) :
  let r0 :=
    match dict_get Z.eqb uid (users w) with
    | Some r => r
    | None => UserData_init uid uname
    end in
  let r1 := if str_truthy uname then set_username r0 uname else r0 in
  exists s1,
    dict_get Z.eqb uid s1 = Some r1
    /\ (dict_get Z.eqb uid (users w) = None -> str_truthy uname = false ->
        s1 = dict_set Z.eqb uid r1 (users w))
    /\ add_or_update_user E uid uname hours w
       = (user <- match hours with
                  | None => ret r1
                  | Some h =>
                      let renewed :=
                        now <- datetime_now E ;;
                        d <- lift (timedelta_hours h) ;;
                        lift (dt_add now d) in
                      e' <- match expires_at r1 with
                            | Some e =>
                                now <- datetime_now E ;;
                                if now <? e then
                                  d <- lift (timedelta_hours h) ;;
                                  lift (dt_add e d)
                                else renewed
                            | None => renewed
                            end ;;
                      let user' := set_expires_at r1 (Some e') in
                      assign uid user' ;;
                      let user'' := set_warning_sent user' false in
                      assign uid user'' ;;
                      ret user''
                  end ;;
          save_data E ;;
          ret user) (with_users w s1).
Proof.
  cbv zeta. unfold add_or_update_user.
  unfold bind at 1. unfold get_world at 1. unfold bind at 1.
  unfold dict_mem.
  destruct (dict_get Z.eqb uid (users w)) as [r |] eqn:Hget.
  - unfold ret at 1. unfold bind at 1. unfold users_item at 1. rewrite Hget.
    destruct (str_truthy uname) eqn:Ht.
    + exists (dict_set Z.eqb uid (set_username r uname) (users w)).
      split; [apply dict_get_set_same |]. split; [discriminate |].
      unfold bind at 1. unfold bind at 1. unfold assign at 1. unfold ret at 1.
      reflexivity.
    + exists (users w). split; [exact Hget |]. split; [discriminate |].
      unfold bind at 1. unfold ret at 1. destruct w; reflexivity.
  - unfold assign at 1. unfold bind at 1. unfold users_item at 1.
    cbn [users with_users]. rewrite dict_get_set_same.
    destruct (str_truthy uname) eqn:Ht.
    + eexists. split; [| split];
        [| intros _ [=] |
         unfold bind at 1; unfold bind at 1; unfold assign at 1;
         unfold ret at 1; cbn [users with_users]; reflexivity].
      apply dict_get_set_same.
    + eexists. split; [| split];
        [| intros _ _; reflexivity | unfold bind at 1; unfold ret at 1; reflexivity].
      apply dict_get_set_same.
Qed.

(** C1 (amended).  For every user and every finite number of hours above
    zero whose timedelta exists and for which the resulting instant is one a
    datetime can hold, the upsert follows the extend-or-renew rule: it
    returns; when the record exists with an expiry strictly after the
    instant read from the clock, the new expiry is the old one plus the
    hours; when the record or its expiry is absent, or the expiry is not
    after that instant, the new expiry is the instant then read from the
    clock plus the hours; and the warning flag of the stored record is
    down. *)
Theorem upsert_extend_or_renew (E : Env) (w : World) (uid : Z)
        (uname : option string) (q : Q) (d : timedelta) :
  float_gt0 (FFin q) = true ->
  timedelta_hours (FFin q) = Ok d ->
  dt_valid (grant_base E w uid + d) = true ->
  extend_or_renew E w uid uname (FFin q).
Proof.
  intros _ Hd Hvalid. unfold extend_or_renew.
  destruct (upsert_prefix E uid uname (Some (FFin q)) w) as (s1 & Hs1 & _ & Hrun).
  cbv zeta in Hrun. rewrite Hrun. clear Hrun.
  set (r0 := match dict_get Z.eqb uid (users w) with
             | Some r => r
             | None => UserData_init uid uname
             end) in *.
  set (r1 := if str_truthy uname then set_username r0 uname else r0) in *.
  assert (expires_at r1
          = match dict_get Z.eqb uid (users w) with
            | Some u => expires_at u
            | None => None
            end) as He1.
  { unfold r1, r0. destruct (str_truthy uname);
      destruct (dict_get Z.eqb uid (users w)); reflexivity. }
  unfold grant_base in Hvalid.
  set (e' := match dict_get Z.eqb uid (users w) with
             | Some u =>
                 match expires_at u with
                 | Some e =>
                     if clock E (clock_reads w) <? e then e
                     else clock E (S (clock_reads w))
                 | None => clock E (clock_reads w)
                 end
             | None => clock E (clock_reads w)
             end) in *.
  set (u' := set_warning_sent (set_expires_at r1 (Some (e' + d))) false).
  assert (exists w',
             (e0 <- match expires_at r1 with
                    | Some e =>
                        now <- datetime_now E ;;
                        if now <? e then
                          d0 <- lift (timedelta_hours (FFin q)) ;;
                          lift (dt_add e d0)
                        else
                          now0 <- datetime_now E ;;
                          d0 <- lift (timedelta_hours (FFin q)) ;;
                          lift (dt_add now0 d0)
                    | None =>
                        now0 <- datetime_now E ;;
                        d0 <- lift (timedelta_hours (FFin q)) ;;
                        lift (dt_add now0 d0)
                    end ;;
              assign uid (set_expires_at r1 (Some e0)) ;;
              assign uid (set_warning_sent (set_expires_at r1 (Some e0)) false) ;;
              ret (set_warning_sent (set_expires_at r1 (Some e0)) false))
               (with_users w s1)
             = (Ok u', w')
             /\ dict_get Z.eqb uid (users w') = Some u') as (w' & Hrun & Hget').
  { rewrite He1. unfold e' in *.
    destruct (dict_get Z.eqb uid (users w)) as [u0 |];
      [destruct (expires_at u0) as [e |] |].
    - unfold bind at 1. unfold bind at 1. unfold datetime_now at 1.
      cbn [clock_reads with_users].
      destruct (clock E (clock_reads w) <? e).
      + unfold bind at 1. unfold lift at 1. rewrite Hd.
        unfold lift, dt_add. rewrite Hvalid.
        eexists. split; [reflexivity |]. cbn [users with_users].
        apply dict_get_set_same.
      + unfold bind at 1. unfold datetime_now at 1.
        cbn [clock_reads with_clock_reads].
        unfold bind at 1. unfold lift at 1. rewrite Hd.
        unfold lift, dt_add. rewrite Hvalid.
        eexists. split; [reflexivity |]. cbn [users with_users].
        apply dict_get_set_same.
    - unfold bind at 1. unfold bind at 1. unfold datetime_now at 1.
      cbn [clock_reads with_users].
      unfold bind at 1. unfold lift at 1. rewrite Hd.
      unfold lift, dt_add. rewrite Hvalid.
      eexists. split; [reflexivity |]. cbn [users with_users].
      apply dict_get_set_same.
    - unfold bind at 1. unfold bind at 1. unfold datetime_now at 1.
      cbn [clock_reads with_users].
      unfold bind at 1. unfold lift at 1. rewrite Hd.
      unfold lift, dt_add. rewrite Hvalid.
      eexists. split; [reflexivity |]. cbn [users with_users].
      apply dict_get_set_same. }
  unfold bind at 1. cbv zeta. rewrite Hrun.
  unfold bind at 1. rewrite save_data_run. unfold ret.
  exists u', (log E (WriteDataFile (dump_users (users w'))) w'), d.
  split; [reflexivity |]. split; [exact Hget' |]. split; [exact Hd |].
  split; reflexivity.
Qed.

Lemma upsert_extend_or_renew_witness :
  let E := sample_env all_succeed in
  let w := world_of [(42, mkUserData 42 None (Some (noon + 5)) true)] [] in
  float_gt0 (FFin (3 # 2)) = true
  /\ timedelta_hours (FFin (3 # 2)) = Ok 5400000000
  /\ dt_valid (grant_base E w 42 + 5400000000) = true
  /\ extend_or_renew E w 42 None (FFin (3 # 2)).
Proof.
  cbv zeta.
  split; [reflexivity |]. split; [reflexivity |]. split; [reflexivity |].
  apply (upsert_extend_or_renew _ _ 42 None (3 # 2) 5400000000); reflexivity.
Defined.

(** The rule does not hold for every number of hours above zero: granting
    100000000 hours raises [OverflowError], the resulting instant being
    after the year 9999. *)
Lemma upsert_extend_or_renew_overflow :
  float_gt0 (FFin 100000000) = true
  /\ ~ extend_or_renew (sample_env all_succeed) (world_of [] []) 42 None
                       (FFin 100000000).
Proof.
  split; [reflexivity |].
  intros (u' & w' & d & Hrun & _). vm_compute in Hrun. discriminate.
Qed.

Lemma frame_emitted (u : Z) (w w' : World) :
  sweeper_frame u w w' ->
  Forall (fun cb => about_user u (fst cb) = false) (emitted w w').
Proof.
  intros (_ & _ & _ & new & Hc & Hn). now rewrite (emitted_app _ _ _ Hc).
Qed.

(** C10.  The upsert without hours leaves the expiry and the warning flag of
    an existing record as they are (the id too; the name is the old one or
    the one given); for an absent user it stores the record with no expiry
    and writes the store holding it.  A record without expiry has no valid
    access, and however many sweeper ticks run on a well-formed store, it
    stays as it is and no removal, revocation notice or warning concerns its
    user. *)
Theorem upsert_without_hours (E : Env) (w : World) (uid : Z)
        (uname : option string) :
  (forall r, dict_get Z.eqb uid (users w) = Some r ->
             exists r' w',
               add_or_update_user E uid uname None w = (Ok r', w')
               /\ dict_get Z.eqb uid (users w') = Some r'
               /\ expires_at r' = expires_at r
               /\ warning_sent r' = warning_sent r
               /\ user_id r' = user_id r
               /\ (username r' = username r \/ username r' = uname))
  /\ (dict_get Z.eqb uid (users w) = None ->
      exists w',
        add_or_update_user E uid uname None w
        = (Ok (UserData_init uid uname), w')
        /\ dict_get Z.eqb uid (users w') = Some (UserData_init uid uname)
        /\ issued w w' (WriteDataFile (dump_users (users w'))))
  /\ (forall r, dict_get Z.eqb uid (users w) = Some r ->
                expires_at r = None ->
                has_valid_access E uid w = (Ok false, w))
  /\ (forall r n, store_wf (users w) ->
                  dict_get Z.eqb uid (users w) = Some r ->
                  expires_at r = None ->
                  exists w',
                    check_users_task E n w = (Ok tt, w')
                    /\ dict_get Z.eqb uid (users w') = Some r
                    /\ Forall (fun cb => about_user uid (fst cb) = false)
                              (emitted w w')).
Proof.
  destruct (upsert_prefix E uid uname None w) as (s1 & Hs1 & _ & Hrun).
  cbv zeta in Hrun.
  assert (forall r1 : UserData,
             (user <- ret r1 ;; save_data E ;; ret user) (with_users w s1)
             = (Ok r1,
                log E (WriteDataFile (dump_users s1)) (with_users w s1)))
    as Htail.
  { intros r1. unfold bind at 1. unfold ret at 1. unfold bind.
    rewrite save_data_run. reflexivity. }
  rewrite Htail in Hrun. clear Htail.
  split; [| split; [| split]].
  - intros r Hget. rewrite Hget in *. eexists. eexists.
    split; [exact Hrun |]. cbn [users log with_calls with_users].
    split; [exact Hs1 |].
    destruct (str_truthy uname); cbn [set_username expires_at warning_sent
                                       user_id username]; auto.
  - intros Hget. rewrite Hget in *.
    assert ((if str_truthy uname
             then set_username (UserData_init uid uname) uname
             else UserData_init uid uname) = UserData_init uid uname) as Heq
        by (destruct (str_truthy uname); reflexivity).
    rewrite Heq in *. eexists. split; [exact Hrun |].
    cbn [users log with_calls with_users]. split; [exact Hs1 |].
    unfold issued.
    exists (transport E (calls w) (WriteDataFile (dump_users s1))).
    rewrite (emitted_app _ _ [(WriteDataFile (dump_users s1),
                               transport E (calls w)
                                         (WriteDataFile (dump_users s1)))]);
      [left; reflexivity | reflexivity].
  - intros r Hget He. unfold has_valid_access, bind, get_user.
    now rewrite Hget, He.
  - intros r n Hwf Hget He.
    destruct (ticks_inert E uid r n (or_introl He) w Hwf Hget)
      as (w' & Hrun' & Hfr).
    exists w'. split; [exact Hrun' |]. split.
    + destruct Hfr as (_ & Hg & _). congruence.
    + now apply (frame_emitted uid).
Qed.

Lemma upsert_without_hours_witness :
  let E := sample_env all_succeed in
  let r := mkUserData 7 None None false in
  let w := world_of [(7, r)] [] in
  store_wf (users w) /\ dict_get Z.eqb 7 (users w) = Some r
  /\ expires_at r = None
  /\ exists w',
      check_users_task E 3 w = (Ok tt, w')
      /\ dict_get Z.eqb 7 (users w') = Some r
      /\ Forall (fun cb => about_user 7 (fst cb) = false) (emitted w w').
Proof.
  cbv zeta.
  assert (store_wf (users (world_of [(7, mkUserData 7 None None false)] [])))
    as Hwf by (split; repeat constructor; cbn; tauto).
  split; [exact Hwf |]. split; [reflexivity |]. split; [reflexivity |].
  exact (proj2 (proj2 (proj2 (upsert_without_hours
                                (sample_env all_succeed)
                                (world_of [(7, mkUserData 7 None None false)] [])
                                7 None)))
               (mkUserData 7 None None false) 3%nat Hwf eq_refl eq_refl).
Defined.

(** ** The sweeper *)

Lemma frame_get (u : Z) (w w' : World) :
  sweeper_frame u w w' ->
  dict_get Z.eqb u (users w') = dict_get Z.eqb u (users w).
Proof. now intros (_ & H & _). Qed.

Lemma frame_wf (u : Z) (w w' : World) :
  sweeper_frame u w w' -> store_wf (users w) -> store_wf (users w').
Proof. now intros (_ & _ & H & _). Qed.

Lemma frame_vip (u : Z) (w w' : World) :
  sweeper_frame u w w' -> vip_users w' = vip_users w.
Proof. now intros (H & _). Qed.

(** What was requested while the record of [u] was processed was requested
    during the tick. *)
Lemma issued_within (u : Z) (w wa wb w' : World) (new : list (call * bool))
      (c : call) (ok : bool) :
  sweeper_frame u w wa -> calls wb = new ++ calls wa ->
  sweeper_frame u wb w' -> In (c, ok) new -> issued w w' c.
Proof.
  intros (_ & _ & _ & n1 & Hc1 & _) Hc (_ & _ & _ & n2 & Hc2 & _) Hin.
  exists ok. rewrite (emitted_app w w' (n2 ++ new ++ n1)).
  - apply in_or_app. right. apply in_or_app. now left.
  - rewrite Hc2, Hc, Hc1. now rewrite <- !app_assoc.
Qed.

(** C3 (amended).  For every record of a well-formed store whose expiry is
    at or before the instant a sweeper tick reads, and for which the ban and
    the unban succeed, the tick requests the ban and the unban, notifies the
    user and every admin, and deletes the record; a second tick right after
    leaves the user without record and makes no request that concerns that
    user. *)
Theorem sweep_revokes_lapsed (E : Env) (w : World) (u : Z) (r : UserData)
        (e : datetime) :
  store_wf (users w) ->
  dict_get Z.eqb u (users w) = Some r ->
  expires_at r = Some e ->
  e <= clock E (clock_reads w) ->
  (forall h, transport E h (BanChatMember (CHANNEL_ID E) u) = true) ->
  (forall h, transport E h (UnbanChatMember (CHANNEL_ID E) u) = true) ->
  revoked_by_one_tick E w u (username r).
Proof.
  intros Hwf Hget He Hle Hban Hunban.
  destruct (tick_decompose E u r w Hwf Hget) as (wa & wb & w1 & Hrun & Fa & Hr & Fb).
  pose proof (store_wf_get _ _ _ Hwf Hget) as Hid.
  unfold check_user in Hr. rewrite He in Hr.
  replace (e <=? clock E (clock_reads w)) with true in Hr
    by (symmetry; now apply Z.leb_le).
  rewrite Hid in Hr.
  destruct (kick_user_success E u wa (Hban _) (Hunban _))
    as (wb' & new & Hk & Hus & Hvs & Hcs & Hib & Hiu & Him & Hia).
  rewrite Hk in Hr. injection Hr as <-.
  rewrite (frame_get _ _ _ Fa), Hget in Hia.
  pose proof (frame_wf _ _ _ Fa Hwf) as Hwfa.
  assert (store_wf (users wb')) as Hwfb by (rewrite Hus; now apply store_wf_del).
  assert (dict_get Z.eqb u (users wb') = None) as Hnone.
  { rewrite Hus, (dict_get_del Z.eqb Z_eqb_iff) by apply Hwfa.
    now rewrite Z.eqb_refl. }
  assert (dict_get Z.eqb u (users w1) = None) as Hnone1
      by (rewrite (frame_get _ _ _ Fb); exact Hnone).
  pose proof (frame_wf _ _ _ Fb Hwfb) as Hwf1.
  destruct (tick_absent E u w1 Hwf1 Hnone1) as (w2 & Hrun2 & F2).
  unfold revoked_by_one_tick. rewrite Hrun. cbn [snd]. rewrite Hrun2. cbn [snd].
  split; [exact (issued_within u w wa wb' w1 new _ _ Fa Hcs Fb Hib) |].
  split; [exact (issued_within u w wa wb' w1 new _ _ Fa Hcs Fb Hiu) |].
  split; [destruct Him as (ok & Hin);
          exact (issued_within u w wa wb' w1 new _ _ Fa Hcs Fb Hin) |].
  split.
  { intros a Ha. destruct (Hia a Ha) as (ok & Hin).
    exact (issued_within u w wa wb' w1 new _ _ Fa Hcs Fb Hin). }
  split; [exact Hnone1 |].
  split; [rewrite (frame_get _ _ _ F2); exact Hnone1 |].
  now apply frame_emitted.
Qed.

Lemma sweep_revokes_lapsed_witness :
  let E := sample_env all_succeed in
  let r := mkUserData 7 None (Some (noon - 1)) false in
  let w := world_of [(7, r)] [] in
  store_wf (users w) /\ dict_get Z.eqb 7 (users w) = Some r
  /\ expires_at r = Some (noon - 1)
  /\ noon - 1 <= clock E (clock_reads w)
  /\ revoked_by_one_tick E w 7 (username r).
Proof.
  cbv zeta.
  assert (store_wf
            (users (world_of [(7, mkUserData 7 None (Some (noon - 1)) false)] [])))
    as Hwf by (split; repeat constructor; cbn; tauto).
  assert (noon - 1 <= noon) as Hle by (unfold noon; lia).
  split; [exact Hwf |]. split; [reflexivity |]. split; [reflexivity |].
  split; [exact Hle |].
  exact (sweep_revokes_lapsed
           (sample_env all_succeed)
           (world_of [(7, mkUserData 7 None (Some (noon - 1)) false)] [])
           7 (mkUserData 7 None (Some (noon - 1)) false) (noon - 1)
           Hwf eq_refl eq_refl Hle (fun _ => eq_refl) (fun _ => eq_refl)).
Defined.

(** Without the proviso on the ban the tick does not always delete a lapsed
    record: when the ban fails the record stays. *)
Lemma sweep_keeps_record_when_ban_fails :
  let E := sample_env ban_fails in
  let r := mkUserData 7 None (Some (noon - 1)) false in
  let w := world_of [(7, r)] [] in
  store_wf (users w) /\ dict_get Z.eqb 7 (users w) = Some r
  /\ expires_at r = Some (noon - 1)
  /\ noon - 1 <= clock E (clock_reads w)
  /\ ~ revoked_by_one_tick E w 7 (username r).
Proof.
  cbv zeta.
  split; [split; repeat constructor; cbn; tauto |].
  split; [reflexivity |]. split; [reflexivity |].
  split; [apply Z.leb_le; reflexivity |].
  intros (_ & _ & _ & _ & Hnone & _). vm_compute in Hnone. discriminate.
Qed.

(** C4.  For every record of a well-formed store with its expiry after every
    instant the clock gives, the time to expiry at the tick within the
    warning threshold, the warning flag down and the user not on the
    allowlist: a sweeper tick sends the warning, raises the flag of the
    stored record, writes a store that holds the flagged record, and keeps
    the record; in any number of ticks after that the record stays flagged
    and no warning is sent to or about the user. *)
Theorem warning_sent_once (E : Env) (w : World) (u : Z) (r : UserData)
        (e : datetime) (n : nat) :
  store_wf (users w) ->
  dict_get Z.eqb u (users w) = Some r ->
  expires_at r = Some e ->
  warning_sent r = false ->
  mem u (vip_users w) = false ->
  (forall k, clock E k < e) ->
  (total_seconds (dt_sub e (clock E (clock_reads w))) / 3600
   <= WARNING_HOURS E)%Q ->
  exists w1 w2,
    check_users_iteration E w = (Ok tt, w1)
    /\ check_users_task E n w1 = (Ok tt, w2)
    /\ (exists time_left, issued w w1 (SendMessage u (MsgWarning time_left)))
    /\ dict_get Z.eqb u (users w1) = Some (set_warning_sent r true)
    /\ (exists s, issued w w1 (WriteDataFile (dump_users s))
                  /\ dict_get Z.eqb u s = Some (set_warning_sent r true))
    /\ dict_get Z.eqb u (users w2) = Some (set_warning_sent r true)
    /\ Forall (fun cb => warning_about u (fst cb) = false) (emitted w1 w2).
Proof.
  intros Hwf Hget He Hws Hvip Hclk Hthr.
  destruct (tick_decompose E u r w Hwf Hget) as (wa & wb & w1 & Hrun & Fa & Hr & Fb).
  pose proof (store_wf_get _ _ _ Hwf Hget) as Hid.
  pose proof (frame_wf _ _ _ Fa Hwf) as Hwfa.
  pose proof (frame_get _ _ _ Fa) as Hgeta. rewrite Hget in Hgeta.
  unfold check_user in Hr. rewrite He, Hws, Hid in Hr.
  replace (e <=? clock E (clock_reads w)) with false in Hr
    by (symmetry; apply Z.leb_gt; apply Hclk).
  unfold bind, is_special_user, is_vip in Hr.
  rewrite (frame_vip _ _ _ Fa), Hvip in Hr.
  apply Qle_bool_iff in Hthr. rewrite Hthr in Hr. cbn [negb andb] in Hr.
  rewrite send_warning_run, Hgeta, He in Hr. cbv zeta in Hr.
  injection Hr as Hwb.
  set (tl := format_time_remaining (clock E (clock_reads wa)) e) in *.
  set (wa1 := with_clock_reads wa (S (clock_reads wa))) in *.
  set (wa2 := log E (SendMessage u (MsgWarning tl)) wa1) in *.
  set (f := fun a =>
              SendMessage a (MsgAdminWarning (name_or_id (username r) u) u tl))
    in *.
  destruct (log_all_calls E (map f (ADMIN_IDS E)) wa2) as (newa & Hca & _).
  set (wa3 := log_all E (map f (ADMIN_IDS E)) wa2) in *.
  assert (users wa3 = users wa) as Hu3
      by (unfold wa3; now rewrite log_all_users).
  set (s' := dict_set Z.eqb u (set_warning_sent r true) (users wa3)) in *.
  assert (dict_get Z.eqb u s' = Some (set_warning_sent r true)) as Hgs
      by apply dict_get_set_same.
  assert (users wb = s') as Hub by (now rewrite <- Hwb).
  assert (calls wb
          = ((WriteDataFile (dump_users s'),
              transport E (calls wa3) (WriteDataFile (dump_users s')))
               :: newa
               ++ [(SendMessage u (MsgWarning tl),
                    transport E (calls wa) (SendMessage u (MsgWarning tl)))])
              ++ calls wa) as Hcb.
  { rewrite <- Hwb. cbn [log with_calls with_users calls users].
    rewrite Hca. unfold wa2, wa1. cbn [log with_calls with_clock_reads calls].
    cbn [app]. now rewrite <- app_assoc. }
  assert (store_wf (users wb)) as Hwfb.
  { rewrite Hub. unfold s'. rewrite Hu3. now apply store_wf_set. }
  assert (dict_get Z.eqb u (users w1) = Some (set_warning_sent r true)) as Hg1
      by (rewrite (frame_get _ _ _ Fb), Hub; exact Hgs).
  pose proof (frame_wf _ _ _ Fb Hwfb) as Hwf1.
  destruct (ticks_inert E u (set_warning_sent r true) n) with (w := w1)
    as (w2 & Hrun2 & F2); [| exact Hwf1 | exact Hg1 |].
  { right. exists e. cbn [set_warning_sent expires_at warning_sent]. auto. }
  exists w1, w2.
  split; [exact Hrun |]. split; [exact Hrun2 |].
  split.
  { exists tl. eapply (issued_within u w wa wb w1); eauto.
    right. apply in_or_app. right. left. reflexivity. }
  split; [exact Hg1 |].
  split.
  { exists s'. split; [| exact Hgs].
    eapply (issued_within u w wa wb w1); eauto. left. reflexivity. }
  split; [rewrite (frame_get _ _ _ F2); exact Hg1 |].
  eapply Forall_impl; [| apply (frame_emitted u _ _ F2)].
  intros cb. apply about_user_warning.
Qed.

Lemma warning_sent_once_witness :
  let E := sample_env all_succeed in
  let r := mkUserData 7 None (Some (noon + US_PER_HOUR)) false in
  let w := world_of [(7, r)] [] in
  store_wf (users w) /\ dict_get Z.eqb 7 (users w) = Some r
  /\ mem 7 (vip_users w) = false
  /\ (forall k, clock E k < noon + US_PER_HOUR)
  /\ (total_seconds (dt_sub (noon + US_PER_HOUR)%Z (clock E (clock_reads w)))
      / 3600 <= WARNING_HOURS E)%Q
  /\ exists w1 w2,
      check_users_iteration E w = (Ok tt, w1)
      /\ check_users_task E 2 w1 = (Ok tt, w2)
      /\ (exists time_left, issued w w1 (SendMessage 7 (MsgWarning time_left)))
      /\ dict_get Z.eqb 7 (users w1) = Some (set_warning_sent r true)
      /\ (exists s, issued w w1 (WriteDataFile (dump_users s))
                    /\ dict_get Z.eqb 7 s = Some (set_warning_sent r true))
      /\ dict_get Z.eqb 7 (users w2) = Some (set_warning_sent r true)
      /\ Forall (fun cb => warning_about 7 (fst cb) = false) (emitted w1 w2).
Proof.
  cbv zeta.
  assert (store_wf
            (users (world_of
                      [(7, mkUserData 7 None (Some (noon + US_PER_HOUR)) false)]
                      []))) as Hwf
      by (split; repeat constructor; cbn; tauto).
  assert (forall k : nat,
             clock (sample_env all_succeed) k < noon + US_PER_HOUR) as Hclk
      by (intros k; reflexivity).
  pose (w0 := world_of
                [(7, mkUserData 7 None (Some (noon + US_PER_HOUR)) false)] []).
  assert ((total_seconds
             (dt_sub (noon + US_PER_HOUR)%Z
                     (clock (sample_env all_succeed) (clock_reads w0)))
           / 3600 <= WARNING_HOURS (sample_env all_succeed))%Q) as Hthr
      by (apply Qle_bool_iff; reflexivity).
  split; [exact Hwf |]. split; [reflexivity |]. split; [reflexivity |].
  split; [exact Hclk |]. split; [exact Hthr |].
  exact (warning_sent_once
           (sample_env all_succeed)
           (world_of [(7, mkUserData 7 None (Some (noon + US_PER_HOUR)) false)] [])
           7 (mkUserData 7 None (Some (noon + US_PER_HOUR)) false)
           (noon + US_PER_HOUR) 2%nat
           Hwf eq_refl eq_refl eq_refl eq_refl Hclk Hthr).
Defined.

(** A tick tries to remove every user whose record has lapsed. *)
Lemma tick_attempts_ban (E : Env) (w : World) (u : Z) (r : UserData)
      (e : datetime) :
  store_wf (users w) ->
  dict_get Z.eqb u (users w) = Some r ->
  expires_at r = Some e ->
  e <= clock E (clock_reads w) ->
  issued w (snd (check_users_iteration E w)) (BanChatMember (CHANNEL_ID E) u).
Proof.
  intros Hwf Hget He Hle.
  destruct (tick_decompose E u r w Hwf Hget) as (wa & wb & w1 & Hrun & Fa & Hr & Fb).
  pose proof (store_wf_get _ _ _ Hwf Hget) as Hid.
  unfold check_user in Hr. rewrite He in Hr.
  replace (e <=? clock E (clock_reads w)) with true in Hr
    by (symmetry; now apply Z.leb_le).
  rewrite Hid in Hr. rewrite Hrun. cbn [snd].
  destruct (transport E (calls wa) (BanChatMember (CHANNEL_ID E) u)
            && transport E (calls (log E (BanChatMember (CHANNEL_ID E) u) wa))
                         (UnbanChatMember (CHANNEL_ID E) u)) eqn:Hok.
  - apply andb_prop in Hok. destruct Hok as [Hb Hu].
    destruct (kick_user_success E u wa Hb Hu)
      as (wb' & new & Hk & _ & _ & Hcs & Hib & _).
    rewrite Hk in Hr. injection Hr as <-.
    exact (issued_within u w wa wb' w1 new _ _ Fa Hcs Fb Hib).
  - destruct (kick_user_failure E u wa Hok)
      as (wb' & new & Hk & _ & _ & Hcs & Hnew).
    rewrite Hk in Hr. injection Hr as <-.
    destruct Hnew as [-> | ->].
    + apply (issued_within u w wa wb' w1 _ _ false Fa Hcs Fb). now left.
    + apply (issued_within u w wa wb' w1 _ _ true Fa Hcs Fb). right. now left.
Qed.

(** C9.  Revocation of a user: when the ban or the unban fails, the store is
    left as it is and no notice is sent, and the next sweeper tick at or
    after the expiry tries the ban again; when both succeed, the record is
    deleted whatever becomes of the notices to the user and to the admins
    and of the write of the data file. *)
Theorem revocation_failures (E : Env) (w : World) (u : Z) :
  let ban := BanChatMember (CHANNEL_ID E) u in
  let unban := UnbanChatMember (CHANNEL_ID E) u in
  let w' := snd (kick_user E u w) in
  (transport E (calls w) ban && transport E (calls (log E ban w)) unban = false ->
   users w' = users w
   /\ Forall (fun cb => is_message (fst cb) = false) (emitted w w')
   /\ forall r e,
       store_wf (users w) -> dict_get Z.eqb u (users w) = Some r ->
       expires_at r = Some e -> e <= clock E (clock_reads w') ->
       issued w' (snd (check_users_iteration E w')) ban)
  /\ (transport E (calls w) ban && transport E (calls (log E ban w)) unban = true ->
      NoDup (dict_keys (users w)) ->
      dict_get Z.eqb u (users w') = None).
Proof.
  cbv zeta. split.
  - intros Hfail.
    destruct (kick_user_failure E u w Hfail)
      as (w' & new & Hk & Hus & _ & Hcs & Hnew).
    rewrite Hk. cbn [snd]. split; [exact Hus |]. split.
    + rewrite (emitted_app _ _ _ Hcs).
      destruct Hnew as [-> | ->]; repeat constructor.
    + intros r e Hwf Hget He Hle. rewrite <- Hus in Hwf, Hget.
      exact (tick_attempts_ban E w' u r e Hwf Hget He Hle).
  - intros Hok Hnd. apply andb_prop in Hok. destruct Hok as [Hb Hu].
    destruct (kick_user_success E u w Hb Hu) as (w' & new & Hk & Hus & _).
    rewrite Hk. cbn [snd]. rewrite Hus.
    rewrite (dict_get_del Z.eqb Z_eqb_iff) by exact Hnd.
    now rewrite Z.eqb_refl.
Qed.

Lemma revocation_failures_witness :
  let r := mkUserData 7 None (Some (noon - 1)) false in
  let w := world_of [(7, r)] [] in
  (let E := sample_env ban_fails in
   users (snd (kick_user E 7 w)) = users w
   /\ Forall (fun cb => is_message (fst cb) = false)
             (emitted w (snd (kick_user E 7 w)))
   /\ issued (snd (kick_user E 7 w))
             (snd (check_users_iteration E (snd (kick_user E 7 w))))
             (BanChatMember (CHANNEL_ID E) 7))
  /\ (let E := sample_env messages_fail in
      dict_get Z.eqb 7 (users (snd (kick_user E 7 w))) = None).
Proof.
  cbv zeta.
  pose (r := mkUserData 7 None (Some (noon - 1)) false).
  pose (w := world_of [(7, r)] []).
  assert (store_wf (users w)) as Hwf
      by (split; repeat constructor; cbn; tauto).
  split.
  - destruct (proj1 (revocation_failures (sample_env ban_fails) w 7) eq_refl)
      as (H1 & H2 & H3).
    split; [exact H1 |]. split; [exact H2 |].
    apply (H3 r (noon - 1) Hwf eq_refl eq_refl).
    apply Z.leb_le. reflexivity.
  - apply (proj2 (revocation_failures (sample_env messages_fail) w 7) eq_refl).
    apply Hwf.
Defined.

(** ** The join gate *)

Lemma handle_join_request_run (E : Env) (uid : Z) (from_username : option string)
      (w : World) :
  handle_join_request E uid from_username w
  = (Ok tt,
     let uname := name_or_id from_username uid in
     let declined :=
       map (fun a => SendMessage a (MsgDeclined uname uid)) (ADMIN_IDS E) in
     if mem uid (vip_users w) then
       let w1 := log E (Approve uid) w in
       if transport E (calls w) (Approve uid) then
         log_all E
           (map (fun a => SendMessage a (MsgVipApproved uname uid))
                (ADMIN_IDS E)) w1
       else w1
     else
       match dict_get Z.eqb uid (users w) with
       | Some r =>
           match expires_at r with
           | Some e =>
               let w0 := with_clock_reads w (S (clock_reads w)) in
               if clock E (clock_reads w) <? e then
                 let w1 := log E (Approve uid) w0 in
                 if transport E (calls w) (Approve uid) then
                   let time_left :=
                     format_time_remaining (clock E (S (clock_reads w))) e in
                   log_all E
                     (map (fun a =>
                             SendMessage a
                               (MsgApproved uname (strftime_dmy_hm e) time_left))
                          (ADMIN_IDS E))
                     (with_clock_reads w1 (S (S (clock_reads w))))
                 else w1
               else log_all E declined w0
           | None => log_all E declined w
           end
       | None => log_all E declined w
       end).
Proof.
  unfold handle_join_request. cbv zeta.
  unfold bind at 1. unfold is_special_user, is_vip.
  destruct (mem uid (vip_users w)).
  - unfold try_except, bind. rewrite request_run.
    destruct (transport E (calls w) (Approve uid)); [| reflexivity].
    now rewrite for_each_attempt.
  - unfold bind at 1. unfold has_valid_access. unfold bind at 1.
    unfold get_user at 1.
    destruct (dict_get Z.eqb uid (users w)) as [r |] eqn:Hget;
      [| unfold ret at 1; now rewrite for_each_attempt].
    destruct (expires_at r) as [e |] eqn:He;
      [| unfold ret at 1; now rewrite for_each_attempt].
    unfold bind at 1. unfold datetime_now at 1. unfold ret at 1.
    destruct (clock E (clock_reads w) <? e); [| now rewrite for_each_attempt].
    unfold try_except. unfold bind at 1. rewrite request_run.
    cbn [calls with_clock_reads].
    destruct (transport E (calls w) (Approve uid)); [| reflexivity].
    unfold bind at 1. unfold get_user at 1.
    cbn [users log with_calls with_clock_reads]. rewrite Hget, He.
    unfold bind at 1. unfold time_remaining, bind at 1.
    unfold datetime_now at 1. unfold ret at 1.
    unfold bind at 1. unfold expiry_date, ret at 1.
    now rewrite for_each_attempt.
Qed.

Lemma log_all_messages (E : Env) (cs : list call) (w : World)
      (P : call -> Prop) :
  Forall P cs ->
  exists new,
    calls (log_all E cs w) = new ++ calls w
    /\ Forall (fun cb => P (fst cb)) new.
Proof.
  intros Hcs. destruct (log_all_calls E cs w) as (new & Hc & Hm).
  exists new. split; [exact Hc |].
  apply Forall_forall. intros [c ok] Hin. cbn [fst].
  rewrite Forall_forall in Hcs. apply Hcs. apply in_rev. rewrite <- Hm.
  change c with (fst (c, ok)). now apply in_map.
Qed.

Lemma declined_notices (E : Env) (uname : string) (uid : Z) (w : World) :
  let w' :=
    log_all E (map (fun a => SendMessage a (MsgDeclined uname uid))
                   (ADMIN_IDS E)) w in
  Forall (fun cb => is_message (fst cb) = true) (emitted w w')
  /\ forall a, In a (ADMIN_IDS E) ->
               issued w w' (SendMessage a (MsgDeclined uname uid)).
Proof.
  cbv zeta.
  set (f := fun a => SendMessage a (MsgDeclined uname uid)).
  destruct (log_all_issued E f (ADMIN_IDS E) w) as (new & Hc & Hin).
  destruct (log_all_messages E (map f (ADMIN_IDS E)) w
                             (fun c => is_message c = true))
    as (new' & Hc' & Hall).
  { apply Forall_forall. intros c Hc0. apply in_map_iff in Hc0.
    now destruct Hc0 as (a & <- & _). }
  rewrite (emitted_app _ _ _ Hc'). split; [exact Hall |].
  intros a Ha. destruct (Hin a Ha) as (ok & Hok). exists ok.
  rewrite (emitted_app _ _ _ Hc). exact Hok.
Qed.

Lemma log_all_after (E : Env) (cs : list call) (w0 w : World)
      (pre : list (call * bool)) (P : call -> Prop) :
  calls w0 = pre ++ calls w ->
  Forall P cs -> Forall (fun cb => P (fst cb)) pre ->
  users (log_all E cs w0) = users w0
  /\ exists new,
      calls (log_all E cs w0) = new ++ calls w
      /\ Forall (fun cb => P (fst cb)) new
      /\ forall x, In x pre -> In x new.
Proof.
  intros Hpre Hcs Hp. split; [apply log_all_users |].
  destruct (log_all_messages E cs w0 P Hcs) as (new & Hc & Hall).
  exists (new ++ pre). split; [| split].
  - rewrite Hc, Hpre. apply app_assoc.
  - apply Forall_app. now split.
  - intros x Hx. apply in_or_app. now right.
Qed.

(** C2.  For every join request the handler returns and leaves the store as
    it is; it never declines; when the requester is on the allowlist it
    approves, whatever the store holds; otherwise, when the record of the
    requester has an expiry after the instant read from the clock, it
    approves; otherwise it sends notices only (the request stays pending) and
    sends every admin the notice whose text ends with the id of the
    requester. *)
Theorem join_request_decision (E : Env) (w : World) (uid : Z)
        (from_username : option string) :
  let uname := name_or_id from_username uid in
  exists w',
    handle_join_request E uid from_username w = (Ok tt, w')
    /\ users w' = users w
    /\ Forall (fun cb => is_decline (fst cb) = false) (emitted w w')
    /\ (mem uid (vip_users w) = true -> issued w w' (Approve uid))
    /\ (mem uid (vip_users w) = false ->
        forall r e,
          dict_get Z.eqb uid (users w) = Some r -> expires_at r = Some e ->
          clock E (clock_reads w) < e ->
          issued w w' (Approve uid))
    /\ (mem uid (vip_users w) = false ->
        (forall r e,
            dict_get Z.eqb uid (users w) = Some r -> expires_at r = Some e ->
            e <= clock E (clock_reads w)) ->
        Forall (fun cb => is_message (fst cb) = true) (emitted w w')
        /\ forall a, In a (ADMIN_IDS E) ->
                     issued w w' (SendMessage a (MsgDeclined uname uid)))
    /\ exists pre,
        render E (MsgDeclined uname uid) = (pre ++ py_str uid)%string.
Proof.
  cbv zeta. rewrite handle_join_request_run. cbv zeta.
  set (uname := name_or_id from_username uid).
  set (declined := map (fun a => SendMessage a (MsgDeclined uname uid))
                       (ADMIN_IDS E)).
  assert (Forall (fun c => is_decline c = false) declined) as Hdecl.
  { apply Forall_forall. intros c Hc. apply in_map_iff in Hc.
    now destruct Hc as (a & <- & _). }
  assert (exists pre,
             render E (MsgDeclined uname uid) = (pre ++ py_str uid)%string)
    as Htext
      by (eexists; cbn [render]; rewrite <- string_app_assoc; reflexivity).
  assert (forall w0,
             calls w0 = calls w -> users w0 = users w ->
             users (log_all E declined w0) = users w
             /\ Forall (fun cb => is_decline (fst cb) = false)
                       (emitted w (log_all E declined w0))
             /\ Forall (fun cb => is_message (fst cb) = true)
                       (emitted w (log_all E declined w0))
             /\ forall a, In a (ADMIN_IDS E) ->
                          issued w (log_all E declined w0)
                                 (SendMessage a (MsgDeclined uname uid)))
    as Hpending.
  { intros w0 Hc0 Hu0.
    destruct (declined_notices E uname uid w0) as [Hm Hi]. fold declined in Hm, Hi.
    destruct (log_all_calls E declined w0) as (new & Hc & _).
    assert (emitted w (log_all E declined w0)
            = emitted w0 (log_all E declined w0)) as Hem.
    { rewrite (emitted_app w0 _ _ Hc). apply emitted_app. now rewrite Hc, Hc0. }
    split; [now rewrite log_all_users |].
    split.
    { rewrite Hem. eapply Forall_impl; [| exact Hm].
      intros [c ok]. cbn [fst]. now destruct c. }
    split; [now rewrite Hem |].
    intros a Ha. unfold issued. rewrite Hem. now apply Hi. }
  assert (forall w1 cs ok,
             calls w1 = [(Approve uid, ok)] ++ calls w -> users w1 = users w ->
             Forall (fun c => is_decline c = false) cs ->
             users (log_all E cs w1) = users w
             /\ Forall (fun cb => is_decline (fst cb) = false)
                       (emitted w (log_all E cs w1))
             /\ issued w (log_all E cs w1) (Approve uid)) as Happroved.
  { intros w1 cs ok Hc1 Hu1 Hcs.
    destruct (log_all_after E cs w1 w [(Approve uid, ok)]
                            (fun c => is_decline c = false) Hc1 Hcs)
      as (Hu & new & Hc & Hall & Hin); [now repeat constructor |].
    split; [congruence |]. rewrite (emitted_app _ _ _ Hc) at 1.
    split; [exact Hall |]. exists ok. rewrite (emitted_app _ _ _ Hc).
    apply Hin. now left. }
  assert (forall w0,
             calls w0 = calls w -> users w0 = users w ->
             users (log E (Approve uid) w0) = users w
             /\ Forall (fun cb => is_decline (fst cb) = false)
                       (emitted w (log E (Approve uid) w0))
             /\ issued w (log E (Approve uid) w0) (Approve uid)) as Hfailed.
  { intros w0 Hc0 Hu0.
    assert (calls (log E (Approve uid) w0)
            = [(Approve uid, transport E (calls w0) (Approve uid))] ++ calls w)
      as Hc by (cbn [log with_calls calls app]; now rewrite Hc0).
    split; [exact Hu0 |]. rewrite (emitted_app _ _ _ Hc) at 1.
    split; [now repeat constructor |].
    eexists. rewrite (emitted_app _ _ _ Hc). now left. }
  eexists. split; [reflexivity |].
  destruct (mem uid (vip_users w)) eqn:Hvip.
  - (* on the allowlist *)
    assert (exists ok,
               calls (log E (Approve uid) w) = [(Approve uid, ok)] ++ calls w)
      as (ok & Hc1) by (eexists; reflexivity).
    destruct (transport E (calls w) (Approve uid)).
    + match goal with
      | |- context [log_all E ?cs _] =>
          destruct (Happroved (log E (Approve uid) w) cs ok Hc1 eq_refl)
            as (Hu & Hd & Hi)
      end.
      { apply Forall_forall. intros c Hc. apply in_map_iff in Hc.
        now destruct Hc as (a & <- & _). }
      repeat (split; [first [exact Hu | exact Hd | intros; exact Hi
                             | discriminate] |]).
      exact Htext.
    + destruct (Hfailed w eq_refl eq_refl) as (Hu & Hd & Hi).
      repeat (split; [first [exact Hu | exact Hd | intros; exact Hi
                             | discriminate] |]).
      exact Htext.
  - destruct (dict_get Z.eqb uid (users w)) as [r |] eqn:Hget;
      [destruct (expires_at r) as [e |] eqn:He |].
    + destruct (clock E (clock_reads w) <? e) eqn:Hlt.
      * set (w0 := with_clock_reads w (S (clock_reads w))).
        assert (exists ok,
                   calls (log E (Approve uid) w0)
                   = [(Approve uid, ok)] ++ calls w)
          as (ok & Hc1) by (eexists; reflexivity).
        assert (forall r0 e0,
                   Some r = Some r0 -> expires_at r0 = Some e0 ->
                   e0 <= clock E (clock_reads w) -> False) as Habs.
        { intros r0 e0 [= <-] He0 Hle. rewrite He in He0.
          injection He0 as <-. apply Z.ltb_lt in Hlt. lia. }
        destruct (transport E (calls w) (Approve uid)).
        -- match goal with
           | |- context [log_all E ?cs ?w1] =>
               destruct (Happroved w1 cs ok Hc1 eq_refl) as (Hu & Hd & Hi)
           end.
           { apply Forall_forall. intros c Hc. apply in_map_iff in Hc.
             now destruct Hc as (a & <- & _). }
           split; [exact Hu |]. split; [exact Hd |].
           split; [discriminate |]. split; [intros; exact Hi |].
           split; [| exact Htext].
           intros _ Hno. exfalso. apply (Habs r e eq_refl He).
           now apply (Hno r e).
        -- destruct (Hfailed w0 eq_refl eq_refl) as (Hu & Hd & Hi).
           split; [exact Hu |]. split; [exact Hd |].
           split; [discriminate |]. split; [intros; exact Hi |].
           split; [| exact Htext].
           intros _ Hno. exfalso. apply (Habs r e eq_refl He).
           now apply (Hno r e).
      * destruct (Hpending (with_clock_reads w (S (clock_reads w)))
                           eq_refl eq_refl) as (Hu & Hd & Hm & Hi).
        split; [exact Hu |]. split; [exact Hd |].
        split; [discriminate |].
        split.
        { intros _ r0 e0 [= <-] He0 Hlt'. rewrite He in He0.
          injection He0 as <-. apply Z.ltb_ge in Hlt. lia. }
        split; [| exact Htext]. intros _ _. now split.
    + destruct (Hpending w eq_refl eq_refl) as (Hu & Hd & Hm & Hi).
      split; [exact Hu |]. split; [exact Hd |].
      split; [discriminate |].
      split; [intros _ r0 e0 [= <-] He0; congruence |].
      split; [| exact Htext]. intros _ _. now split.
    + destruct (Hpending w eq_refl eq_refl) as (Hu & Hd & Hm & Hi).
      split; [exact Hu |]. split; [exact Hd |].
      split; [discriminate |].
      split; [intros _ r0 e0 [=] |].
      split; [| exact Htext]. intros _ _. now split.
Qed.

Lemma join_request_decision_witness :
  let E := sample_env all_succeed in
  let w := world_of [(9, mkUserData 9 None (Some (noon + 1)) false)] [5] in
  (exists w', handle_join_request E 5 None w = (Ok tt, w')
              /\ issued w w' (Approve 5))
  /\ (exists w', handle_join_request E 9 None w = (Ok tt, w')
                 /\ issued w w' (Approve 9))
  /\ (exists w', handle_join_request E 7 None w = (Ok tt, w')
                 /\ Forall (fun cb => is_message (fst cb) = true) (emitted w w')
                 /\ forall a, In a (ADMIN_IDS E) ->
                              issued w w' (SendMessage a (MsgDeclined "7" 7))).
Proof.
  cbv zeta.
  pose (E := sample_env all_succeed).
  pose (w := world_of [(9, mkUserData 9 None (Some (noon + 1)) false)] [5]).
  split; [| split].
  - destruct (join_request_decision E w 5 None)
      as (w' & Hrun & _ & _ & Hvip & _).
    exists w'. split; [exact Hrun | exact (Hvip eq_refl)].
  - destruct (join_request_decision E w 9 None)
      as (w' & Hrun & _ & _ & _ & Hactive & _).
    exists w'. split; [exact Hrun |].
    apply (Hactive eq_refl (mkUserData 9 None (Some (noon + 1)) false)
                   (noon + 1) eq_refl eq_refl).
    apply Z.ltb_lt. reflexivity.
  - destruct (join_request_decision E w 7 None)
      as (w' & Hrun & _ & _ & _ & _ & Hpending & _).
    exists w'. split; [exact Hrun |].
    apply (Hpending eq_refl). intros r e Hget. discriminate Hget.
Defined.

(** ** The grant handlers *)

(** C5.  The preset-button path does not reject hours at or below zero: with
    [-5] hours it shortens the grant of the user by five hours, lowers the
    warning flag, writes the store, and never answers that the hours must be
    positive. *)
Theorem callback_add_time_nonpositive_hours :
  let E := sample_env all_succeed in
  let r := mkUserData 42 None (Some (noon + 10 * US_PER_HOUR)) true in
  let w := world_of [(42, r)] [] in
  float_le0 (FFin (-5)) = true
  /\ exists w',
      callback_add_time E 1000 42 (FFin (-5)) w = (Ok tt, w')
      /\ users w'
         = [(42, mkUserData 42 None (Some (noon + 5 * US_PER_HOUR)) false)]
      /\ users w' <> users w
      /\ (exists ok, In (WriteDataFile (dump_users (users w')), ok)
                        (emitted w w'))
      /\ forall chat ok,
          ~ In (Answer chat MsgHoursNotPositive, ok) (emitted w w').
Proof.
  cbv zeta. split; [reflexivity |].
  eexists. split; [vm_compute; reflexivity |].
  split; [reflexivity |]. split; [discriminate |].
  split; [exists true; vm_compute; auto |].
  intros chat ok Hin. vm_compute in Hin.
  repeat (destruct Hin as [Hin | Hin]; [discriminate Hin |]). exact Hin.
Qed.

(** C6.  The preset-button path does not reject a grant to an allowlisted
    user: with the user on the allowlist it gives the record of the user an
    expiry 24 hours from now and writes the store, and never answers that
    the user is a VIP. *)
Theorem callback_add_time_allowlisted_user :
  let E := sample_env all_succeed in
  let r := mkUserData 42 None None false in
  let w := world_of [(42, r)] [42] in
  mem 42 (vip_users w) = true
  /\ exists w',
      callback_add_time E 1000 42 (FFin 24) w = (Ok tt, w')
      /\ users w'
         = [(42, mkUserData 42 None (Some (noon + 24 * US_PER_HOUR)) false)]
      /\ users w' <> users w
      /\ (exists ok, In (WriteDataFile (dump_users (users w')), ok)
                        (emitted w w'))
      /\ forall chat ok, ~ In (Answer chat MsgIsVip, ok) (emitted w w').
Proof.
  cbv zeta. split; [reflexivity |].
  eexists. split; [vm_compute; reflexivity |].
  split; [reflexivity |]. split; [discriminate |].
  split; [exists true; vm_compute; auto |].
  intros chat ok Hin. vm_compute in Hin.
  repeat (destruct Hin as [Hin | Hin]; [discriminate Hin |]). exact Hin.
Qed.

(** ** The upsert in full *)

(** What the upsert does in every case.  [s1] is the store once the record
    is there with the name given; then either no hours are given and the
    store is written, or the new expiry cannot be computed and the exception
    leaves the store at [s1] unwritten, or the record gets the new expiry and
    the store is written. *)
Lemma upsert_run (E : Env) (uid : Z) (uname : option string)
      (hours : option pyfloat) (w : World) :
  let r0 :=
    match dict_get Z.eqb uid (users w) with
    | Some r => r
    | None => UserData_init uid uname
    end in
  let s0 :=
    match dict_get Z.eqb uid (users w) with
    | Some _ => users w
    | None => dict_set Z.eqb uid r0 (users w)
    end in
  let r1 := if str_truthy uname then set_username r0 uname else r0 in
  let s1 := if str_truthy uname then dict_set Z.eqb uid r1 s0 else s0 in
  let n := clock_reads w in
  let written s k :=
    log E (WriteDataFile (dump_users s))
        (mkWorld s (vip_users w) (fsm w) (calls w) k) in
  add_or_update_user E uid uname hours w
  = match hours with
    | None => (Ok r1, written s1 n)
    | Some h =>
        let '(k, base) :=
          match expires_at r1 with
          | Some e =>
              if clock E n <? e then (S n, e) else (S (S n), clock E (S n))
          | None => (S n, clock E n)
          end in
        let failed := mkWorld s1 (vip_users w) (fsm w) (calls w) k in
        match timedelta_hours h with
        | Raise x => (Raise x, failed)
        | Ok d =>
            match dt_add base d with
            | Raise x => (Raise x, failed)
            | Ok e' =>
                let u' := set_expires_at r1 (Some e') in
                let u'' := set_warning_sent u' false in
                (Ok u'',
                 written (dict_set Z.eqb uid u'' (dict_set Z.eqb uid u' s1)) k)
            end
        end
    end.
Proof.
  cbv zeta. destruct w as [s v f c n]. cbn [users vip_users fsm calls clock_reads].
  unfold add_or_update_user.
  unfold bind at 1. unfold get_world at 1. unfold bind at 1.
  unfold dict_mem. cbn [users].
  destruct (dict_get Z.eqb uid s) as [r |] eqn:Hget.
  - unfold ret at 1. unfold bind at 1. unfold users_item at 1.
    cbn [users]. rewrite Hget.
    destruct (str_truthy uname) eqn:Ht.
    + unfold bind at 1. unfold bind at 1. unfold assign at 1. unfold ret at 1.
      destruct hours as [h |].
      * cbn [set_username expires_at].
        destruct (expires_at r) as [e |].
        -- unfold bind at 1. unfold bind at 1. unfold bind at 1.
           unfold datetime_now at 1. cbn [clock_reads with_users].
           destruct (clock E n <? e).
           ++ unfold bind at 1. unfold lift at 1.
              destruct (timedelta_hours h) as [d | x]; [| reflexivity].
              unfold lift at 1.
              destruct (dt_add e d) as [e' | x]; [| reflexivity].
              unfold bind at 1. unfold assign at 1.
              unfold bind at 1. unfold assign at 1. unfold ret at 1.
              unfold bind. rewrite save_data_run. reflexivity.
           ++ unfold bind at 1. unfold datetime_now at 1.
              cbn [clock_reads with_clock_reads].
              unfold bind at 1. unfold lift at 1.
              destruct (timedelta_hours h) as [d | x]; [| reflexivity].
              unfold lift at 1.
              destruct (dt_add (clock E (S n)) d) as [e' | x]; [| reflexivity].
              unfold bind at 1. unfold assign at 1.
              unfold bind at 1. unfold assign at 1. unfold ret at 1.
              unfold bind. rewrite save_data_run. reflexivity.
        -- unfold bind at 1. unfold bind at 1. unfold bind at 1.
           unfold datetime_now at 1. cbn [clock_reads with_users].
           unfold bind at 1. unfold lift at 1.
           destruct (timedelta_hours h) as [d | x]; [| reflexivity].
           unfold lift at 1.
           destruct (dt_add (clock E n) d) as [e' | x]; [| reflexivity].
           unfold bind at 1. unfold assign at 1.
           unfold bind at 1. unfold assign at 1. unfold ret at 1.
           unfold bind. rewrite save_data_run. reflexivity.
      * unfold bind at 1. unfold ret at 1. unfold bind.
        rewrite save_data_run. reflexivity.
    + unfold bind at 1. unfold ret at 1.
      destruct hours as [h |].
      * destruct (expires_at r) as [e |].
        -- unfold bind at 1. unfold bind at 1. unfold bind at 1.
           unfold datetime_now at 1. cbn [clock_reads].
           destruct (clock E n <? e).
           ++ unfold bind at 1. unfold lift at 1.
              destruct (timedelta_hours h) as [d | x]; [| reflexivity].
              unfold lift at 1.
              destruct (dt_add e d) as [e' | x]; [| reflexivity].
              unfold bind at 1. unfold assign at 1.
              unfold bind at 1. unfold assign at 1. unfold ret at 1.
              unfold bind. rewrite save_data_run. reflexivity.
           ++ unfold bind at 1. unfold datetime_now at 1.
              cbn [clock_reads with_clock_reads].
              unfold bind at 1. unfold lift at 1.
              destruct (timedelta_hours h) as [d | x]; [| reflexivity].
              unfold lift at 1.
              destruct (dt_add (clock E (S n)) d) as [e' | x]; [| reflexivity].
              unfold bind at 1. unfold assign at 1.
              unfold bind at 1. unfold assign at 1. unfold ret at 1.
              unfold bind. rewrite save_data_run. reflexivity.
        -- unfold bind at 1. unfold bind at 1. unfold bind at 1.
           unfold datetime_now at 1. cbn [clock_reads].
           unfold bind at 1. unfold lift at 1.
           destruct (timedelta_hours h) as [d | x]; [| reflexivity].
           unfold lift at 1.
           destruct (dt_add (clock E n) d) as [e' | x]; [| reflexivity].
           unfold bind at 1. unfold assign at 1.
           unfold bind at 1. unfold assign at 1. unfold ret at 1.
           unfold bind. rewrite save_data_run. reflexivity.
      * unfold bind at 1. unfold ret at 1. unfold bind.
        rewrite save_data_run. reflexivity.
  - unfold assign at 1. unfold bind at 1. unfold users_item at 1.
    cbn [users with_users]. rewrite dict_get_set_same.
    assert (expires_at (if str_truthy uname
                        then set_username (UserData_init uid uname) uname
                        else UserData_init uid uname) = None) as Hnone
        by (destruct (str_truthy uname); reflexivity).
    destruct (str_truthy uname) eqn:Ht.
    + unfold bind at 1. unfold bind at 1. unfold assign at 1. unfold ret at 1.
      cbn [users with_users].
      destruct hours as [h |].
      * rewrite Hnone.
        unfold bind at 1. unfold bind at 1. unfold bind at 1.
        unfold datetime_now at 1. cbn [clock_reads with_users].
        unfold bind at 1. unfold lift at 1.
        destruct (timedelta_hours h) as [d | x]; [| reflexivity].
        unfold lift at 1.
        destruct (dt_add (clock E n) d) as [e' | x]; [| reflexivity].
        unfold bind at 1. unfold assign at 1.
        unfold bind at 1. unfold assign at 1. unfold ret at 1.
        unfold bind. rewrite save_data_run. reflexivity.
      * unfold bind at 1. unfold ret at 1. unfold bind.
        rewrite save_data_run. reflexivity.
    + unfold bind at 1. unfold ret at 1.
      destruct hours as [h |].
      * rewrite Hnone.
        unfold bind at 1. unfold bind at 1. unfold bind at 1.
        unfold datetime_now at 1. cbn [clock_reads with_users].
        unfold bind at 1. unfold lift at 1.
        destruct (timedelta_hours h) as [d | x]; [| reflexivity].
        unfold lift at 1.
        destruct (dt_add (clock E n) d) as [e' | x]; [| reflexivity].
        unfold bind at 1. unfold assign at 1.
        unfold bind at 1. unfold assign at 1. unfold ret at 1.
        unfold bind. rewrite save_data_run. reflexivity.
      * unfold bind at 1. unfold ret at 1. unfold bind.
        rewrite save_data_run. reflexivity.
Qed.

Lemma dict_get_set_other (uid k : Z) (r : UserData) (s : store) :
  k <> uid -> dict_get Z.eqb k (dict_set Z.eqb uid r s) = dict_get Z.eqb k s.
Proof.
  intros Hne. rewrite (dict_get_set Z.eqb Z_eqb_iff).
  now replace (k =? uid) with false by (symmetry; now apply Z.eqb_neq).
Qed.

(** The store the upsert works on once the record is there. *)
Lemma upsert_store_facts (uid : Z) (uname : option string) (s : store) :
  let r0 :=
    match dict_get Z.eqb uid s with
    | Some r => r
    | None => UserData_init uid uname
    end in
  let s0 :=
    match dict_get Z.eqb uid s with
    | Some _ => s
    | None => dict_set Z.eqb uid r0 s
    end in
  let r1 := if str_truthy uname then set_username r0 uname else r0 in
  let s1 := if str_truthy uname then dict_set Z.eqb uid r1 s0 else s0 in
  dict_get Z.eqb uid s1 = Some r1
  /\ (forall k, k <> uid -> dict_get Z.eqb k s1 = dict_get Z.eqb k s)
  /\ (store_wf s -> store_wf s1 /\ user_id r1 = uid)
  /\ incl (dict_keys s) (dict_keys s1).
Proof.
  cbv zeta.
  destruct (dict_get Z.eqb uid s) as [r |] eqn:Hget;
    destruct (str_truthy uname) eqn:Ht.
  - split; [apply dict_get_set_same |].
    split; [intros k Hk; now apply dict_get_set_other |].
    split.
    + intros Hwf. pose proof (store_wf_get _ _ _ Hwf Hget) as Hid.
      split; [now apply store_wf_set | exact Hid].
    + rewrite (dict_keys_set Z.eqb). unfold dict_mem. rewrite Hget.
      apply incl_refl.
  - split; [exact Hget |]. split; [reflexivity |].
    split; [intros Hwf; split; [exact Hwf | exact (store_wf_get _ _ _ Hwf Hget)] |].
    apply incl_refl.
  - split; [apply dict_get_set_same |].
    split; [intros k Hk; now rewrite !dict_get_set_other |].
    split.
    + intros Hwf. split; [| reflexivity].
      apply store_wf_set; [reflexivity |]. now apply store_wf_set.
    + rewrite !(dict_keys_set Z.eqb). unfold dict_mem.
      rewrite Hget, dict_get_set_same. now apply incl_appl, incl_refl.
  - split; [apply dict_get_set_same |].
    split; [intros k Hk; now rewrite dict_get_set_other |].
    split.
    + intros Hwf. split; [| reflexivity]. now apply store_wf_set.
    + rewrite (dict_keys_set Z.eqb). unfold dict_mem. rewrite Hget.
      now apply incl_appl, incl_refl.
Qed.

Lemma upsert_frame (E : Env) (uid : Z)
        (uname : option string) (hours : option pyfloat) (w : World) :
  let w' := snd (add_or_update_user E uid uname hours w) in
  (forall k, k <> uid ->
             dict_get Z.eqb k (users w') = dict_get Z.eqb k (users w))
  /\ vip_users w' = vip_users w
  /\ dict_mem Z.eqb uid (users w') = true
  /\ incl (dict_keys (users w)) (dict_keys (users w'))
  /\ (store_wf (users w) -> store_wf (users w')).
Proof.
  cbv zeta. rewrite upsert_run. cbv zeta.
  destruct (upsert_store_facts uid uname (users w)) as (Hg & Hother & Hwf & Hincl).
  cbv zeta in Hg, Hother, Hwf, Hincl.
  set (r0 := match dict_get Z.eqb uid (users w) with
             | Some r => r
             | None => UserData_init uid uname
             end) in *.
  set (s0 := match dict_get Z.eqb uid (users w) with
             | Some _ => users w
             | None => dict_set Z.eqb uid r0 (users w)
             end) in *.
  set (r1 := if str_truthy uname then set_username r0 uname else r0) in *.
  set (s1 := if str_truthy uname then dict_set Z.eqb uid r1 s0 else s0) in *.
  assert (forall (k : nat) (e : datetime),
             let u' := set_expires_at r1 (Some e) in
             let s2 := dict_set Z.eqb uid (set_warning_sent u' false)
                                (dict_set Z.eqb uid u' s1) in
             (forall k0, k0 <> uid -> dict_get Z.eqb k0 s2 = dict_get Z.eqb k0 (users w))
             /\ dict_mem Z.eqb uid s2 = true
             /\ incl (dict_keys (users w)) (dict_keys s2)
             /\ (store_wf (users w) -> store_wf s2)) as Hgrant.
  { intros _ e. cbv zeta. split; [| split; [| split]].
    - intros k0 Hk0. rewrite !dict_get_set_other by exact Hk0. now apply Hother.
    - unfold dict_mem. now rewrite dict_get_set_same.
    - rewrite !(dict_keys_set Z.eqb). unfold dict_mem.
      rewrite dict_get_set_same, Hg. exact Hincl.
    - intros H. destruct (Hwf H) as [Hwf1 Hid].
      apply store_wf_set; [exact Hid |]. now apply store_wf_set. }
  assert (dict_mem Z.eqb uid s1 = true) as Hmem1
      by (unfold dict_mem; now rewrite Hg).
  destruct hours as [h |].
  - destruct (match expires_at r1 with
              | Some e =>
                  if clock E (clock_reads w) <? e
                  then (S (clock_reads w), e)
                  else (S (S (clock_reads w)), clock E (S (clock_reads w)))
              | None => (S (clock_reads w), clock E (clock_reads w))
              end) as [k base].
    destruct (timedelta_hours h) as [d | x];
      [destruct (dt_add base d) as [e' | x] |]; cbn [snd users vip_users log
                                                      with_calls].
    + destruct (Hgrant 0%nat e') as (H1 & H2 & H3 & H4). auto 6.
    + split; [exact Hother |]. split; [reflexivity |]. split; [exact Hmem1 |].
      split; [exact Hincl |]. intros H. apply (Hwf H).
    + split; [exact Hother |]. split; [reflexivity |]. split; [exact Hmem1 |].
      split; [exact Hincl |]. intros H. apply (Hwf H).
  - cbn [snd users vip_users log with_calls].
    split; [exact Hother |]. split; [reflexivity |]. split; [exact Hmem1 |].
    split; [exact Hincl |]. intros H. apply (Hwf H).
Qed.

Lemma upsert_raise_facts (E : Env) (uid : Z)
        (uname : option string) (hours : option pyfloat) (w w' : World)
        (x : exn) :
  add_or_update_user E uid uname hours w = (Raise x, w') ->
  calls w' = calls w
  /\ (forall r, dict_get Z.eqb uid (users w) = Some r ->
                exists r',
                  dict_get Z.eqb uid (users w') = Some r'
                  /\ expires_at r' = expires_at r
                  /\ warning_sent r' = warning_sent r)
  /\ (dict_get Z.eqb uid (users w) = None ->
      dict_get Z.eqb uid (users w') = Some (UserData_init uid uname)).
Proof.
  rewrite upsert_run. cbv zeta.
  destruct (upsert_store_facts uid uname (users w)) as (Hg & _).
  cbv zeta in Hg.
  set (r0 := match dict_get Z.eqb uid (users w) with
             | Some r => r
             | None => UserData_init uid uname
             end) in *.
  set (s0 := match dict_get Z.eqb uid (users w) with
             | Some _ => users w
             | None => dict_set Z.eqb uid r0 (users w)
             end) in *.
  set (r1 := if str_truthy uname then set_username r0 uname else r0) in *.
  set (s1 := if str_truthy uname then dict_set Z.eqb uid r1 s0 else s0) in *.
  assert (forall k : nat,
             let wf := mkWorld s1 (vip_users w) (fsm w) (calls w) k in
             calls wf = calls w
             /\ (forall r, dict_get Z.eqb uid (users w) = Some r ->
                           exists r',
                             dict_get Z.eqb uid (users wf) = Some r'
                             /\ expires_at r' = expires_at r
                             /\ warning_sent r' = warning_sent r)
             /\ (dict_get Z.eqb uid (users w) = None ->
                 dict_get Z.eqb uid (users wf) = Some (UserData_init uid uname)))
    as Hfailed.
  { intros k. cbv zeta. cbn [calls users]. split; [reflexivity |]. split.
    - intros r Hr. exists r1. split; [exact Hg |].
      unfold r1, r0. rewrite Hr. destruct (str_truthy uname); auto.
    - intros Hnone. rewrite Hg. f_equal. unfold r1, r0. rewrite Hnone.
      destruct (str_truthy uname); reflexivity. }
  destruct hours as [h |]; [| discriminate].
  destruct (match expires_at r1 with
            | Some e =>
                if clock E (clock_reads w) <? e
                then (S (clock_reads w), e)
                else (S (S (clock_reads w)), clock E (S (clock_reads w)))
            | None => (S (clock_reads w), clock E (clock_reads w))
            end) as [k base].
  destruct (timedelta_hours h) as [d | x0];
    [destruct (dt_add base d) as [e' | x0] |]; intros [= <- <-];
    apply Hfailed.
Qed.


Lemma upsert_ok_facts (E : Env) (uid : Z) (uname : option string)
        (hours : option pyfloat) (w w' : World) (u : UserData) :
  add_or_update_user E uid uname hours w = (Ok u, w') ->
  dict_get Z.eqb uid (users w') = Some u
  /\ exists ok,
      calls w' = (WriteDataFile (dump_users (users w')), ok) :: calls w.
Proof.
  rewrite upsert_run. cbv zeta.
  destruct (upsert_store_facts uid uname (users w)) as (Hg & _).
  cbv zeta in Hg.
  destruct hours as [h |].
  - destruct (match expires_at _ with
              | Some e =>
                  if clock E (clock_reads w) <? e
                  then (S (clock_reads w), e)
                  else (S (S (clock_reads w)), clock E (S (clock_reads w)))
              | None => (S (clock_reads w), clock E (clock_reads w))
              end) as [k base].
    destruct (timedelta_hours h) as [d | x];
      [destruct (dt_add base d) as [e' | x] |]; intros [= <- <-].
    cbn [users calls log with_calls]. split; [apply dict_get_set_same |].
    eexists. reflexivity.
  - intros [= <- <-]. cbn [users calls log with_calls].
    split; [exact Hg |]. eexists. reflexivity.
Qed.

(** X1.  Whatever its arguments and whether it returns or raises, the upsert
    touches the record of its user only: the records of the other users and
    the allowlist stay as they are, no record disappears, the user has a
    record afterwards, and a well-formed store stays well formed. *)
Theorem upsert_touches_one_record (E : Env) (uid : Z)
        (uname : option string) (hours : option pyfloat) (w : World) :
  let w' := snd (add_or_update_user E uid uname hours w) in
  (forall k, k <> uid ->
             dict_get Z.eqb k (users w') = dict_get Z.eqb k (users w))
  /\ vip_users w' = vip_users w
  /\ dict_mem Z.eqb uid (users w') = true
  /\ incl (dict_keys (users w)) (dict_keys (users w'))
  /\ (store_wf (users w) -> store_wf (users w')).
Proof. exact (upsert_frame E uid uname hours w). Qed.

Lemma upsert_touches_one_record_witness :
  let E := sample_env all_succeed in
  let r := mkUserData 7 None None false in
  let w := world_of [(7, r)] [] in
  let w' := snd (add_or_update_user E 42 None (Some (FFin 1)) w) in
  7 <> 42 /\ store_wf (users w)
  /\ dict_get Z.eqb 7 (users w') = dict_get Z.eqb 7 (users w)
  /\ store_wf (users w').
Proof.
  cbv zeta.
  pose (E := sample_env all_succeed).
  pose (w := world_of [(7, mkUserData 7 None None false)] []).
  assert (store_wf (users w)) as Hwf
      by (split; repeat constructor; cbn; tauto).
  assert (7 <> 42) as Hne by discriminate.
  destruct (upsert_touches_one_record E 42 None (Some (FFin 1)) w)
    as (Hk & _ & _ & _ & Hw).
  split; [exact Hne |]. split; [exact Hwf |].
  split; [exact (Hk 7 Hne) | exact (Hw Hwf)].
Defined.

(** X2.  When the upsert raises (the hours have no timedelta, or the new
    expiry is no instant a datetime can hold), nothing is written and no
    request is made; an existing record keeps its expiry and its warning
    flag; for a user without record, a record without expiry stays in the
    store, unwritten. *)
Theorem upsert_failure_keeps_grant (E : Env) (uid : Z)
        (uname : option string) (hours : option pyfloat) (w w' : World)
        (x : exn) :
  add_or_update_user E uid uname hours w = (Raise x, w') ->
  calls w' = calls w
  /\ (forall r, dict_get Z.eqb uid (users w) = Some r ->
                exists r',
                  dict_get Z.eqb uid (users w') = Some r'
                  /\ expires_at r' = expires_at r
                  /\ warning_sent r' = warning_sent r)
  /\ (dict_get Z.eqb uid (users w) = None ->
      dict_get Z.eqb uid (users w') = Some (UserData_init uid uname)).
Proof. exact (upsert_raise_facts E uid uname hours w w' x). Qed.

Lemma upsert_failure_keeps_grant_witness :
  let E := sample_env all_succeed in
  let r := mkUserData 42 None (Some (noon + 5)) true in
  let w := world_of [(42, r)] [] in
  exists w',
    add_or_update_user E 42 None (Some (FInf false)) w
    = (Raise OverflowError, w')
    /\ calls w' = calls w
    /\ exists r',
        dict_get Z.eqb 42 (users w') = Some r'
        /\ expires_at r' = expires_at r
        /\ warning_sent r' = warning_sent r.
Proof.
  cbv zeta. eexists. split; [vm_compute; reflexivity |].
  pose proof (upsert_failure_keeps_grant
                (sample_env all_succeed) 42 None (Some (FInf false))
                (world_of [(42, mkUserData 42 None (Some (noon + 5)) true)] [])
                _ OverflowError eq_refl) as (Hc & Hr & _).
  split; [exact Hc |].
  exact (Hr (mkUserData 42 None (Some (noon + 5)) true) eq_refl).
Defined.

(** X3.  When the upsert returns, the record it returns is the one stored
    under the id, and its last act is the write of the whole resulting store
    to the data file, whether that write succeeds or not. *)
Theorem upsert_writes_through (E : Env) (uid : Z) (uname : option string)
        (hours : option pyfloat) (w w' : World) (u : UserData) :
  add_or_update_user E uid uname hours w = (Ok u, w') ->
  dict_get Z.eqb uid (users w') = Some u
  /\ exists ok,
      calls w' = (WriteDataFile (dump_users (users w')), ok) :: calls w.
Proof. exact (upsert_ok_facts E uid uname hours w w' u). Qed.

Lemma upsert_writes_through_witness :
  let E := sample_env all_succeed in
  let w := world_of [] [] in
  exists u w',
    add_or_update_user E 42 None (Some (FFin 2)) w = (Ok u, w')
    /\ dict_get Z.eqb 42 (users w') = Some u
    /\ exists ok,
        calls w' = (WriteDataFile (dump_users (users w')), ok) :: calls w.
Proof.
  cbv zeta. eexists. eexists. split; [vm_compute; reflexivity |].
  exact (upsert_writes_through (sample_env all_succeed) 42 None
                               (Some (FFin 2)) (world_of [] []) _ _ eq_refl).
Defined.

(** ** The grant handlers: what they refuse *)

(** X4.  An admin's custom hours at or below zero (minus infinity included)
    are refused: the handler answers that the time must be positive, writes
    nothing, and leaves the store and the allowlist as they are; when that
    answer gets through, the conversation is left as it is, so that the
    admin can type again. *)
Theorem custom_hours_rejects_nonpositive (E : Env) (sender : Z)
        (hours : pyfloat) (w : World) :
  is_admin E sender = true ->
  float_le0 hours = true ->
  exists res w',
    process_custom_hours E sender (Some hours) w = (res, w')
    /\ users w' = users w /\ vip_users w' = vip_users w
    /\ issued w w' (Answer sender MsgHoursNotPositive)
    /\ Forall (fun cb => is_reply (fst cb) = true) (emitted w w')
    /\ (transport E (calls w) (Answer sender MsgHoursNotPositive) = true ->
        res = Ok tt /\ fsm w' = fsm w).
Proof.
  intros Hadmin Hle. unfold process_custom_hours. rewrite Hadmin, Hle.
  cbn [negb]. unfold try_except. rewrite request_run. unfold issued.
  set (c1 := Answer sender MsgHoursNotPositive).
  destruct (transport E (calls w) c1) eqn:H1.
  - exists (Ok tt), (log E c1 w). split; [reflexivity |].
    split; [reflexivity |]. split; [reflexivity |].
    rewrite (emitted_app w (log E c1 w) [(c1, true)])
      by (cbn [log with_calls calls app]; now rewrite H1).
    split; [unfold issued; exists true; now left |].
    split; [now repeat constructor | auto].
  - cbn [exn_of_call c1]. unfold bind, state_clear. rewrite request_run.
    set (c2 := Answer sender MsgError).
    cbn [log with_calls calls]. rewrite H1.
    destruct (transport E ((c1, false) :: calls w) c2) eqn:H2.
    + eexists. eexists. split; [reflexivity |].
      cbn [users vip_users with_fsm].
      split; [reflexivity |]. split; [reflexivity |].
      rewrite (emitted_app w _ [(c2, true); (c1, false)])
        by (cbn [calls with_fsm log with_calls app]; rewrite H1, H2;
            reflexivity).
      split; [exists false; right; now left |].
      split; [now repeat constructor | discriminate].
    + eexists. eexists. split; [reflexivity |].
      cbn [users vip_users].
      split; [reflexivity |]. split; [reflexivity |].
      rewrite (emitted_app w _ [(c2, false); (c1, false)])
        by (cbn [calls with_fsm log with_calls app]; rewrite H1, H2;
            reflexivity).
      split; [exists false; right; now left |].
      split; [now repeat constructor | discriminate].
Qed.

Lemma custom_hours_rejects_nonpositive_witness :
  let E := sample_env all_succeed in
  let w := world_of [(42, mkUserData 42 None None false)] [] in
  is_admin E 1000 = true /\ float_le0 (FFin 0) = true
  /\ exists res w',
      process_custom_hours E 1000 (Some (FFin 0)) w = (res, w')
      /\ users w' = users w /\ vip_users w' = vip_users w
      /\ issued w w' (Answer 1000 MsgHoursNotPositive)
      /\ Forall (fun cb => is_reply (fst cb) = true) (emitted w w')
      /\ (transport E (calls w) (Answer 1000 MsgHoursNotPositive) = true ->
          res = Ok tt /\ fsm w' = fsm w).
Proof.
  cbv zeta. split; [reflexivity |]. split; [reflexivity |].
  exact (custom_hours_rejects_nonpositive
           (sample_env all_succeed) 1000 (FFin 0)
           (world_of [(42, mkUserData 42 None None false)] [])
           eq_refl eq_refl).
Defined.

(** X5.  An admin's text that is no number is answered with the format
    notice; nothing is written, the store, the allowlist and the
    conversation are left as they are, whether the answer gets through or
    not. *)
Theorem custom_hours_unparseable (E : Env) (sender : Z) (w : World) :
  is_admin E sender = true ->
  exists res w',
    process_custom_hours E sender None w = (res, w')
    /\ users w' = users w /\ vip_users w' = vip_users w /\ fsm w' = fsm w
    /\ emitted w w'
       = [(Answer sender MsgBadNumber,
           transport E (calls w) (Answer sender MsgBadNumber))].
Proof.
  intros Hadmin. unfold process_custom_hours. rewrite Hadmin.
  cbn [negb]. unfold try_except, raise. rewrite request_run.
  eexists. eexists. split; [reflexivity |].
  split; [reflexivity |]. split; [reflexivity |]. split; [reflexivity |].
  now apply emitted_app.
Qed.

Lemma custom_hours_unparseable_witness :
  let E := sample_env all_succeed in
  let w := world_of [] [] in
  is_admin E 1000 = true
  /\ exists res w',
      process_custom_hours E 1000 None w = (res, w')
      /\ users w' = users w /\ vip_users w' = vip_users w /\ fsm w' = fsm w
      /\ emitted w w'
         = [(Answer 1000 MsgBadNumber,
             transport E (calls w) (Answer 1000 MsgBadNumber))].
Proof.
  cbv zeta. split; [reflexivity |].
  exact (custom_hours_unparseable (sample_env all_succeed) 1000
                                  (world_of [] []) eq_refl).
Defined.

(** X6.  For a sender who is no admin the three grant handlers change
    neither the store nor the allowlist nor the conversation: the text
    handlers do nothing at all, and the button handler only answers that the
    sender has no access. *)
Theorem non_admin_cannot_grant (E : Env) (sender uid : Z) (text : string)
        (parsed : option pyfloat) (hours : pyfloat) (w : World) :
  is_admin E sender = false ->
  process_user_id E sender text w = (Ok tt, w)
  /\ process_custom_hours E sender parsed w = (Ok tt, w)
  /\ exists res,
      callback_add_time E sender uid hours w
      = (res, log E (CallbackAnswer sender (Some MsgNoAccess)) w).
Proof.
  intros Hadmin.
  unfold process_user_id, process_custom_hours, callback_add_time.
  rewrite Hadmin. cbn [negb]. split; [reflexivity |]. split; [reflexivity |].
  rewrite request_run. eexists. reflexivity.
Qed.

Lemma non_admin_cannot_grant_witness :
  let E := sample_env all_succeed in
  let w := world_of [] [] in
  is_admin E 5 = false
  /\ process_user_id E 5 "42" w = (Ok tt, w)
  /\ process_custom_hours E 5 (Some (FFin 24)) w = (Ok tt, w)
  /\ exists res,
      callback_add_time E 5 42 (FFin 24) w
      = (res, log E (CallbackAnswer 5 (Some MsgNoAccess)) w).
Proof.
  cbv zeta. split; [reflexivity |].
  exact (non_admin_cannot_grant (sample_env all_succeed) 5 42 "42"
                                (Some (FFin 24)) (FFin 24) (world_of [] [])
                                eq_refl).
Defined.

(** ** The identifier an admin types *)











(** ** The first step of a grant *)

(** X8.  When an admin names a user who is on the allowlist, the handler
    answers that the user is a VIP, makes no other request, writes nothing
    and leaves the store and the allowlist as they are; when that answer
    gets through, it ends the conversation. *)
Theorem process_user_id_rejects_allowlisted (E : Env) (sender uid : Z)
        (text : string) (w : World) :
  is_admin E sender = true ->
  resolve_user_identifier text = (Some uid, None) ->
  uid <> 0 ->
  mem uid (vip_users w) = true ->
  exists res w',
    process_user_id E sender text w = (res, w')
    /\ users w' = users w /\ vip_users w' = vip_users w
    /\ issued w w' (Answer sender MsgIsVip)
    /\ Forall (fun cb => is_reply (fst cb) = true) (emitted w w')
    /\ (transport E (calls w) (Answer sender MsgIsVip) = true ->
        res = Ok tt /\ fsm w' = dict_del Z.eqb sender (fsm w)).
Proof.
  intros Hadmin Hres Hne Hvip. unfold process_user_id.
  rewrite Hadmin, Hres. cbn [negb id_truthy str_truthy].
  replace (uid =? 0) with false by (symmetry; now apply Z.eqb_neq).
  cbn [negb andb]. unfold try_except, bind at 1.
  unfold is_special_user, is_vip. rewrite Hvip.
  unfold bind at 1. rewrite request_run. unfold issued.
  set (c1 := Answer sender MsgIsVip).
  destruct (transport E (calls w) c1) eqn:H1.
  - unfold state_clear. eexists. eexists. split; [reflexivity |].
    cbn [users vip_users fsm with_fsm log with_calls].
    split; [reflexivity |]. split; [reflexivity |].
    rewrite (emitted_app w _ [(c1, true)])
      by (cbn [calls with_fsm log with_calls app]; now rewrite H1).
    split; [exists true; now left |].
    split; [now repeat constructor | auto].
  - cbn [exn_of_call c1]. unfold bind, state_clear. rewrite request_run.
    set (c2 := Answer sender MsgError).
    cbn [log with_calls calls]. rewrite H1.
    destruct (transport E ((c1, false) :: calls w) c2) eqn:H2.
    + eexists. eexists. split; [reflexivity |].
      cbn [users vip_users with_fsm].
      split; [reflexivity |]. split; [reflexivity |].
      rewrite (emitted_app w _ [(c2, true); (c1, false)])
        by (cbn [calls with_fsm log with_calls app]; rewrite H1, H2;
            reflexivity).
      split; [exists false; right; now left |].
      split; [now repeat constructor | discriminate].
    + eexists. eexists. split; [reflexivity |].
      cbn [users vip_users].
      split; [reflexivity |]. split; [reflexivity |].
      rewrite (emitted_app w _ [(c2, false); (c1, false)])
        by (cbn [calls with_fsm log with_calls app]; rewrite H1, H2;
            reflexivity).
      split; [exists false; right; now left |].
      split; [now repeat constructor | discriminate].
Qed.

Lemma process_user_id_rejects_allowlisted_witness :
  let E := sample_env all_succeed in
  let w := world_of [] [42] in
  is_admin E 1000 = true
  /\ resolve_user_identifier "42" = (Some 42, None)
  /\ 42 <> 0 /\ mem 42 (vip_users w) = true
  /\ exists res w',
      process_user_id E 1000 "42" w = (res, w')
      /\ users w' = users w /\ vip_users w' = vip_users w
      /\ issued w w' (Answer 1000 MsgIsVip)
      /\ Forall (fun cb => is_reply (fst cb) = true) (emitted w w')
      /\ (transport E (calls w) (Answer 1000 MsgIsVip) = true ->
          res = Ok tt /\ fsm w' = dict_del Z.eqb 1000 (fsm w)).
Proof.
  cbv zeta.
  assert (42 <> 0) as Hne by discriminate.
  split; [reflexivity |]. split; [reflexivity |]. split; [exact Hne |].
  split; [reflexivity |].
  exact (process_user_id_rejects_allowlisted
           (sample_env all_succeed) 1000 42 "42" (world_of [] [42])
           eq_refl eq_refl Hne eq_refl).
Defined.



(** ** Grants and the notices that go with them *)

(** A grant whose new expiry exists: the upsert returns, the record has the
    new expiry with the flag down, and the store is written. *)
Lemma upsert_grant_ok (E : Env) (uid : Z) (uname : option string)
      (h : pyfloat) (d : timedelta) (w : World) :
  timedelta_hours h = Ok d ->
  dt_valid (grant_base E w uid + d) = true ->
  exists u' w1 ok,
    add_or_update_user E uid uname (Some h) w = (Ok u', w1)
    /\ dict_get Z.eqb uid (users w1) = Some u'
    /\ expires_at u' = Some (grant_base E w uid + d)
    /\ warning_sent u' = false
    /\ vip_users w1 = vip_users w /\ fsm w1 = fsm w
    /\ calls w1 = (WriteDataFile (dump_users (users w1)), ok) :: calls w.
Proof.
  intros Hd Hv. rewrite upsert_run. cbv zeta. rewrite Hd.
  unfold grant_base in *.
  set (r0 := match dict_get Z.eqb uid (users w) with
             | Some r => r
             | None => UserData_init uid uname
             end) in *.
  set (r1 := if str_truthy uname then set_username r0 uname else r0) in *.
  assert (expires_at r1
          = match dict_get Z.eqb uid (users w) with
            | Some u => expires_at u
            | None => None
            end) as He1.
  { unfold r1, r0. destruct (str_truthy uname);
      destruct (dict_get Z.eqb uid (users w)); reflexivity. }
  rewrite He1.
  destruct (dict_get Z.eqb uid (users w)) as [u0 |];
    [destruct (expires_at u0) as [e |];
     [destruct (clock E (clock_reads w) <? e) |] |];
    unfold dt_add; rewrite Hv;
    (eexists; eexists; eexists; split; [reflexivity |]);
    cbn [users vip_users fsm calls log with_calls set_warning_sent
         set_expires_at expires_at warning_sent];
    (split; [apply dict_get_set_same |]); auto 6.
Qed.

(** The notice of a grant never raises and changes nothing but the clock
    and the list of requests. *)
Lemma notify_user_subscription_run (E : Env) (uid : Z) (u : UserData)
      (w : World) :
  exists w',
    notify_user_subscription E uid u w = (Ok tt, w')
    /\ users w' = users w /\ vip_users w' = vip_users w /\ fsm w' = fsm w
    /\ exists new,
        calls w' = new ++ calls w
        /\ Forall (fun cb => is_message (fst cb) = true) new.
Proof.
  unfold notify_user_subscription, try_except.
  destruct (expires_at u) as [e |].
  - unfold bind at 1. unfold time_remaining, bind at 1.
    unfold datetime_now at 1. unfold ret at 1.
    unfold bind at 1. unfold expiry_date, ret at 1.
    rewrite request_run.
    destruct (transport E _ _); eexists; (split; [reflexivity |]);
      cbn [users vip_users fsm calls log with_calls with_clock_reads];
      repeat (split; [reflexivity |]);
      (eexists [_]; split; [reflexivity | now repeat constructor]).
  - exists w. split; [reflexivity |]. repeat (split; [reflexivity |]).
    exists []. split; [reflexivity | constructor].
Qed.

(** X10.  A grant by a preset button that an admin presses, with hours whose
    new expiry exists, is stored and written whatever becomes of the notices
    and replies that follow: the record of the user then has the new expiry
    with the warning flag down, even when the handler ends with an
    exception. *)
Theorem callback_add_time_grant_survives (E : Env) (sender uid : Z)
        (hours : pyfloat) (d : timedelta) (w : World) :
  is_admin E sender = true ->
  timedelta_hours hours = Ok d ->
  dt_valid (grant_base E w uid + d) = true ->
  exists res w' u',
    callback_add_time E sender uid hours w = (res, w')
    /\ dict_get Z.eqb uid (users w') = Some u'
    /\ expires_at u' = Some (grant_base E w uid + d)
    /\ warning_sent u' = false
    /\ issued w w' (WriteDataFile (dump_users (users w'))).
Proof.
  intros Hadmin Hd Hv.
  destruct (upsert_grant_ok E uid None hours d w Hd Hv)
    as (u' & w1 & ok & Hrun & Hget & He & Hws & _ & _ & Hc1).
  unfold callback_add_time. rewrite Hadmin. cbn [negb].
  unfold bind at 1. rewrite Hrun.
  assert (forall res w',
             users w' = users w1 ->
             (exists new, calls w' = new ++ calls w1) ->
             exists (res0 : result unit) (w0 : World) (u0 : UserData),
               (res, w') = (res0, w0)
               /\ dict_get Z.eqb uid (users w0) = Some u0
               /\ expires_at u0 = Some (grant_base E w uid + d)
               /\ warning_sent u0 = false
               /\ issued w w0 (WriteDataFile (dump_users (users w0))))
    as Hdone.
  { intros res w' Hu (new & Hc). exists res, w', u'.
    split; [reflexivity |]. rewrite Hu. split; [exact Hget |].
    split; [exact He |]. split; [exact Hws |].
    exists ok.
    rewrite (emitted_app w w' (new ++ [(WriteDataFile (dump_users (users w1)), ok)])).
    - apply in_or_app. right. now left.
    - rewrite Hc, Hc1, <- app_assoc. reflexivity. }
  unfold bind at 1.
  destruct (notify_user_subscription_run E uid u' w1)
    as (wn & Hn & Hun & _ & _ & newn & Hcn & _).
  rewrite Hn. rewrite He.
  unfold bind at 1. unfold time_remaining, bind at 1.
  unfold datetime_now at 1. unfold ret at 1.
  unfold bind at 1. unfold expiry_date, ret at 1.
  unfold bind at 1. rewrite request_run.
  destruct (transport E _ _).
  - rewrite request_run. apply Hdone.
    + cbn [users log with_calls with_clock_reads]. exact Hun.
    + eexists (_ :: _ :: newn). cbn [calls log with_calls with_clock_reads].
      rewrite Hcn. reflexivity.
  - apply Hdone.
    + cbn [users log with_calls with_clock_reads]. exact Hun.
    + eexists (_ :: newn). cbn [calls log with_calls with_clock_reads].
      rewrite Hcn. reflexivity.
Qed.

Lemma callback_add_time_grant_survives_witness :
  let E := sample_env messages_fail in
  let w := world_of [] [] in
  is_admin E 1000 = true
  /\ timedelta_hours (FFin 24) = Ok (24 * US_PER_HOUR)
  /\ dt_valid (grant_base E w 42 + 24 * US_PER_HOUR) = true
  /\ exists res w' u',
      callback_add_time E 1000 42 (FFin 24) w = (res, w')
      /\ dict_get Z.eqb 42 (users w') = Some u'
      /\ expires_at u' = Some (grant_base E w 42 + 24 * US_PER_HOUR)
      /\ warning_sent u' = false
      /\ issued w w' (WriteDataFile (dump_users (users w'))).
Proof.
  cbv zeta. split; [reflexivity |]. split; [reflexivity |].
  split; [reflexivity |].
  exact (callback_add_time_grant_survives
           (sample_env messages_fail) 1000 42 (FFin 24) (24 * US_PER_HOUR)
           (world_of [] []) eq_refl eq_refl eq_refl).
Defined.

(** X11.  A grant of custom hours above zero that an admin types for the
    pending user, with hours whose new expiry exists, is stored and written
    whatever becomes of the notice and of the answers that follow: the
    record of the user then has the new expiry with the warning flag
    down. *)
Theorem custom_hours_grant_survives (E : Env) (sender uid : Z)
        (hours : pyfloat) (d : timedelta) (w : World) :
  is_admin E sender = true ->
  float_le0 hours = false ->
  fsm_user_id (match dict_get Z.eqb sender (fsm w) with
               | Some c => c
               | None => fsm_empty
               end) = Some uid ->
  uid <> 0 ->
  timedelta_hours hours = Ok d ->
  dt_valid (grant_base E w uid + d) = true ->
  exists res w' u',
    process_custom_hours E sender (Some hours) w = (res, w')
    /\ dict_get Z.eqb uid (users w') = Some u'
    /\ expires_at u' = Some (grant_base E w uid + d)
    /\ warning_sent u' = false
    /\ issued w w' (WriteDataFile (dump_users (users w'))).
Proof.
  intros Hadmin Hpos Hfsm Hne Hd Hv.
  destruct (upsert_grant_ok E uid None hours d w Hd Hv)
    as (u' & w1 & ok & Hrun & Hget & He & Hws & _ & _ & Hc1).
  unfold process_custom_hours. rewrite Hadmin, Hpos. cbn [negb].
  assert (forall res w',
             users w' = users w1 ->
             (exists new, calls w' = new ++ calls w1) ->
             exists (res0 : result unit) (w0 : World) (u0 : UserData),
               (res, w') = (res0, w0)
               /\ dict_get Z.eqb uid (users w0) = Some u0
               /\ expires_at u0 = Some (grant_base E w uid + d)
               /\ warning_sent u0 = false
               /\ issued w w0 (WriteDataFile (dump_users (users w0))))
    as Hdone.
  { intros res w' Hu (new & Hc). exists res, w', u'.
    split; [reflexivity |]. rewrite Hu. split; [exact Hget |].
    split; [exact He |]. split; [exact Hws |].
    exists ok.
    rewrite (emitted_app w w' (new ++ [(WriteDataFile (dump_users (users w1)), ok)])).
    - apply in_or_app. right. now left.
    - rewrite Hc, Hc1, <- app_assoc. reflexivity. }
  unfold try_except. unfold bind at 1. unfold get_fsm at 1. rewrite Hfsm.
  cbn [id_truthy].
  replace (uid =? 0) with false by (symmetry; now apply Z.eqb_neq).
  cbn [negb]. unfold bind at 1. rewrite Hrun.
  unfold bind at 1.
  destruct (notify_user_subscription_run E uid u' w1)
    as (wn & Hn & Hun & _ & _ & newn & Hcn & _).
  rewrite Hn. rewrite He.
  unfold bind at 1. unfold time_remaining, bind at 1.
  unfold datetime_now at 1. unfold ret at 1.
  unfold bind at 1. unfold expiry_date, ret at 1.
  unfold bind at 1. rewrite request_run.
  destruct (transport E _ _).
  - unfold state_clear. apply Hdone.
    + cbn [users log with_calls with_clock_reads with_fsm]. exact Hun.
    + eexists (_ :: newn).
      cbn [calls log with_calls with_clock_reads with_fsm].
      rewrite Hcn. reflexivity.
  - cbn [exn_of_call]. unfold bind at 1. rewrite request_run.
    destruct (transport E _ _).
    + unfold state_clear. apply Hdone.
      * cbn [users log with_calls with_clock_reads with_fsm]. exact Hun.
      * eexists (_ :: _ :: newn).
        cbn [calls log with_calls with_clock_reads with_fsm].
        rewrite Hcn. reflexivity.
    + apply Hdone.
      * cbn [users log with_calls with_clock_reads with_fsm]. exact Hun.
      * eexists (_ :: _ :: newn).
        cbn [calls log with_calls with_clock_reads with_fsm].
        rewrite Hcn. reflexivity.
Qed.

Lemma custom_hours_grant_survives_witness :
  let E := sample_env messages_fail in
  let w := mkWorld [] [] [(1000, mkFSM (Some waiting_for_custom_hours)
                                       (Some 42) None)] [] 0 in
  is_admin E 1000 = true /\ float_le0 (FFin (3 # 2)) = false
  /\ 42 <> 0
  /\ timedelta_hours (FFin (3 # 2)) = Ok 5400000000
  /\ dt_valid (grant_base E w 42 + 5400000000) = true
  /\ exists res w' u',
      process_custom_hours E 1000 (Some (FFin (3 # 2))) w = (res, w')
      /\ dict_get Z.eqb 42 (users w') = Some u'
      /\ expires_at u' = Some (grant_base E w 42 + 5400000000)
      /\ warning_sent u' = false
      /\ issued w w' (WriteDataFile (dump_users (users w'))).
Proof.
  cbv zeta.
  assert (42 <> 0) as Hne by discriminate.
  split; [reflexivity |]. split; [reflexivity |]. split; [exact Hne |].
  split; [reflexivity |]. split; [reflexivity |].
  exact (custom_hours_grant_survives
           (sample_env messages_fail) 1000 42 (FFin (3 # 2)) 5400000000
           (mkWorld [] [] [(1000, mkFSM (Some waiting_for_custom_hours)
                                        (Some 42) None)] [] 0)
           eq_refl eq_refl eq_refl Hne eq_refl eq_refl).
Defined.

(** ** The allowlist *)

Lemma mem_In (x : Z) (l : list Z) : mem x l = true <-> In x l.
Proof.
  unfold mem. rewrite existsb_exists. split.
  - intros (y & Hy & Heq). apply Z.eqb_eq in Heq. now subst.
  - intros H. exists x. split; [exact H | apply Z.eqb_refl].
Qed.

Lemma mem_app (x : Z) (l1 l2 : list Z) :
  mem x (l1 ++ l2) = mem x l1 || mem x l2.
Proof. unfold mem. apply existsb_app. Qed.

Lemma list_remove_incl (x : Z) (l : list Z) : incl (list_remove x l) l.
Proof.
  induction l as [| y l IH]; cbn [list_remove]; [apply incl_refl |].
  destruct (x =? y); [apply incl_tl, incl_refl |].
  apply incl_cons; [now left | now apply incl_tl].
Qed.

Lemma list_remove_nodup (x : Z) (l : list Z) :
  NoDup l -> NoDup (list_remove x l).
Proof.
  induction l as [| y l IH]; cbn [list_remove]; [trivial |].
  intros H. inversion H as [| ? ? Hnotin Hnd]; subst.
  destruct (x =? y); [exact Hnd |]. constructor; [| now apply IH].
  intros Hin. apply Hnotin. now apply (list_remove_incl x l).
Qed.

Lemma mem_list_remove_other (x k : Z) (l : list Z) :
  k <> x -> mem k (list_remove x l) = mem k l.
Proof.
  intros Hne. induction l as [| y l IH]; cbn [list_remove]; [reflexivity |].
  destruct (x =? y) eqn:E.
  - apply Z.eqb_eq in E. subst y. unfold mem. cbn [existsb].
    replace (k =? x) with false by (symmetry; now apply Z.eqb_neq).
    reflexivity.
  - unfold mem in *. cbn [existsb]. now rewrite IH.
Qed.

Lemma mem_list_remove_same (x : Z) (l : list Z) :
  NoDup l -> mem x (list_remove x l) = false.
Proof.
  induction l as [| y l IH]; cbn [list_remove]; [reflexivity |].
  intros H. inversion H as [| ? ? Hnotin Hnd]; subst.
  destruct (x =? y) eqn:E.
  - apply Z.eqb_eq in E. subst y.
    destruct (mem x l) eqn:Hm; [| reflexivity].
    apply mem_In in Hm. contradiction.
  - unfold mem in *. cbn [existsb]. rewrite E. now apply IH.
Qed.

Lemma vip_save_data_run (E : Env) (w : World) :
  vip_save_data E w = (Ok tt, log E (WriteVipFile (vip_users w)) w).
Proof.
  unfold vip_save_data, try_except, bind, get_world. rewrite request_run.
  destruct (transport E (calls w) _); reflexivity.
Qed.

(** X12.  Adding a user to the allowlist: the user is on it afterwards, the
    membership of every other user is as before, no id comes to stand twice,
    and the grant store is untouched; adding a member is no operation at
    all, and adding a new one puts it last and writes the allowlist file. *)
Theorem add_vip_spec (E : Env) (uid : Z) (w : World) :
  exists w',
    add_vip E uid w = (Ok tt, w')
    /\ mem uid (vip_users w') = true
    /\ (forall k, k <> uid -> mem k (vip_users w') = mem k (vip_users w))
    /\ (NoDup (vip_users w) -> NoDup (vip_users w'))
    /\ users w' = users w
    /\ (mem uid (vip_users w) = true -> w' = w)
    /\ (mem uid (vip_users w) = false ->
        vip_users w' = vip_users w ++ [uid]
        /\ calls w'
           = (WriteVipFile (vip_users w'),
              transport E (calls w) (WriteVipFile (vip_users w')))
               :: calls w).
Proof.
  unfold add_vip, bind, get_world.
  destruct (mem uid (vip_users w)) eqn:Hm.
  - exists w. split; [reflexivity |]. split; [exact Hm |].
    split; [reflexivity |]. split; [trivial |]. split; [reflexivity |].
    split; [reflexivity | discriminate].
  - rewrite vip_save_data_run. eexists. split; [reflexivity |].
    cbn [vip_users users calls log with_calls with_vip_users].
    split; [rewrite mem_app, Hm; unfold mem; cbn; now rewrite Z.eqb_refl |].
    split.
    { intros k Hk. rewrite mem_app. unfold mem at 2. cbn [existsb].
      replace (k =? uid) with false by (symmetry; now apply Z.eqb_neq).
      now rewrite !orb_false_r. }
    split.
    { intros Hnd. apply NoDup_app; [exact Hnd | repeat constructor; intros [] |].
      intros x Hx [<- | []]. apply mem_In in Hx. congruence. }
    split; [reflexivity |]. split; [discriminate |]. intros _. now split.
Qed.

Lemma add_vip_spec_witness :
  let E := sample_env all_succeed in
  let w := world_of [] [5] in
  NoDup (vip_users w) /\ mem 7 (vip_users w) = false
  /\ exists w',
      add_vip E 7 w = (Ok tt, w')
      /\ mem 7 (vip_users w') = true
      /\ NoDup (vip_users w')
      /\ vip_users w' = vip_users w ++ [7].
Proof.
  cbv zeta.
  assert (NoDup (vip_users (world_of [] [5]))) as Hnd
      by (repeat constructor; cbn; tauto).
  split; [exact Hnd |]. split; [reflexivity |].
  destruct (add_vip_spec (sample_env all_succeed) 7 (world_of [] [5]))
    as (w' & Hrun & Hm & _ & Hn & _ & _ & Hnew).
  exists w'. split; [exact Hrun |]. split; [exact Hm |].
  split; [exact (Hn Hnd) |]. exact (proj1 (Hnew eq_refl)).
Defined.

(** X13.  Removing a user from the allowlist: the membership of every other
    user is as before, no id comes to stand twice, and the grant store is
    untouched; removing a user who is not on it is no operation at all;
    removing a member writes the allowlist file, and the user is off the
    list afterwards when no id stood twice on it. *)
Theorem remove_vip_spec (E : Env) (uid : Z) (w : World) :
  exists w',
    remove_vip E uid w = (Ok tt, w')
    /\ (NoDup (vip_users w) -> mem uid (vip_users w') = false)
    /\ (forall k, k <> uid -> mem k (vip_users w') = mem k (vip_users w))
    /\ (NoDup (vip_users w) -> NoDup (vip_users w'))
    /\ users w' = users w
    /\ (mem uid (vip_users w) = false -> w' = w)
    /\ (mem uid (vip_users w) = true ->
        calls w'
        = (WriteVipFile (vip_users w'),
           transport E (calls w) (WriteVipFile (vip_users w')))
            :: calls w).
Proof.
  unfold remove_vip, bind, get_world.
  destruct (mem uid (vip_users w)) eqn:Hm.
  - rewrite vip_save_data_run. eexists. split; [reflexivity |].
    cbn [vip_users users calls log with_calls with_vip_users].
    split; [apply mem_list_remove_same |].
    split; [intros k Hk; now apply mem_list_remove_other |].
    split; [apply list_remove_nodup |].
    split; [reflexivity |]. split; [discriminate | reflexivity].
  - exists w. split; [reflexivity |]. split; [intros _; exact Hm |].
    split; [reflexivity |]. split; [trivial |]. split; [reflexivity |].
    split; [reflexivity | discriminate].
Qed.

Lemma remove_vip_spec_witness :
  let E := sample_env all_succeed in
  let w := world_of [] [5; 7] in
  NoDup (vip_users w) /\ 5 <> 7
  /\ exists w',
      remove_vip E 7 w = (Ok tt, w')
      /\ mem 7 (vip_users w') = false
      /\ mem 5 (vip_users w') = mem 5 (vip_users w)
      /\ NoDup (vip_users w').
Proof.
  cbv zeta.
  assert (NoDup (vip_users (world_of [] [5; 7]))) as Hnd
      by (repeat constructor; cbn; intuition discriminate).
  assert (5 <> 7) as Hne by discriminate.
  split; [exact Hnd |]. split; [exact Hne |].
  destruct (remove_vip_spec (sample_env all_succeed) 7 (world_of [] [5; 7]))
    as (w' & Hrun & Hoff & Hother & Hn & _).
  exists w'. split; [exact Hrun |]. split; [exact (Hoff Hnd) |].
  split; [exact (Hother 5 Hne) | exact (Hn Hnd)].
Defined.

(** ** Removal from the store *)

(** X14.  Removing a user from the store: for a user without record it is no
    operation at all; otherwise the record is deleted and the write of the
    whole store is the one request made; the records of the other users stay,
    a well-formed store stays well formed, and in a store with no key twice
    the user has no record afterwards. *)
Theorem remove_user_spec (E : Env) (uid : Z) (w : World) :
  exists w',
    remove_user E uid w = (Ok tt, w')
    /\ (dict_get Z.eqb uid (users w) = None -> w' = w)
    /\ (forall r, dict_get Z.eqb uid (users w) = Some r ->
                  users w' = dict_del Z.eqb uid (users w)
                  /\ calls w'
                     = (WriteDataFile (dump_users (users w')),
                        transport E (calls w)
                                  (WriteDataFile (dump_users (users w'))))
                         :: calls w)
    /\ (forall k, k <> uid ->
                  dict_get Z.eqb k (users w') = dict_get Z.eqb k (users w))
    /\ (NoDup (dict_keys (users w)) -> dict_get Z.eqb uid (users w') = None)
    /\ (store_wf (users w) -> store_wf (users w'))
    /\ vip_users w' = vip_users w.
Proof.
  rewrite remove_user_run. unfold dict_mem. eexists. split; [reflexivity |].
  destruct (dict_get Z.eqb uid (users w)) as [r |] eqn:Hget.
  - cbv zeta. cbn [users vip_users calls log with_calls with_users].
    split; [discriminate |].
    split; [intros r0 _; now split |].
    split.
    { intros k Hk. apply dict_get_del_other; [| apply Z_eqb_iff].
      now apply Z.eqb_neq. }
    split.
    { intros Hnd. rewrite (dict_get_del Z.eqb Z_eqb_iff) by exact Hnd.
      now rewrite Z.eqb_refl. }
    split; [apply store_wf_del | reflexivity].
  - split; [reflexivity |]. split; [discriminate |].
    split; [reflexivity |]. split; [intros _; exact Hget |].
    split; [trivial | reflexivity].
Qed.

Lemma remove_user_spec_witness :
  let E := sample_env all_succeed in
  let r := mkUserData 7 None (Some noon) false in
  let w := world_of [(7, r); (9, mkUserData 9 None None false)] [] in
  NoDup (dict_keys (users w)) /\ 9 <> 7
  /\ exists w',
      remove_user E 7 w = (Ok tt, w')
      /\ dict_get Z.eqb 7 (users w') = None
      /\ dict_get Z.eqb 9 (users w') = dict_get Z.eqb 9 (users w).
Proof.
  cbv zeta.
  pose (w := world_of [(7, mkUserData 7 None (Some noon) false);
                       (9, mkUserData 9 None None false)] []).
  assert (NoDup (dict_keys (users w))) as Hnd
      by (repeat constructor; cbn; intuition discriminate).
  assert (9 <> 7) as Hne by discriminate.
  split; [exact Hnd |]. split; [exact Hne |].
  destruct (remove_user_spec (sample_env all_succeed) 7 w)
    as (w' & Hrun & _ & _ & Hother & Hgone & _).
  exists w'. split; [exact Hrun |]. split; [exact (Hgone Hnd) |].
  exact (Hother 9 Hne).
Defined.

(** ** Loading *)





(** ** The sweeper at large *)

Ltac step_split :=
  unfold sweeper_step; split; [| split; [| split; [| split]]].

Lemma sweeper_step_refl (w : World) : sweeper_step w w.
Proof.
  step_split; auto using incl_refl.
  exists []. split; [reflexivity | constructor].
Qed.

Lemma sweeper_step_trans (w1 w2 w3 : World) :
  sweeper_step w1 w2 -> sweeper_step w2 w3 -> sweeper_step w1 w3.
Proof.
  intros (Hv & Hf & Hi & Hw & new & Hc & Hn)
         (Hv' & Hf' & Hi' & Hw' & new' & Hc' & Hn').
  step_split.
  - congruence.
  - congruence.
  - eapply incl_tran; eassumption.
  - auto.
  - exists (new' ++ new). split.
    + rewrite Hc', Hc. apply app_assoc.
    + apply Forall_app. now split.
Qed.

Lemma sweeper_step_log_all (E : Env) (cs : list call) (w : World) :
  Forall (fun c => is_sweeper_call c = true) cs ->
  sweeper_step w (log_all E cs w).
Proof.
  intros Hcs. step_split.
  - apply log_all_vip_users.
  - apply log_all_fsm.
  - rewrite log_all_users. apply incl_refl.
  - now rewrite log_all_users.
  - exact (log_all_messages E cs w (fun c => is_sweeper_call c = true) Hcs).
Qed.

Lemma sweeper_step_log (E : Env) (c : call) (w : World) :
  is_sweeper_call c = true -> sweeper_step w (log E c w).
Proof.
  intros Hc. apply (sweeper_step_log_all E [c] w). now constructor.
Qed.

Lemma kick_user_step (E : Env) (uid : Z) (w : World) :
  exists w', kick_user E uid w = (Ok tt, w') /\ sweeper_step w w'.
Proof.
  rewrite kick_user_run. eexists. split; [reflexivity |]. cbv zeta.
  set (ban := BanChatMember (CHANNEL_ID E) uid).
  set (unban := UnbanChatMember (CHANNEL_ID E) uid).
  assert (sweeper_step w (log E ban w)) as F1
      by (now apply sweeper_step_log).
  destruct (transport E (calls w) ban); [| exact F1].
  assert (sweeper_step (log E ban w) (log E unban (log E ban w))) as F2
      by (now apply sweeper_step_log).
  destruct (transport E (calls (log E ban w)) unban);
    [| exact (sweeper_step_trans _ _ _ F1 F2)].
  apply (sweeper_step_trans _ _ _ F1). apply (sweeper_step_trans _ _ _ F2).
  set (w2 := log E unban (log E ban w)).
  apply (sweeper_step_trans _ (log E (SendMessage uid MsgUserKick) w2));
    [now apply sweeper_step_log |].
  set (w3 := log E (SendMessage uid MsgUserKick) w2).
  match goal with
  | |- sweeper_step w3 (snd (remove_user E uid ?w0)) =>
      apply (sweeper_step_trans _ w0)
  end.
  { apply sweeper_step_log_all. apply Forall_forall. intros c Hc.
    apply in_map_iff in Hc. now destruct Hc as (a & <- & _). }
  rewrite remove_user_run. cbn [snd].
  match goal with |- sweeper_step ?w0 _ => set (w4 := w0) end.
  destruct (dict_mem Z.eqb uid (users w4)); [| apply sweeper_step_refl].
  cbv zeta. eapply sweeper_step_trans; [| now apply sweeper_step_log].
  step_split; try reflexivity.
  - cbn [users with_users]. apply dict_keys_del_incl.
  - cbn [users with_users]. apply store_wf_del.
  - exists []. split; [reflexivity | constructor].
Qed.

Lemma send_warning_step (E : Env) (uid : Z) (w : World) :
  exists w', send_warning E uid w = (Ok tt, w') /\ sweeper_step w w'.
Proof.
  rewrite send_warning_run. eexists. split; [reflexivity |].
  destruct (dict_get Z.eqb uid (users w)) as [r |] eqn:Hget;
    [| apply sweeper_step_refl].
  destruct (expires_at r) as [e |]; [| apply sweeper_step_refl].
  cbv zeta.
  set (tl := format_time_remaining (clock E (clock_reads w)) e).
  set (w1 := with_clock_reads w (S (clock_reads w))).
  set (w2 := log E (SendMessage uid (MsgWarning tl)) w1).
  set (w3 := log_all E _ w2).
  assert (sweeper_step w w3) as F3.
  { apply (sweeper_step_trans _ w1).
    { step_split; try reflexivity; auto using incl_refl.
      exists []. split; [reflexivity | constructor]. }
    apply (sweeper_step_trans _ w2); [now apply sweeper_step_log |].
    apply sweeper_step_log_all. apply Forall_forall. intros c Hc.
    apply in_map_iff in Hc. now destruct Hc as (a & <- & _). }
  assert (users w3 = users w) as Hu3 by (unfold w3; now rewrite log_all_users).
  apply (sweeper_step_trans _ w3); [exact F3 |].
  eapply sweeper_step_trans; [| now apply sweeper_step_log].
  step_split; try reflexivity.
  - cbn [users with_users]. rewrite (dict_keys_set Z.eqb). unfold dict_mem.
    rewrite Hu3, Hget. apply incl_refl.
  - cbn [users with_users]. rewrite Hu3. intros Hwf.
    apply store_wf_set; [| exact Hwf].
    cbn [set_warning_sent user_id]. exact (store_wf_get _ _ _ Hwf Hget).
  - exists []. split; [reflexivity | constructor].
Qed.

Lemma check_user_step (E : Env) (now : datetime) (x : UserData) (w : World) :
  exists w', check_user E now x w = (Ok tt, w') /\ sweeper_step w w'.
Proof.
  unfold check_user.
  destruct (expires_at x) as [e |];
    [| exists w; split; [reflexivity | apply sweeper_step_refl]].
  destruct (e <=? now); [apply kick_user_step |].
  unfold bind, is_special_user, is_vip.
  match goal with
  | |- context [if ?b then _ else _] => destruct b
  end.
  - apply send_warning_step.
  - exists w. split; [reflexivity | apply sweeper_step_refl].
Qed.

Lemma for_each_step {A : Type} (f : A -> M unit) (l : list A) :
  (forall x w, exists w', f x w = (Ok tt, w') /\ sweeper_step w w') ->
  forall w, exists w', for_each l f w = (Ok tt, w') /\ sweeper_step w w'.
Proof.
  intros Hf. induction l as [| a l IH]; intros w; cbn [for_each].
  - exists w. split; [reflexivity | apply sweeper_step_refl].
  - destruct (Hf a w) as (w1 & Ha & Hs). destruct (IH w1) as (w2 & Hl & Hs').
    exists w2. unfold bind. rewrite Ha. split; [exact Hl |].
    now apply (sweeper_step_trans w w1 w2).
Qed.

Lemma tick_step (E : Env) (w : World) :
  exists w', check_users_iteration E w = (Ok tt, w') /\ sweeper_step w w'.
Proof.
  unfold check_users_iteration, try_except, bind, datetime_now, get_all_users.
  set (w0 := with_clock_reads w (S (clock_reads w))).
  destruct (for_each_step (check_user E (clock E (clock_reads w)))
                          (dict_values (users w0))
                          (check_user_step E (clock E (clock_reads w))) w0)
    as (w' & Hrun & Hs).
  exists w'. rewrite Hrun. split; [reflexivity |].
  apply (sweeper_step_trans _ w0); [| exact Hs].
  step_split; try reflexivity; auto using incl_refl.
  exists []. split; [reflexivity | constructor].
Qed.

(** X16.  Any number of sweeper ticks, whatever the platform does: the
    sweeper returns; it leaves the allowlist and the conversations as they
    are; it adds no user to the store and keeps a well-formed store well
    formed; and all it requests are bans, unbans, messages and writes of the
    data file: it never approves or declines a join request and never answers
    an admin. *)
Theorem sweeper_invariants (E : Env) (n : nat) (w : World) :
  exists w',
    check_users_task E n w = (Ok tt, w')
    /\ vip_users w' = vip_users w
    /\ fsm w' = fsm w
    /\ incl (dict_keys (users w')) (dict_keys (users w))
    /\ (store_wf (users w) -> store_wf (users w'))
    /\ Forall (fun cb => is_sweeper_call (fst cb) = true) (emitted w w').
Proof.
  assert (exists w', check_users_task E n w = (Ok tt, w') /\ sweeper_step w w')
    as (w' & Hrun & Hv & Hf & Hi & Hw & new & Hc & Hn).
  { revert w. induction n as [| n IH]; intros w; cbn [check_users_task].
    - exists w. split; [reflexivity | apply sweeper_step_refl].
    - destruct (tick_step E w) as (w1 & Hrun & Hs).
      destruct (IH w1) as (w2 & Hrun2 & Hs2).
      exists w2. unfold bind. rewrite Hrun. split; [exact Hrun2 |].
      now apply (sweeper_step_trans w w1 w2). }
  exists w'. rewrite (emitted_app _ _ _ Hc). auto 8.
Qed.

Lemma sweeper_invariants_witness :
  let E := sample_env ban_fails in
  let w := world_of [(7, mkUserData 7 None (Some (noon - 1)) false)] [5] in
  store_wf (users w)
  /\ exists w',
      check_users_task E 2 w = (Ok tt, w')
      /\ vip_users w' = vip_users w
      /\ store_wf (users w').
Proof.
  cbv zeta.
  pose (w := world_of [(7, mkUserData 7 None (Some (noon - 1)) false)] [5]).
  assert (store_wf (users w)) as Hwf
      by (split; repeat constructor; cbn; tauto).
  split; [exact Hwf |].
  destruct (sweeper_invariants (sample_env ban_fails) 2 w)
    as (w' & Hrun & Hv & _ & _ & Hw & _).
  exists w'. split; [exact Hrun |]. split; [exact Hv | exact (Hw Hwf)].
Defined.

(** A tick in which the record of [u] is passed over whatever the world
    around it: the record stays and no request concerns [u]. *)
Lemma tick_spares (E : Env) (u : Z) (r : UserData) (w : World) :
  store_wf (users w) ->
  dict_get Z.eqb u (users w) = Some r ->
  (forall wa, vip_users wa = vip_users w ->
              check_user E (clock E (clock_reads w)) r wa = (Ok tt, wa)) ->
  exists w',
    check_users_iteration E w = (Ok tt, w')
    /\ dict_get Z.eqb u (users w') = Some r
    /\ Forall (fun cb => about_user u (fst cb) = false) (emitted w w').
Proof.
  intros Hwf Hget Hskip.
  destruct (tick_decompose E u r w Hwf Hget)
    as (wa & wb & w' & Hrun & Fa & Hr & Fb).
  rewrite (Hskip wa (frame_vip _ _ _ Fa)) in Hr. injection Hr as <-.
  pose proof (sweeper_frame_trans _ _ _ _ Fa Fb) as F.
  exists w'. split; [exact Hrun |].
  split; [rewrite (frame_get _ _ _ F); exact Hget | now apply frame_emitted].
Qed.

(** X17.  A user on the allowlist whose grant has not expired is never
    warned: a sweeper tick leaves the record as it is, flag included, and
    makes no request that concerns the user, however close the expiry. *)
Theorem sweeper_spares_allowlisted (E : Env) (w : World) (u : Z)
        (r : UserData) (e : datetime) :
  store_wf (users w) ->
  dict_get Z.eqb u (users w) = Some r ->
  expires_at r = Some e ->
  clock E (clock_reads w) < e ->
  mem u (vip_users w) = true ->
  exists w',
    check_users_iteration E w = (Ok tt, w')
    /\ dict_get Z.eqb u (users w') = Some r
    /\ Forall (fun cb => about_user u (fst cb) = false) (emitted w w').
Proof.
  intros Hwf Hget He Hlt Hvip. apply (tick_spares E u r w Hwf Hget).
  intros wa Hva. unfold check_user. rewrite He.
  replace (e <=? clock E (clock_reads w)) with false
    by (symmetry; apply Z.leb_gt; exact Hlt).
  unfold bind, is_special_user, is_vip.
  rewrite (store_wf_get _ _ _ Hwf Hget), Hva, Hvip.
  now rewrite andb_false_r.
Qed.

Lemma sweeper_spares_allowlisted_witness :
  let E := sample_env all_succeed in
  let r := mkUserData 7 None (Some (noon + 1)) false in
  let w := world_of [(7, r)] [7] in
  store_wf (users w) /\ clock E (clock_reads w) < noon + 1
  /\ mem 7 (vip_users w) = true
  /\ exists w',
      check_users_iteration E w = (Ok tt, w')
      /\ dict_get Z.eqb 7 (users w') = Some r
      /\ Forall (fun cb => about_user 7 (fst cb) = false) (emitted w w').
Proof.
  cbv zeta.
  pose (w := world_of [(7, mkUserData 7 None (Some (noon + 1)) false)] [7]).
  assert (store_wf (users w)) as Hwf
      by (split; repeat constructor; cbn; tauto).
  assert (clock (sample_env all_succeed) (clock_reads w) < noon + 1) as Hlt
      by reflexivity.
  split; [exact Hwf |]. split; [exact Hlt |]. split; [reflexivity |].
  exact (sweeper_spares_allowlisted
           (sample_env all_succeed) w 7
           (mkUserData 7 None (Some (noon + 1)) false) (noon + 1)
           Hwf eq_refl eq_refl Hlt eq_refl).
Defined.



(** ** Access, notices and warnings on their own *)

(** X19.  The access check answers true exactly when the user has a record
    whose expiry is after the instant it reads from the clock; it reads the
    clock only when the record has an expiry, and it changes neither the
    store nor the allowlist and makes no request. *)
Theorem has_valid_access_spec (E : Env) (uid : Z) (w : World) :
  exists b w',
    has_valid_access E uid w = (Ok b, w')
    /\ (b = true <->
        exists r e,
          dict_get Z.eqb uid (users w) = Some r /\ expires_at r = Some e
          /\ clock E (clock_reads w) < e)
    /\ users w' = users w /\ vip_users w' = vip_users w
    /\ calls w' = calls w
    /\ clock_reads w'
       = match dict_get Z.eqb uid (users w) with
         | Some r =>
             match expires_at r with
             | Some _ => S (clock_reads w)
             | None => clock_reads w
             end
         | None => clock_reads w
         end.
Proof.
  unfold has_valid_access, bind, get_user.
  destruct (dict_get Z.eqb uid (users w)) as [r |] eqn:Hget.
  - destruct (expires_at r) as [e |] eqn:He.
    + unfold datetime_now, ret. eexists. eexists. split; [reflexivity |].
      cbn [users vip_users calls clock_reads with_clock_reads].
      split; [| auto]. split.
      * intros Hlt. exists r, e. apply Z.ltb_lt in Hlt. auto.
      * intros (r0 & e0 & [= <-] & He0 & Hlt). rewrite He in He0.
        injection He0 as <-. now apply Z.ltb_lt.
    + exists false, w. split; [reflexivity |]. split; [| auto]. split.
      * discriminate.
      * intros (r0 & e0 & [= <-] & He0 & _). congruence.
  - exists false, w. split; [reflexivity |]. split; [| auto]. split.
    + discriminate.
    + intros (r0 & e0 & [=] & _).
Qed.

Lemma has_valid_access_spec_witness :
  let E := sample_env all_succeed in
  let w := world_of [(7, mkUserData 7 None (Some (noon + 1)) false);
                     (9, mkUserData 9 None (Some noon) false)] [] in
  has_valid_access E 7 w = (Ok true, with_clock_reads w 1)
  /\ has_valid_access E 9 w = (Ok false, with_clock_reads w 1)
  /\ has_valid_access E 11 w = (Ok false, w)
  /\ exists b w',
      has_valid_access E 7 w = (Ok b, w') /\ users w' = users w.
Proof.
  cbv zeta. split; [reflexivity |]. split; [reflexivity |].
  split; [reflexivity |].
  destruct (has_valid_access_spec
              (sample_env all_succeed) 7
              (world_of [(7, mkUserData 7 None (Some (noon + 1)) false);
                         (9, mkUserData 9 None (Some noon) false)] []))
    as (b & w' & Hrun & _ & Hu & _).
  exists b, w'. split; [exact Hrun | exact Hu].
Defined.

(** X20.  The notice of a grant to the user never raises, whatever the
    platform does and whether the record has an expiry or not; it changes
    neither the store nor the allowlist nor the conversations, and requests
    nothing but messages. *)
Theorem notify_user_subscription_harmless (E : Env) (uid : Z) (u : UserData)
        (w : World) :
  exists w',
    notify_user_subscription E uid u w = (Ok tt, w')
    /\ users w' = users w /\ vip_users w' = vip_users w /\ fsm w' = fsm w
    /\ Forall (fun cb => is_message (fst cb) = true) (emitted w w').
Proof.
  destruct (notify_user_subscription_run E uid u w)
    as (w' & Hrun & Hu & Hv & Hf & new & Hc & Hn).
  exists w'. rewrite (emitted_app _ _ _ Hc). auto 6.
Qed.

(** X21.  A warning is one attempt: for a record with an expiry the warning
    raises the flag of the stored record and writes the store whether or not
    the notices to the user and to the admins get through, and it raises
    nothing; for a user without record or without expiry it does nothing at
    all. *)
Theorem send_warning_marks_once (E : Env) (uid : Z) (w : World) :
  exists w',
    send_warning E uid w = (Ok tt, w')
    /\ (forall r e,
           dict_get Z.eqb uid (users w) = Some r -> expires_at r = Some e ->
           dict_get Z.eqb uid (users w') = Some (set_warning_sent r true)
           /\ issued w w' (WriteDataFile (dump_users (users w')))
           /\ exists time_left, issued w w' (SendMessage uid (MsgWarning time_left)))
    /\ ((dict_get Z.eqb uid (users w) = None
         \/ exists r, dict_get Z.eqb uid (users w) = Some r
                      /\ expires_at r = None) ->
        w' = w).
Proof.
  rewrite send_warning_run. eexists. split; [reflexivity |].
  destruct (dict_get Z.eqb uid (users w)) as [r |] eqn:Hget.
  - destruct (expires_at r) as [e |] eqn:He.
    + split.
      * intros r0 e0 [= <-] _. cbv zeta.
        set (tl := format_time_remaining (clock E (clock_reads w)) e).
        set (w1 := with_clock_reads w (S (clock_reads w))).
        set (c1 := SendMessage uid (MsgWarning tl)).
        set (w2 := log E c1 w1).
        destruct (log_all_calls E
                    (map (fun a =>
                            SendMessage a
                              (MsgAdminWarning (name_or_id (username r) uid)
                                               uid tl))
                         (ADMIN_IDS E)) w2) as (newa & Hca & _).
        set (w3 := log_all E _ w2) in *.
        cbn [users log with_calls with_users].
        split; [apply dict_get_set_same |].
        set (s' := dict_set Z.eqb uid (set_warning_sent r true) (users w3)).
        assert (calls (log E (WriteDataFile (dump_users s')) (with_users w3 s'))
                = ((WriteDataFile (dump_users s'),
                    transport E (calls w3) (WriteDataFile (dump_users s')))
                     :: newa ++ [(c1, transport E (calls w) c1)]) ++ calls w)
          as Hc.
        { cbn [calls log with_calls with_users]. rewrite Hca.
          unfold w2, w1. cbn [calls log with_calls with_clock_reads app].
          now rewrite <- app_assoc. }
        unfold issued. rewrite (emitted_app _ _ _ Hc).
        split; [eexists; left; reflexivity |].
        exists tl. eexists. right. apply in_or_app. right. left. reflexivity.
      * intros [H | (r0 & [= <-] & H)]; congruence.
    + split; [intros r0 e0 [= <-] H; congruence | reflexivity].
  - split; [intros r0 e0 [=] | reflexivity].
Qed.

Lemma send_warning_marks_once_witness :
  let E := sample_env messages_fail in
  let r := mkUserData 7 None (Some (noon + 1)) false in
  let w := world_of [(7, r)] [] in
  exists w',
    send_warning E 7 w = (Ok tt, w')
    /\ dict_get Z.eqb 7 (users w') = Some (set_warning_sent r true)
    /\ issued w w' (WriteDataFile (dump_users (users w'))).
Proof.
  cbv zeta.
  destruct (send_warning_marks_once
              (sample_env messages_fail) 7
              (world_of [(7, mkUserData 7 None (Some (noon + 1)) false)] []))
    as (w' & Hrun & Hmark & _).
  exists w'. split; [exact Hrun |].
  destruct (Hmark (mkUserData 7 None (Some (noon + 1)) false) (noon + 1)
                  eq_refl eq_refl) as (Hg & Hw & _).
  split; [exact Hg | exact Hw].
Defined.
